(** * Clipping API: the clip-assembly core, embedded and verified

    A shallow embedding of the Python sources under [app/]:
    [models.py], [buffer_index.py], [mediamtx_client.py],
    [clip_processor.py] and [job_manager.py].

    Conventions of the embedding.
    - A [datetime] is an integer number of microseconds (the resolution of
      Python's [datetime]) on the time line of naive datetimes, counted
      from 1970-01-01 00:00:00; the datetimes Python can represent are
      those from [datetime_min] to [datetime_max], and arithmetic that
      leaves that range, or the range of [timedelta], raises
      [OverflowError] ([datetime_add], [py_timedelta]).  Every datetime
      is naive: a mix of naive and timezone-aware values is not modelled.
    - A [timedelta] and every "seconds" quantity (keyframe offsets,
      [total_seconds()]) is an integer number of microseconds as well.
      [seconds n] is [n] seconds in that unit.  In the code the seconds
      are floats; a float on the microsecond grid is the double nearest to
      [k / 10^6].  Doubles tell such values apart, and order their
      differences as the exact values are ordered, as long as the
      magnitudes stay below 2^30 seconds (about 34 years): that bound is
      [float_exact_bound], and statements that depend on the float
      comparisons of the code carry it as a hypothesis.
    - A [str] is the sequence of its UTF-8 bytes; on ASCII text a byte is
      a character.
    - A Python exception is a value of [exn]; a call that may raise returns
      a [result].
    - A [dict] keyed by strings is a [gmap string _]. *)

From Stdlib Require Import ZArith List Bool Lia Sorted Ascii.
From Stdlib Require OrderedTypeEx.
From stdpp Require Import gmap strings list fin_maps sorting.
Import ListNotations.

Open Scope Z_scope.

(** ** Python prelude *)

Inductive exn : Type :=
| IndexError (msg : string)
| ValueError (msg : string)
| OSError (msg : string)
| ImportError (msg : string)
| OverflowError (msg : string).

Definition str_exn (e : exn) : string :=
  match e with
  | IndexError m | ValueError m | OSError m | ImportError m
  | OverflowError m => m
  end.

Inductive result (A : Type) : Type :=
| Ok (a : A)
| Raise (e : exn).
Arguments Ok {A} a.
Arguments Raise {A} e.

Definition rbind {A B} (r : result A) (k : A -> result B) : result B :=
  match r with
  | Ok a => k a
  | Raise e => Raise e
  end.

Global Instance result_bind : MBind result := fun A B k r => rbind r k.
Global Instance result_ret : MRet result := @Ok.

Definition usec_per_sec : Z := 1000000.
Definition seconds (n : Z) : Z := n * usec_per_sec.

(** [datetime.min] is 0001-01-01 00:00:00 and [datetime.max] is
    9999-12-31 23:59:59.999999. *)
Definition datetime_min : Z := seconds (-62135596800).
Definition datetime_max : Z := seconds 253402300800 - 1.

Definition is_datetimeb (t : Z) : bool :=
  (datetime_min <=? t) && (t <=? datetime_max).

Definition is_datetime (t : Z) : Prop := datetime_min <= t <= datetime_max.

(** [timedelta.min] is -999999999 days and [timedelta.max] is 999999999
    days, 23:59:59.999999. *)
Definition timedelta_min : Z := seconds (-999999999 * 86400).
Definition timedelta_max : Z := seconds (1000000000 * 86400) - 1.

(** [timedelta(seconds=x)]; the message of the exception, which names
    the number of days, is shortened. *)
Definition py_timedelta (x : Z) : result Z :=
  if (timedelta_min <=? x) && (x <=? timedelta_max) then Ok x
  else Raise (OverflowError "days; must have magnitude <= 999999999").

(** [d + td] and [d - td] on a datetime and a timedelta. *)
Definition datetime_add (d td : Z) : result Z :=
  if is_datetimeb (d + td) then Ok (d + td)
  else Raise (OverflowError "date value out of range").


(** [min(l, key=f)] and [max]/[min] without a key: Python keeps the first
    element that attains the extremum. *)
Fixpoint min_by_key {A} (key : A -> Z) (best : A) (l : list A) : A :=
  match l with
  | [] => best
  | y :: l' => min_by_key key (if key y <? key best then y else best) l'
  end.

Definition py_min_key {A} (key : A -> Z) (l : list A) : result A :=
  match l with
  | [] => Raise (ValueError "min() arg is an empty sequence")
  | x :: l' => Ok (min_by_key key x l')
  end.

Fixpoint max_from (best : Z) (l : list Z) : Z :=
  match l with
  | [] => best
  | y :: l' => max_from (if y >? best then y else best) l'
  end.

Definition py_max (l : list Z) : result Z :=
  match l with
  | [] => Raise (ValueError "max() arg is an empty sequence")
  | x :: l' => Ok (max_from x l')
  end.

Definition py_min (l : list Z) : result Z := py_min_key (fun x => x) l.


(** [sorted(l, key=f)] / [l.sort(key=f)]: a stable sort. *)
Fixpoint insert_by_key {A} (key : A -> Z) (x : A) (l : list A) : list A :=
  match l with
  | [] => [x]
  | y :: l' => if key x <=? key y then x :: y :: l' else y :: insert_by_key key x l'
  end.

Fixpoint py_sorted {A} (key : A -> Z) (l : list A) : list A :=
  match l with
  | [] => []
  | x :: l' => insert_by_key key x (py_sorted key l')
  end.

(** Truthiness of an [Optional[str]]: [None] and the empty string are falsy. *)
Definition truthy (o : option string) : bool :=
  match o with
  | Some EmptyString => false
  | Some _ => true
  | None => false
  end.

(** ** models.py *)

Module Models.

Inductive ClipStatus : Type := PENDING | PROCESSING | DONE | FAILED.

Global Instance ClipStatus_eq_dec : EqDecision ClipStatus.
Proof. solve_decision. Defined.

(** [timestamp] is a naive datetime, like every datetime of the
    embedding. *)
Record ClipRequest : Type := {
  req_camera_id : string;
  timestamp : Z;
  duration : Z
}.

Record ClipResponse : Type := {
  clip_id : string;
  status : ClipStatus;
  camera_id : string;
  start_time : Z;
  end_time : Z;
  download_url : option string;
  error_message : option string;
  created_at : Z;
  completed_at : option Z
}.

(** [start] and [end] are [datetime] fields: pydantic accepts nothing
    else, so both lie in the range of [datetime]. *)
Record BufferSegment : Type := {
  file : string;
  start : Z;
  end_ : Z;
  keyframes : list Z;
  start_ok : is_datetimeb start = true;
  end_ok : is_datetimeb end_ = true
}.

End Models.

(** ** buffer_index.py *)

Module BufferIndex.
Import Models.

Definition overlaps (segment : BufferSegment) (start_time end_time : Z) : bool :=
  (start segment <=? end_time) && (end_ segment >=? start_time).

Definition find_segments (buffer_data : gmap string (list BufferSegment))
    (camera_id : string) (start_time end_time : Z) : list BufferSegment :=
  match buffer_data !! camera_id with
  | None => []
  | Some segments =>
      py_sorted start
        (List.filter (fun segment => overlaps segment start_time end_time) segments)
  end.


(** [_create_default_buffer]: the dataset synthesized when no index file
    exists.  [base_time] is 2025-08-25 18:00:00 as microseconds since the
    epoch (naive datetime read as UTC). *)
Definition base_time : Z := seconds 1756144800.

Definition default_buffer : gmap string (list BufferSegment) :=
  <["camera1" := [
      {| file := "mock_cameras/test.mp4"; start := base_time;
         end_ := base_time + seconds 30;
         keyframes := map seconds [0; 5; 10; 15; 20; 25; 30];
         start_ok := eq_refl; end_ok := eq_refl |};
      {| file := "mock_cameras/test2.mp4"; start := base_time + seconds 30;
         end_ := base_time + seconds 60;
         keyframes := map seconds [0; 5; 10; 15; 20; 25; 30];
         start_ok := eq_refl; end_ok := eq_refl |} ]]>
  (<["camera2" := [
      {| file := "mock_cameras/test2.mp4"; start := base_time;
         end_ := base_time + seconds 30;
         keyframes := map seconds [0; 4; 8; 12; 16; 20; 24; 28; 30];
         start_ok := eq_refl; end_ok := eq_refl |};
      {| file := "mock_cameras/test3.mp4"; start := base_time + seconds 30;
         end_ := base_time + seconds 60;
         keyframes := map seconds [0; 3; 6; 9; 12; 15; 18; 21; 24; 27; 30];
         start_ok := eq_refl; end_ok := eq_refl |} ]]>
  (<["camera3" := [
      {| file := "mock_cameras/test3.mp4"; start := base_time;
         end_ := base_time + seconds 45;
         keyframes := map seconds [0; 6; 12; 18; 24; 30; 36; 42; 45];
         start_ok := eq_refl; end_ok := eq_refl |} ]]> ∅)).

End BufferIndex.

(** ** mediamtx_client.py *)

Module MediaMTXClient.

(** What the operating system answers.  [stat_mtime], [stat_size] and
    [getsize] are the three places where [_extract_clip_info] touches a
    file, in source order: [os.stat(p).st_mtime] of the fallback,
    [os.stat(p).st_size] of the duration estimate, and
    [os.path.getsize(p)] of the returned dictionary.  They are separate
    fields because a file may vanish between two of them. *)
Record Os : Type := {
  path_exists : string -> bool;
  abspath : string -> string;
  basename : string -> string;
  glob_glob : string -> list string;
  stat_mtime : string -> result Z;
  stat_size : string -> result Z;
  getsize : string -> result Z
}.

Definition starts_with_sep (s : string) : bool :=
  match s with
  | String c _ => Ascii.eqb c "/"
  | EmptyString => false
  end.

Fixpoint ends_with_sep (s : string) : bool :=
  match s with
  | EmptyString => false
  | String c EmptyString => Ascii.eqb c "/"
  | String _ s' => ends_with_sep s'
  end.

(** [os.path.join(a, b)] of [posixpath]: an absolute [b] replaces [a]. *)
Definition path_join (a b : string) : string :=
  if starts_with_sep b then b
  else if String.eqb a "" || ends_with_sep a then a +:+ b
  else a +:+ "/" +:+ b.

Record ClipInfo : Type := {
  file_path : string;
  filename : string;
  start_time : Z;
  end_time : Z;
  duration_seconds : Z;
  file_size : Z
}.

Definition supported_formats : list string := [".mp4"; ".mkv"; ".avi"].

Section Client.
Variable os : Os.
Variable clips_base_dir : string.

(** The loop over [timestamp_patterns]: the datetime parsed from the
    first pattern that matches the file name and parses, if any. *)
Variable filename_timestamp : string -> option Z.

(** Lines 112-123.  [int(file_size_mb * 5)] is the integer quotient as
    long as [st_size * 5] is exact in a double, that is for files below
    2^50 bytes; a [timedelta] out of range is caught by the [except]
    around the estimate and leaves the default. *)
Definition estimated_duration (file_path : string) : Z :=
  match stat_size os file_path with
  | Ok st_size =>
      (* file_size_mb = st_size / (1024 * 1024); int(file_size_mb * 5) *)
      if 0 <? st_size then
        match py_timedelta (seconds (Z.max 5 (st_size * 5 / (1024 * 1024)))) with
        | Ok d => d
        | Raise _ => seconds 20
        end
      else seconds 20
  | Raise _ => seconds 20
  end.

Definition clip_start (file_path : string) : option Z :=
  match filename_timestamp (basename os file_path) with
  | Some t => Some t
  | None =>
      match stat_mtime os file_path with
      | Ok mtime => Some mtime
      | Raise _ => None
      end
  end.

Definition extract_clip_info (file_path : string) (start_time end_time : Z)
    : result (option ClipInfo) :=
  let filename := basename os file_path in
  match clip_start file_path with
  | None => Ok None
  | Some clip_start_time =>
      let estimated_duration := estimated_duration file_path in
      clip_end_time ← datetime_add clip_start_time estimated_duration;
      if (clip_end_time >=? start_time) && (clip_start_time <=? end_time) then
        size ← getsize os file_path;
        Ok (Some {| file_path := abspath os file_path;
                    filename := filename;
                    start_time := clip_start_time;
                    end_time := clip_end_time;
                    duration_seconds := estimated_duration;
                    file_size := size |})
      else Ok None
  end.

(** The body of the two nested [for] loops, run over the files in the
    order the loops visit them; [clips] is the list built so far. *)
Fixpoint scan_files (files : list string) (start_time end_time : Z)
    (clips : list ClipInfo) : result (list ClipInfo) :=
  match files with
  | [] => Ok clips
  | file_path :: rest =>
      clip_info ← extract_clip_info file_path start_time end_time;
      scan_files rest start_time end_time
        (match clip_info with
         | Some c => clips ++ [c]
         | None => clips
         end)
  end.

Definition enumerate (camera_dir : string) : list string :=
  flat_map (fun ext => glob_glob os (path_join camera_dir ("*" +:+ ext)))
           supported_formats.

Definition find_clips (camera_id : string) (start_time end_time : Z)
    : result (list ClipInfo) :=
  let camera_dir := path_join clips_base_dir camera_id in
  if negb (path_exists os camera_dir) then Ok []
  else
    clips ← scan_files (enumerate camera_dir) start_time end_time [];
    Ok (py_sorted MediaMTXClient.start_time clips).

End Client.

End MediaMTXClient.

(** ** clip_processor.py *)

Module ClipProcessor.
Import Models.
Import MediaMTXClient.

(** The two command lines handed to [subprocess.run]:
    [ffmpeg -y -ss ss -i input -t t -c copy -avoid_negative_ts make_zero out]
    and
    [ffmpeg -y -f concat -safe 0 -i list -c copy -avoid_negative_ts make_zero out]. *)
Inductive FfmpegCmd : Type :=
| TrimCmd (ss : Z) (input_file : string) (t : Z) (output_file : string)
| ConcatCmd (concat_path : string) (output_file : string).

(** How [subprocess.run(cmd, ..., timeout=300)] ends. *)
Inductive RunOutcome : Type :=
| Completed (returncode : Z)
| TimeoutExpired
| LaunchFailed (e : exn).

(** One entry of ["source_clips"]: the candidate without its duration. *)
Record SourceClip : Type := {
  sc_file_path : string;
  sc_filename : string;
  sc_start_time : Z;
  sc_end_time : Z;
  sc_file_size : Z
}.

Definition source_clip (clip : ClipInfo) : SourceClip :=
  {| sc_file_path := file_path clip;
     sc_filename := filename clip;
     sc_start_time := MediaMTXClient.start_time clip;
     sc_end_time := MediaMTXClient.end_time clip;
     sc_file_size := file_size clip |}.

(** The dictionary [annotation_data]. *)
Record AnnotationData : Type := {
  a_clip_id : string;
  a_camera_id : string;
  requested_start : Z;
  requested_end : Z;
  actual_start : Z;
  actual_end : Z;
  a_duration_seconds : Z;
  source_clips : list SourceClip;
  a_created_at : Z;
  a_source : string
}.

(** One [f.write] of the text summary. *)
Inductive SummaryLine : Type :=
| ClipIdLine (clip_id : string)
| CameraLine (camera_id : string)
| SourceLine (source : string)
| RequestedRangeLine (start_time end_time : Z)
| ActualRangeLine (actual_start actual_end : Z)
| DurationLine (duration_seconds : Z)
| ClipCountLine (n : nat)
| ClipLine (number : nat) (filename : string) (start_time end_time : Z).

(** What an annotation file holds: the dictionary as [json.dump] or
    [yaml.dump] wrote it, or the lines of the text summary. *)
Inductive Annotation : Type :=
| JsonDump (d : AnnotationData)
| YamlDump (d : AnnotationData)
| TextSummary (lines : list SummaryLine).

Inductive FileContent : Type :=
| ConcatList (lines : list string)
| AnnotationDoc (a : Annotation).

(** The part of the world the processor writes: the files it creates, the
    error types it reports to the metrics collector, and the commands it
    has handed to [subprocess.run]. *)
Record World : Type := {
  files : gmap string FileContent;
  errors : list string;
  invoked : list FfmpegCmd
}.

Definition record_error (w : World) (error_type : string) : World :=
  {| files := files w; errors := errors w ++ [error_type]; invoked := invoked w |}.

Definition set_files (w : World) (f : gmap string FileContent) : World :=
  {| files := f; errors := errors w; invoked := invoked w |}.

Definition log_invoked (w : World) (cmd : FfmpegCmd) : World :=
  {| files := files w; errors := errors w; invoked := invoked w ++ [cmd] |}.

Section Processor.
Variable os : Os.
Variable clips_base_dir : string.
Variable filename_timestamp : string -> option Z.

(** [subprocess.run] on a command line. *)
Variable subprocess_run : FfmpegCmd -> RunOutcome.
(** Whether [open(path, 'w')] and [os.remove(path)] succeed. *)
Variable can_write : string -> bool.
Variable can_remove : string -> bool.

Definition videos_dir : string := "videos".
Definition annotations_dir : string := "annotations".

(** [with open(path, 'w') as f: ...] *)
Definition write_file (w : World) (path : string) (c : FileContent)
    : World * result unit :=
  if can_write path then (set_files w (<[path := c]> (files w)), Ok tt)
  else (w, Raise (OSError "cannot open file for writing")).

Definition concat_name (clips : list ClipInfo) : result string :=
  match clips with
  | [] => Raise (IndexError "list index out of range")
  | first :: _ => Ok ("concat_" +:+ basename os (file_path first) +:+ ".txt")
  end.

(** Lines 64-104: the command line, and in concatenation mode the
    manifest written on the way. *)
Definition build_cmd (w : World) (clips : list ClipInfo) (output_path : string)
    (start_time end_time : Z) : World * result FfmpegCmd :=
  match clips with
  | [clip] =>
      let start_offset := Z.max 0 (start_time - MediaMTXClient.start_time clip) in
      let duration := end_time - Z.max start_time (MediaMTXClient.start_time clip) in
      (w, Ok (TrimCmd start_offset (abspath os (file_path clip)) duration
                      (abspath os output_path)))
  | _ =>
      match concat_name clips with
      | Raise e => (w, Raise e)
      | Ok concat_file =>
          let concat_path := abspath os concat_file in
          let lines :=
            map (fun clip => "file '" +:+ abspath os (file_path clip) +:+ "'")
                clips in
          match write_file w concat_path (ConcatList lines) with
          | (w, Raise e) => (w, Raise e)
          | (w, Ok _) => (w, Ok (ConcatCmd concat_path (abspath os output_path)))
          end
      end
  end.

(** Lines 128-132: removal of the manifest after the transcoder has
    returned. *)
Definition remove_manifest (w : World) (clips : list ClipInfo)
    : World * result unit :=
  if (1 <? Z.of_nat (length clips)) then
    match concat_name clips with
    | Raise e => (w, Raise e)
    | Ok concat_path =>
        let abs_concat_path := abspath os concat_path in
        match files w !! abs_concat_path with
        | Some _ =>
            if can_remove abs_concat_path
            then (set_files w (delete abs_concat_path (files w)), Ok tt)
            else (w, Raise (OSError "cannot remove file"))
        | None => (w, Ok tt)
        end
    end
  else (w, Ok tt).

Definition process_mediamtx_clips (w : World) (clips : list ClipInfo)
    (output_path : string) (start_time end_time : Z) : World * bool :=
  match build_cmd w clips output_path start_time end_time with
  | (w, Raise e) => (record_error w "ffmpeg_exception", false)
  | (w, Ok cmd) =>
      let w := log_invoked w cmd in
      match subprocess_run cmd with
      | TimeoutExpired => (record_error w "ffmpeg_timeout", false)
      | LaunchFailed sync_e => (record_error w "subprocess_failed", false)
      | Completed returncode =>
          match remove_manifest w clips with
          | (w, Raise e) => (record_error w "ffmpeg_exception", false)
          | (w, Ok _) =>
              if returncode =? 0 then (w, true)
              else (record_error w "ffmpeg_failed", false)
          end
      end
  end.

Definition generate_annotations (w : World) (job : ClipResponse)
    (clips_info : list ClipInfo) (actual_start actual_end : Z)
    (timestamp : string) (now : Z) : World * result unit :=
  let base_filename :=
    camera_id job +:+ "_" +:+ timestamp +:+ "_" +:+ clip_id job in
  let annotation_data :=
    {| a_clip_id := clip_id job;
       a_camera_id := camera_id job;
       requested_start := Models.start_time job;
       requested_end := Models.end_time job;
       actual_start := actual_start;
       actual_end := actual_end;
       a_duration_seconds := Models.end_time job - Models.start_time job;
       source_clips := map source_clip clips_info;
       a_created_at := now;
       a_source := "MediaMTX" |} in
  let json_path := path_join annotations_dir (base_filename +:+ ".json") in
  match write_file w json_path (AnnotationDoc (JsonDump annotation_data)) with
  | (w, Raise e) => (w, Raise e)
  | (w, Ok _) =>
      let yaml_path := path_join annotations_dir (base_filename +:+ ".yaml") in
      match write_file w yaml_path (AnnotationDoc (YamlDump annotation_data)) with
      | (w, Raise e) => (w, Raise e)
      | (w, Ok _) =>
          let txt_path := path_join annotations_dir (base_filename +:+ ".txt") in
          write_file w txt_path
            (AnnotationDoc (TextSummary
               ([ ClipIdLine (clip_id job);
                  CameraLine (camera_id job);
                  SourceLine "MediaMTX";
                  RequestedRangeLine (Models.start_time job) (Models.end_time job);
                  ActualRangeLine actual_start actual_end;
                  DurationLine (a_duration_seconds annotation_data);
                  ClipCountLine (length clips_info) ]
                ++ imap (fun i clip =>
                           ClipLine (S i) (filename clip)
                                    (MediaMTXClient.start_time clip)
                                    (MediaMTXClient.end_time clip))
                        clips_info)))
      end
  end.

(** The [try] block of [process_clip], lines 28-54.  [timestamp] is
    [datetime.now().strftime(...)] and [now] the clock. *)
Definition process_clip_body (w : World) (job : ClipResponse)
    (timestamp : string) (now : Z) : World * result (bool * string) :=
  let start_time := Models.start_time job in
  let end_time := Models.end_time job in
  match find_clips os clips_base_dir filename_timestamp
                   (camera_id job) start_time end_time with
  | Raise e => (w, Raise e)
  | Ok [] =>
      (w, Ok (false, "No clips found for camera " +:+ camera_id job
                      +:+ " in time range"))
  | Ok clips =>
      let output_filename :=
        camera_id job +:+ "_" +:+ timestamp +:+ "_" +:+ clip_id job +:+ ".mp4" in
      let output_path := path_join videos_dir output_filename in
      let '(w, success) :=
        process_mediamtx_clips w clips output_path start_time end_time in
      if negb success then (w, Ok (false, "FFmpeg processing failed"))
      else
        match py_min (map MediaMTXClient.start_time clips),
              py_max (map MediaMTXClient.end_time clips) with
        | Ok actual_start, Ok actual_end =>
            match generate_annotations w job clips actual_start actual_end
                                       timestamp now with
            | (w, Raise e) => (w, Raise e)
            | (w, Ok _) => (w, Ok (true, "/videos/" +:+ output_filename))
            end
        | Raise e, _ | _, Raise e => (w, Raise e)
        end
  end.

(** [process_clip]: the [try] block under its [except Exception]. *)
Definition process_clip (w : World) (job : ClipResponse)
    (timestamp : string) (now : Z) : World * result (bool * string) :=
  match process_clip_body w job timestamp now with
  | (w, Ok r) => (w, Ok r)
  | (w, Raise e) => (record_error w "processing_exception", Ok (false, str_exn e))
  end.

End Processor.

End ClipProcessor.

(** ** job_manager.py *)

Module JobManager.
Import Models.

(** Calls on the metrics collector, in the order they are made. *)
Inductive MetricEvent : Type :=
| UpdateQueueDepth (depth : nat)
| RecordRequestStart (clip_id camera_id : string)
| RecordRequestComplete (clip_id camera_id : string) (success : bool)
| RecordError (error_type : string).

(** Where a worker task is suspended in the body of [_worker]'s loop.
    [get_job] hands out the table's own object, so what the worker holds
    is the key of that entry. *)
Inductive WorkerPc : Type :=
| AtQueueGet
| AtGetJob (clip_id : string)
| AtMarkProcessing (clip_id : string)
| AtProcessClip (clip_id : string)
| AtFinish (clip_id : string) (success : bool) (result : string).

Record State : Type := {
  jobs : gmap string ClipResponse;
  processing_queue : list string;
  max_concurrent_jobs : nat;
  workers_started : bool;
  workers : list WorkerPc;
  metrics : list MetricEvent
}.

(** [JobManager.__init__] *)
Definition init : State :=
  {| jobs := ∅; processing_queue := []; max_concurrent_jobs := 3;
     workers_started := false; workers := []; metrics := [] |}.

Definition set_jobs (s : State) (j : gmap string ClipResponse) : State :=
  {| jobs := j; processing_queue := processing_queue s;
     max_concurrent_jobs := max_concurrent_jobs s;
     workers_started := workers_started s; workers := workers s;
     metrics := metrics s |}.

Definition set_queue (s : State) (q : list string) : State :=
  {| jobs := jobs s; processing_queue := q;
     max_concurrent_jobs := max_concurrent_jobs s;
     workers_started := workers_started s; workers := workers s;
     metrics := metrics s |}.

Definition set_workers (s : State) (ws : list WorkerPc) : State :=
  {| jobs := jobs s; processing_queue := processing_queue s;
     max_concurrent_jobs := max_concurrent_jobs s;
     workers_started := workers_started s; workers := ws;
     metrics := metrics s |}.

Definition emit (s : State) (m : MetricEvent) : State :=
  {| jobs := jobs s; processing_queue := processing_queue s;
     max_concurrent_jobs := max_concurrent_jobs s;
     workers_started := workers_started s; workers := workers s;
     metrics := metrics s ++ [m] |}.

Definition set_pc (s : State) (i : nat) (pc : WorkerPc) : State :=
  set_workers s (<[i := pc]> (workers s)).

Definition is_terminal (status : ClipStatus) : bool :=
  match status with
  | DONE | FAILED => true
  | _ => false
  end.

(** The assignments of [update_job_status] to the job object. *)
Definition updated_job (job : ClipResponse) (status : ClipStatus)
    (download_url error_message : option string) (now : Z) : ClipResponse :=
  {| clip_id := clip_id job;
     status := status;
     camera_id := camera_id job;
     start_time := start_time job;
     end_time := end_time job;
     download_url :=
       if truthy download_url then download_url else Models.download_url job;
     error_message :=
       if truthy error_message then error_message else Models.error_message job;
     created_at := created_at job;
     completed_at :=
       if is_terminal status then Some now else completed_at job |}.

Definition update_job_status (s : State) (clip_id : string) (status : ClipStatus)
    (download_url error_message : option string) (now : Z) : State :=
  match jobs s !! clip_id with
  | None => s
  | Some job =>
      let job := updated_job job status download_url error_message now in
      let s := set_jobs s (<[clip_id := job]> (jobs s)) in
      if is_terminal status then
        emit s (RecordRequestComplete clip_id (camera_id job)
                                      (bool_decide (status = DONE)))
      else s
  end.

Definition start_workers (s : State) : State :=
  if workers_started s then s
  else
    {| jobs := jobs s; processing_queue := processing_queue s;
       max_concurrent_jobs := max_concurrent_jobs s;
       workers_started := true;
       workers := workers s ++ replicate (max_concurrent_jobs s) AtQueueGet;
       metrics := metrics s |}.

(** Lines 27-44 of [submit_job]: the job is stored and queued, the
    metrics are told, and the workers are started on first use. *)
Definition enqueue (s : State) (clip_id : string) (request : ClipRequest)
    (start_time end_time now : Z) : State :=
  let job :=
    {| Models.clip_id := clip_id; status := PENDING;
       camera_id := req_camera_id request;
       Models.start_time := start_time; Models.end_time := end_time;
       download_url := None; error_message := None;
       created_at := now; completed_at := None |} in
  let s := set_jobs s (<[clip_id := job]> (jobs s)) in
  let s := set_queue s (processing_queue s ++ [clip_id]) in
  let s := emit s (UpdateQueueDepth (length (processing_queue s))) in
  let s := emit s (RecordRequestStart clip_id (req_camera_id request)) in
  if negb (workers_started s) then start_workers s else s.

(** [submit_job]; [clip_id] is what [uuid.uuid4()] returned and [now] the
    clock.  The window is computed first: when it does not fit the range
    of [datetime] the call raises and nothing has been stored. *)
Definition submit_job (s : State) (clip_id : string) (request : ClipRequest)
    (now : Z) : result State :=
  start_time ← datetime_add (timestamp request) (- seconds 15);
  end_time ← datetime_add (timestamp request) (seconds 5);
  Ok (enqueue s clip_id request start_time end_time now).

Definition get_job (s : State) (clip_id : string) : option ClipResponse :=
  jobs s !! clip_id.

(** How the call [process_clip(job)] inside the worker's [try] ends: it
    returns its pair, or something in that stretch raises (the import of
    [app.clip_processor] runs that module's top level). *)
Inductive ProcOutcome : Type :=
| Returned (success : bool) (result : string)
| Faulted (msg : string).

(** One worker task runs from its suspension point to the next one.
    [None]: the task cannot move (no such task, or the queue is empty). *)
Definition worker_step (s : State) (i : nat) (o : ProcOutcome) (now : Z)
    : option State :=
  match workers s !! i with
  | None => None
  | Some AtQueueGet =>
      match processing_queue s with
      | [] => None
      | clip_id :: q =>
          let s := set_queue s q in
          let s := emit s (UpdateQueueDepth (length q)) in
          Some (set_pc s i (AtGetJob clip_id))
      end
  | Some (AtGetJob clip_id) =>
      match get_job s clip_id with
      | None => Some (set_pc s i AtQueueGet)
      | Some _ => Some (set_pc s i (AtMarkProcessing clip_id))
      end
  | Some (AtMarkProcessing clip_id) =>
      let s := update_job_status s clip_id PROCESSING None None now in
      Some (set_pc s i (AtProcessClip clip_id))
  | Some (AtProcessClip clip_id) =>
      match o with
      | Returned success result => Some (set_pc s i (AtFinish clip_id success result))
      | Faulted msg =>
          let s := update_job_status s clip_id FAILED None
                     (Some ("Worker error: " +:+ msg)) now in
          let s := emit s (RecordError "worker_exception") in
          Some (set_pc s i AtQueueGet)
      end
  | Some (AtFinish clip_id success result) =>
      if success then
        let s := update_job_status s clip_id DONE (Some result) None now in
        Some (set_pc s i AtQueueGet)
      else
        let s := update_job_status s clip_id FAILED None (Some result) now in
        let s := emit s (RecordError "processing_failed") in
        Some (set_pc s i AtQueueGet)
  end.

(** What can happen to the coordinator: a submission, a worker task
    moving, or a call of the public [update_job_status]. *)
Inductive Event : Type :=
| Submit (clip_id : string) (request : ClipRequest) (now : Z)
| Worker (i : nat) (o : ProcOutcome) (now : Z)
| UpdateJobStatus (clip_id : string) (status : ClipStatus)
    (download_url error_message : option string) (now : Z).

(** [uuid4] is taken to return an identifier not in use: a [Submit] with a
    known identifier is not an event of any execution.  A submission that
    raises leaves the coordinator as it was. *)
Definition step (s : State) (ev : Event) : option State :=
  match ev with
  | Submit clip_id request now =>
      match jobs s !! clip_id with
      | None =>
          match submit_job s clip_id request now with
          | Ok s' => Some s'
          | Raise _ => Some s
          end
      | Some _ => None
      end
  | Worker i o now => worker_step s i o now
  | UpdateJobStatus clip_id status download_url error_message now =>
      Some (update_job_status s clip_id status download_url error_message now)
  end.

(** The states an execution goes through; an event that cannot happen in
    the current state is skipped. *)
Fixpoint trace (s : State) (evs : list Event) : list State :=
  match evs with
  | [] => [s]
  | ev :: evs' => s :: trace (default s (step s ev)) evs'
  end.

Definition status_of (s : State) (clip_id : string) : option ClipStatus :=
  status <$> jobs s !! clip_id.

(** The status values a job takes over an execution ([None]: not yet
    submitted). *)
Definition history (s : State) (evs : list Event) (clip_id : string)
    : list (option ClipStatus) :=
  map (fun s => status_of s clip_id) (trace s evs).

Definition is_update_call (ev : Event) : bool :=
  match ev with
  | UpdateJobStatus _ _ _ _ _ => true
  | _ => false
  end.

(** The transitions of the state machine
    PENDING -> PROCESSING -> DONE | FAILED. *)
Definition transition (a b : ClipStatus) : bool :=
  match a, b with
  | PENDING, PROCESSING | PROCESSING, DONE | PROCESSING, FAILED => true
  | _, _ => false
  end.

(** What one step of an execution may do to a job's status: leave it,
    create the job in PENDING, or take one transition. *)
Definition status_step (a b : option ClipStatus) : Prop :=
  match a, b with
  | None, None => True
  | None, Some y => y = PENDING
  | Some x, Some y => x = y \/ transition x y = true
  | Some _, None => False
  end.

Definition monotone (h : list (option ClipStatus)) : Prop :=
  forall (n : nat) a b, h !! n = Some a -> h !! S n = Some b -> status_step a b.

Definition stays_terminal (h : list (option ClipStatus)) : Prop :=
  forall (n m : nat) st, (n <= m)%nat -> (m < length h)%nat ->
    h !! n = Some (Some st) -> is_terminal st = true -> h !! m = Some (Some st).

End JobManager.

(** * Specifications *)

Module Spec.
Import Models.

(** The data-model invariant of a segment: [start < end], offsets sorted
    ascending, first offset 0, last offset within the duration. *)
Definition segment_ok (S : BufferSegment) : Prop :=
  start S < end_ S
  /\ Sorted Z.le (keyframes S)
  /\ hd_error (keyframes S) = Some 0
  /\ (forall k, last (keyframes S) = Some k -> k <= end_ S - start S).




(** The offset nearest to [relative]; of two offsets at the same distance,
    the smaller. *)
Definition nearest_offset (kfs : list Z) (relative n : Z) : Prop :=
  In n kfs
  /\ (forall k, In k kfs -> Z.abs (n - relative) <= Z.abs (k - relative))
  /\ (forall k, In k kfs -> Z.abs (k - relative) = Z.abs (n - relative) -> n <= k).




(** Inclusive overlap of [[s, e]] with the window [[ws, we]]. *)
Definition overlap (s e ws we : Z) : Prop := s <= we /\ e >= ws.

End Spec.

(** * Concrete inputs used below *)

Module Fixtures.
Import Models.


(** A segment that meets the data-model invariant and whose last keyframe
    offset (5 s) lies before its end (30 s). *)
Definition sparse_segment : BufferSegment :=
  {| file := "mock_cameras/test.mp4"; start := 0; end_ := seconds 30;
     keyframes := [0; seconds 5];
     start_ok := eq_refl; end_ok := eq_refl |}.




(** [os.path.basename] on POSIX paths: what follows the last slash. *)
Fixpoint basename_from (cur s : string) : string :=
  match s with
  | EmptyString => cur
  | String c s' =>
      if Ascii.eqb c "/"%char then basename_from s' s' else basename_from cur s'
  end.

Definition posix_basename (s : string) : string := basename_from s s.

(** [os.path.abspath] with current directory [/srv]. *)
Definition posix_abspath (p : string) : string :=
  match p with
  | String "/" _ => p
  | _ => "/srv/" +:+ p
  end.

Definition clip_a : string := "mediamtx_clips/camera1/2025-08-25_18-00-00.mp4".
Definition clip_b : string := "mediamtx_clips/camera1/2025-08-25_18-00-20.mp4".
Definition clip_untimed : string := "mediamtx_clips/camera1/clip.mp4".

(** 2025-08-25 18:00:00 *)
Definition t0 : Z := seconds 1756144800.

(** The result of the pattern loop on the three file names above. *)
Definition demo_filename_timestamp (name : string) : option Z :=
  if String.eqb name "2025-08-25_18-00-00.mp4" then Some t0
  else if String.eqb name "2025-08-25_18-00-20.mp4" then Some (t0 + seconds 20)
  else None.

Definition gone {A} : result A := Raise (OSError "No such file or directory").

(** A camera directory with two 4 MiB recordings named by their start
    time, and a third file that has no timestamp in its name and cannot be
    inspected. *)
Definition demo_os : MediaMTXClient.Os :=
  {| MediaMTXClient.path_exists := fun p => String.eqb p "mediamtx_clips/camera1";
     MediaMTXClient.abspath := posix_abspath;
     MediaMTXClient.basename := posix_basename;
     MediaMTXClient.glob_glob := fun pattern =>
       if String.eqb pattern "mediamtx_clips/camera1/*.mp4"
       then [clip_a; clip_b; clip_untimed] else [];
     MediaMTXClient.stat_mtime := fun p =>
       if String.eqb p clip_untimed then gone else Ok (t0 + seconds 3600);
     MediaMTXClient.stat_size := fun p =>
       if String.eqb p clip_untimed then gone else Ok 4194304;
     MediaMTXClient.getsize := fun p =>
       if String.eqb p clip_untimed then gone else Ok 4194304 |}.

(** The same directory when the second recording is deleted after the
    enumeration: every later inspection of it fails. *)
Definition racy_os : MediaMTXClient.Os :=
  {| MediaMTXClient.path_exists := MediaMTXClient.path_exists demo_os;
     MediaMTXClient.abspath := MediaMTXClient.abspath demo_os;
     MediaMTXClient.basename := posix_basename;
     MediaMTXClient.glob_glob := MediaMTXClient.glob_glob demo_os;
     MediaMTXClient.stat_mtime := fun p =>
       if String.eqb p clip_b then gone else MediaMTXClient.stat_mtime demo_os p;
     MediaMTXClient.stat_size := fun p =>
       if String.eqb p clip_b then gone else MediaMTXClient.stat_size demo_os p;
     MediaMTXClient.getsize := fun p =>
       if String.eqb p clip_b then gone else MediaMTXClient.getsize demo_os p |}.

(** A job for camera1 around 18:00:30: the window is
    [18:00:15, 18:00:35], which both recordings overlap. *)
Definition demo_job : ClipResponse :=
  {| clip_id := "7d0c3b2e"; status := PROCESSING; camera_id := "camera1";
     start_time := t0 + seconds 15; end_time := t0 + seconds 35;
     download_url := None; error_message := None;
     created_at := t0 + seconds 60; completed_at := None |}.

Definition candidate_a : MediaMTXClient.ClipInfo :=
  {| MediaMTXClient.file_path := "/srv/" +:+ clip_a;
     MediaMTXClient.filename := "2025-08-25_18-00-00.mp4";
     MediaMTXClient.start_time := t0;
     MediaMTXClient.end_time := t0 + seconds 20;
     MediaMTXClient.duration_seconds := seconds 20;
     MediaMTXClient.file_size := 4194304 |}.

Definition candidate_b : MediaMTXClient.ClipInfo :=
  {| MediaMTXClient.file_path := "/srv/" +:+ clip_b;
     MediaMTXClient.filename := "2025-08-25_18-00-20.mp4";
     MediaMTXClient.start_time := t0 + seconds 20;
     MediaMTXClient.end_time := t0 + seconds 40;
     MediaMTXClient.duration_seconds := seconds 20;
     MediaMTXClient.file_size := 4194304 |}.

Definition empty_world : ClipProcessor.World :=
  {| ClipProcessor.files := ∅; ClipProcessor.errors := [];
     ClipProcessor.invoked := [] |}.

Definition always (o : ClipProcessor.RunOutcome)
    (cmd : ClipProcessor.FfmpegCmd) : ClipProcessor.RunOutcome := o.

Definition yes (path : string) : bool := true.

Definition demo_manifest : string :=
  "/srv/concat_2025-08-25_18-00-00.mp4.txt".

End Fixtures.

(** A list in ascending order of [key]. *)
Definition sorted_by {A : Type} (key : A -> Z) (l : list A) : Prop :=
  StronglySorted (fun a b => key a <= key b) l.

(** A transcoder run that did not succeed: non-zero exit, timeout after
    the 300-second ceiling, or failure to launch. *)
Definition transcoder_fails (o : ClipProcessor.RunOutcome) : Prop :=
  match o with
  | ClipProcessor.Completed returncode => returncode <> 0
  | ClipProcessor.TimeoutExpired => True
  | ClipProcessor.LaunchFailed _ => True
  end.

(** * The coordinator's invariant *)

Module JobInvariant.
Import Models JobManager.

(** The job a worker task is holding, and the status that job has while
    the task is suspended there. *)
Definition held (pc : WorkerPc) : option string :=
  match pc with
  | AtQueueGet => None
  | AtGetJob clip_id | AtMarkProcessing clip_id | AtProcessClip clip_id
  | AtFinish clip_id _ _ => Some clip_id
  end.

Definition expected (pc : WorkerPc) : option ClipStatus :=
  match pc with
  | AtQueueGet => None
  | AtGetJob _ | AtMarkProcessing _ => Some PENDING
  | AtProcessClip _ | AtFinish _ _ _ => Some PROCESSING
  end.

(** Every queued job is PENDING and queued once; a job held by a worker
    has the status of the worker's position and is not queued; no two
    workers hold the same job. *)
Record inv (s : State) : Prop := {
  inv_queue : forall id, id ∈ processing_queue s -> status_of s id = Some PENDING;
  inv_nodup : NoDup (processing_queue s);
  inv_worker : forall (i : nat) pc id,
      workers s !! i = Some pc -> held pc = Some id ->
      status_of s id = expected pc /\ id ∉ processing_queue s;
  inv_owner : forall (i j : nat) pci pcj id,
      workers s !! i = Some pci -> workers s !! j = Some pcj ->
      held pci = Some id -> held pcj = Some id -> i = j
}.

End JobInvariant.

Module JobFixtures.
Import Models JobManager.

Definition demo_request : ClipRequest :=
  {| req_camera_id := "camera1"; timestamp := seconds 1756144830; duration := 20 |}.

(** The coordinator after the first submission. *)
Definition submitted : State :=
  default init (step init (Submit "7d0c3b2e" demo_request (seconds 1756144860))).

(** A submission followed by two direct calls of [update_job_status]. *)
Definition direct_updates : list Event :=
  [ Submit "7d0c3b2e" demo_request (seconds 1756144860);
    UpdateJobStatus "7d0c3b2e" DONE (Some "/videos/out.mp4") None
                    (seconds 1756144861);
    UpdateJobStatus "7d0c3b2e" PENDING None None (seconds 1756144862) ].

(** A submission taken by worker 0 through to a successful result. *)
Definition worker_run : list Event :=
  [ Submit "7d0c3b2e" demo_request (seconds 1756144860);
    Worker 0 (Returned true "") (seconds 1756144861);
    Worker 0 (Returned true "") (seconds 1756144861);
    Worker 0 (Returned true "") (seconds 1756144861);
    Worker 0 (Returned true "/videos/out.mp4") (seconds 1756144861);
    Worker 0 (Returned true "") (seconds 1756144870) ].

End JobFixtures.


(** * More of the sources *)

(** ** mediamtx_client.py: the camera list *)

Module CameraListing.

(** [sorted] on a list of [str]: ascending in the lexicographic order of
    the characters, stable. *)
Fixpoint insert_str (x : string) (l : list string) : list string :=
  match l with
  | [] => [x]
  | y :: l' => if String.leb x y then x :: y :: l' else y :: insert_str x l'
  end.

Fixpoint py_sorted_str (l : list string) : list string :=
  match l with
  | [] => []
  | x :: l' => insert_str x (py_sorted_str l')
  end.

(** What the operating system answers about directories: [os.path.exists],
    [os.listdir] (which may raise) and [os.path.isdir] (which does not). *)
Record DirOs : Type := {
  dir_exists : string -> bool;
  listdir : string -> result (list string);
  isdir : string -> bool
}.

Section Listing.
Variable os : DirOs.
Variable clips_base_dir : string.

(** The loop body of [get_camera_list]. *)
Definition subdirectories (items : list string) : list string :=
  List.filter (fun item => isdir os (MediaMTXClient.path_join clips_base_dir item))
              items.

Definition get_camera_list : list string :=
  if negb (dir_exists os clips_base_dir) then []
  else
    let cameras :=
      match listdir os clips_base_dir with
      | Ok items => subdirectories items
      | Raise e => []
      end in
    py_sorted_str cameras.

Definition validate_clips_directory : bool :=
  dir_exists os clips_base_dir && isdir os clips_base_dir.

End Listing.

End CameraListing.

Module ListingFixtures.

(** A base directory with two camera directories and a stray file. *)
Definition demo_dirs : CameraListing.DirOs :=
  {| CameraListing.dir_exists := fun p => String.eqb p "mediamtx_clips";
     CameraListing.listdir := fun p => Ok ["camera2"; "README.txt"; "camera1"];
     CameraListing.isdir := fun p =>
       String.eqb p "mediamtx_clips/camera1" || String.eqb p "mediamtx_clips/camera2" |}.

End ListingFixtures.

Module ProcessorFixtures.
Import Models Fixtures.

(** A job for a camera that has no directory. *)
Definition missing_camera_job : ClipResponse :=
  {| clip_id := "0a1b2c3d"; status := PROCESSING; camera_id := "camera9";
     start_time := t0 + seconds 15; end_time := t0 + seconds 35;
     download_url := None; error_message := None;
     created_at := t0 + seconds 60; completed_at := None |}.

End ProcessorFixtures.

(** ** job_manager.py: the accessors, and runs of events *)

Module JobAccess.
Import Models JobManager.

Definition get_queue_depth (s : State) : nat := length (processing_queue s).

Definition get_job_count (s : State) : nat := size (jobs s).

(** The state an execution ends in (the last state of [trace]). *)
Definition run (s : State) (evs : list Event) : State :=
  fold_left (fun s ev => default s (step s ev)) evs s.

(** The fields of a job that go with its status in the worker loop:
    nothing is filled in before a terminal status, a DONE job has a
    completion time and no error message, a FAILED job has a completion
    time and no download URL. *)
Definition fields_ok (job : ClipResponse) : Prop :=
  match status job with
  | PENDING | PROCESSING =>
      download_url job = None /\ error_message job = None
      /\ completed_at job = None
  | DONE => is_Some (completed_at job) /\ error_message job = None
  | FAILED => is_Some (completed_at job) /\ download_url job = None
  end.

(** The fields [update_job_status] never assigns. *)
Definition same_identity (a b : ClipResponse) : Prop :=
  clip_id a = clip_id b /\ camera_id a = camera_id b
  /\ start_time a = start_time b /\ end_time a = end_time b
  /\ created_at a = created_at b.

End JobAccess.

(** ** main.py: the two clip endpoints *)

Module Api.
Import Models JobManager.

(** What an endpoint answers: its body, or the [HTTPException] it raises. *)
Inductive Response (A : Type) : Type :=
| Http200 (body : A)
| HTTPException (status_code : Z) (detail : string).
Arguments Http200 {A} body.
Arguments HTTPException {A} status_code detail.

Record Accepted : Type := {
  r_clip_id : string;
  r_status : string;
  r_message : string
}.

Section Endpoints.
Variable os : MediaMTXClient.Os.
Variable clips_base_dir : string.
Variable filename_timestamp : string -> option Z.

(** Lines 35-39 of [create_clip]: the window and the discovery, each of
    which may raise inside the [try]. *)
Definition discover (request : ClipRequest) : result (list MediaMTXClient.ClipInfo) :=
  start_time ← datetime_add (timestamp request) (- seconds 15);
  end_time ← datetime_add (timestamp request) (seconds 5);
  MediaMTXClient.find_clips os clips_base_dir filename_timestamp
    (req_camera_id request) start_time end_time.

(** [create_clip]; [uuid] is what [uuid.uuid4()] returns inside
    [submit_job] and [now] the clock. *)
Definition create_clip (s : State) (request : ClipRequest) (uuid : string)
    (now : Z) : State * Response Accepted :=
  let internal_error :=
    (emit s (RecordError "api_error"),
     HTTPException 500 "Internal server error") in
  match discover request with
  | Raise e => internal_error
  | Ok [] =>
      (s, HTTPException 404
            ("No video clips found for camera " +:+ req_camera_id request
             +:+ " in specified time range"))
  | Ok _ =>
      match submit_job s uuid request now with
      | Ok s' =>
          (s', Http200 {| r_clip_id := uuid; r_status := "pending";
                          r_message := "Clip request submitted successfully" |})
      | Raise e => internal_error
      end
  end.

End Endpoints.

Definition get_clip_status (s : State) (clip_id : string) : Response ClipResponse :=
  match get_job s clip_id with
  | None => HTTPException 404 "Clip not found"
  | Some job => Http200 job
  end.

End Api.

(** ** metrics.py *)

Module Metrics.

(** The collector: the labelled counters, the observations handed to the
    latency histogram, the queue-depth gauge, and [_active_requests].
    Clock readings are in microseconds. *)
Record MetricsCollector : Type := {
  clip_requests_total : gmap (string * string) nat;
  clip_latency_seconds : list Z;
  clip_queue_depth : nat;
  clip_errors_total : gmap string nat;
  active_requests : gmap string Z
}.

Definition inc {K} `{Countable K} (k : K) (m : gmap K nat) : gmap K nat :=
  <[k := S (default 0%nat (m !! k))]> m.

Definition count {K} `{Countable K} (k : K) (m : gmap K nat) : nat :=
  default 0%nat (m !! k).

Definition record_request_start (c : MetricsCollector) (clip_id camera_id : string)
    (now : Z) : MetricsCollector :=
  {| clip_requests_total := inc (camera_id, "started") (clip_requests_total c);
     clip_latency_seconds := clip_latency_seconds c;
     clip_queue_depth := clip_queue_depth c;
     clip_errors_total := clip_errors_total c;
     active_requests := <[clip_id := now]> (active_requests c) |}.

Definition record_request_complete (c : MetricsCollector)
    (clip_id camera_id : string) (success : bool) (now : Z) : MetricsCollector :=
  let status := if success then "success" else "failed" in
  match active_requests c !! clip_id with
  | Some started =>
      {| clip_requests_total := inc (camera_id, status) (clip_requests_total c);
         clip_latency_seconds := clip_latency_seconds c ++ [now - started];
         clip_queue_depth := clip_queue_depth c;
         clip_errors_total := clip_errors_total c;
         active_requests := delete clip_id (active_requests c) |}
  | None =>
      {| clip_requests_total := inc (camera_id, status) (clip_requests_total c);
         clip_latency_seconds := clip_latency_seconds c;
         clip_queue_depth := clip_queue_depth c;
         clip_errors_total := clip_errors_total c;
         active_requests := active_requests c |}
  end.

Definition record_error (c : MetricsCollector) (error_type : string)
    : MetricsCollector :=
  {| clip_requests_total := clip_requests_total c;
     clip_latency_seconds := clip_latency_seconds c;
     clip_queue_depth := clip_queue_depth c;
     clip_errors_total := inc error_type (clip_errors_total c);
     active_requests := active_requests c |}.

Definition update_queue_depth (c : MetricsCollector) (depth : nat)
    : MetricsCollector :=
  {| clip_requests_total := clip_requests_total c;
     clip_latency_seconds := clip_latency_seconds c;
     clip_queue_depth := depth;
     clip_errors_total := clip_errors_total c;
     active_requests := active_requests c |}.

(** [MetricsCollector.__init__] *)
Definition empty_collector : MetricsCollector :=
  {| clip_requests_total := ∅; clip_latency_seconds := [];
     clip_queue_depth := 0; clip_errors_total := ∅; active_requests := ∅ |}.

(** The collector after the calls the coordinator made, in order; [clock]
    gives the reading of [time.time()] at the n-th call. *)
Definition apply_call (clock : nat -> Z) (nc : nat * MetricsCollector)
    (m : JobManager.MetricEvent) : nat * MetricsCollector :=
  let '(n, c) := nc in
  (S n,
   match m with
   | JobManager.UpdateQueueDepth depth => update_queue_depth c depth
   | JobManager.RecordRequestStart clip_id camera_id =>
       record_request_start c clip_id camera_id (clock n)
   | JobManager.RecordRequestComplete clip_id camera_id success =>
       record_request_complete c clip_id camera_id success (clock n)
   | JobManager.RecordError error_type => record_error c error_type
   end).

Definition replay (clock : nat -> Z) (calls : list JobManager.MetricEvent)
    : MetricsCollector :=
  snd (fold_left (apply_call clock) calls (0%nat, empty_collector)).

End Metrics.

Module JobRuns.
Import Models JobManager.

(** The window of a request fits the range of [datetime]. *)
Definition window_fits (request : ClipRequest) : Prop :=
  is_datetime (timestamp request - seconds 15)
  /\ is_datetime (timestamp request + seconds 5).

(** The worker pool is started with the first job: no task and nothing
    queued while the job table is empty, three tasks once it is not. *)
Definition pool_ok (s : State) : Prop :=
  max_concurrent_jobs s = 3%nat
  /\ (jobs s = ∅ ->
      workers_started s = false /\ workers s = [] /\ processing_queue s = [])
  /\ (jobs s <> ∅ -> workers_started s = true /\ length (workers s) = 3%nat).

Definition is_submit (ev : Event) : bool :=
  match ev with
  | Submit _ _ _ => true
  | _ => false
  end.

(** A batch of submissions, as events. *)
Definition submissions (subs : list (string * ClipRequest * Z)) : list Event :=
  map (fun '(clip_id, request, now) => Submit clip_id request now) subs.

Definition submitted_ids (subs : list (string * ClipRequest * Z)) : list string :=
  map (fun '(clip_id, _, _) => clip_id) subs.

End JobRuns.

Module MetricsRuns.

(** The number of [record_request_complete] calls among the calls made. *)
Definition completions (calls : list JobManager.MetricEvent) : nat :=
  length (List.filter
            (fun m => match m with
                      | JobManager.RecordRequestComplete _ _ _ => true
                      | _ => false
                      end) calls).

(** The call counter and the collector after the calls made. *)
Definition state_after (clock : nat -> Z) (calls : list JobManager.MetricEvent)
    : nat * Metrics.MetricsCollector :=
  fold_left (Metrics.apply_call clock) calls (0%nat, Metrics.empty_collector).

(** The collector is in step with a job table: the active requests are
    the jobs that are not DONE or FAILED, and every completion call so far
    added one latency sample. *)
Definition in_step (clock : nat -> Z) (calls : list JobManager.MetricEvent)
    (st : string -> option Models.ClipStatus) : Prop :=
  (forall id,
     is_Some (Metrics.active_requests (Metrics.replay clock calls) !! id) <->
     exists x, st id = Some x /\ JobManager.is_terminal x = false)
  /\ length (Metrics.clip_latency_seconds (Metrics.replay clock calls))
     = completions calls.

End MetricsRuns.

(** ** mediamtx_client.py: the timestamp in a file name *)

Module FilenameTimestamp.

(** The file names of this module are ASCII text ([ascii_only]): there a
    byte is a character and [\d] matches exactly ['0'] to ['9'].  On
    other text [\d] and [strptime] also accept the decimal digits of
    other scripts, which this module does not have; every statement about
    it carries [ascii_only] as a hypothesis. *)
Fixpoint ascii_only (s : string) : bool :=
  match s with
  | EmptyString => true
  | String c s' => (Z.of_nat (nat_of_ascii c) <? 128) && ascii_only s'
  end.

Definition is_digit (c : ascii) : bool :=
  (48 <=? Z.of_nat (nat_of_ascii c)) && (Z.of_nat (nat_of_ascii c) <=? 57).

Definition digit_value (c : ascii) : Z := Z.of_nat (nat_of_ascii c) - 48.

(** One position of a pattern: [\d] or a literal character. *)
Inductive Cls : Type :=
| Digit
| Lit (c : ascii).

(** [pattern] at the start of [s]: the matched text. *)
Fixpoint match_here (pattern : list Cls) (s : string) : option string :=
  match pattern, s with
  | [], _ => Some EmptyString
  | Digit :: p', String c s' =>
      if is_digit c then String c <$> match_here p' s' else None
  | Lit a :: p', String c s' =>
      if Ascii.eqb a c then String c <$> match_here p' s' else None
  | _ :: _, EmptyString => None
  end.

(** [re.search(pattern, s)]: the leftmost match. *)
Fixpoint re_search (pattern : list Cls) (s : string) : option string :=
  match match_here pattern s with
  | Some m => Some m
  | None =>
      match s with
      | EmptyString => None
      | String _ s' => re_search pattern s'
      end
  end.

(** A pattern with its groups, each given by where it starts in the match
    and how long it is. *)
Record Pattern : Type := {
  template : list Cls;
  groups : list (nat * nat)
}.

Definition digits (n : nat) : list Cls := replicate n Digit.

(** [(\d{4}-\d{2}-\d{2})_(\d{2}-\d{2}-\d{2})] *)
Definition pattern_dashed : Pattern :=
  {| template := digits 4 ++ [Lit "-"] ++ digits 2 ++ [Lit "-"] ++ digits 2
                 ++ [Lit "_"] ++ digits 2 ++ [Lit "-"] ++ digits 2 ++ [Lit "-"]
                 ++ digits 2;
     groups := [(0, 10); (11, 8)]%nat |}.

(** [(\d{4}\d{2}\d{2})_(\d{6})] *)
Definition pattern_compact : Pattern :=
  {| template := digits 8 ++ [Lit "_"] ++ digits 6;
     groups := [(0, 8); (9, 6)]%nat |}.

(** [(\d{14})] *)
Definition pattern_numeric : Pattern :=
  {| template := digits 14; groups := [(0, 14)]%nat |}.

(** [(\d{4}-\d{2}-\d{2}T\d{2}:\d{2}:\d{2})] *)
Definition pattern_iso : Pattern :=
  {| template := digits 4 ++ [Lit "-"] ++ digits 2 ++ [Lit "-"] ++ digits 2
                 ++ [Lit "T"] ++ digits 2 ++ [Lit ":"] ++ digits 2 ++ [Lit ":"]
                 ++ digits 2;
     groups := [(0, 19)]%nat |}.

Definition timestamp_patterns : list Pattern :=
  [pattern_dashed; pattern_compact; pattern_numeric; pattern_iso].

(** [s.replace(c, '')] *)
Fixpoint remove_char (a : ascii) (s : string) : string :=
  match s with
  | EmptyString => EmptyString
  | String c s' => if Ascii.eqb a c then remove_char a s' else String c (remove_char a s')
  end.

(** [c in s] *)
Fixpoint contains_char (a : ascii) (s : string) : bool :=
  match s with
  | EmptyString => false
  | String c s' => Ascii.eqb a c || contains_char a s'
  end.

Definition group (m : string) (g : nat * nat) : string :=
  String.substring (fst g) (snd g) m.

(** A naive [datetime] with second resolution. *)
Record Civil : Type := {
  year : Z; month : Z; day : Z; hour : Z; minute : Z; second : Z
}.

Definition is_leap (y : Z) : bool :=
  ((y mod 4 =? 0) && negb (y mod 100 =? 0)) || (y mod 400 =? 0).

Definition days_in_month (y m : Z) : Z :=
  if m =? 2 then (if is_leap y then 29 else 28)
  else if (m =? 4) || (m =? 6) || (m =? 9) || (m =? 11) then 30
  else 31.

(** What the [datetime] constructor accepts. *)
Definition valid_civil (c : Civil) : bool :=
  (1 <=? year c) && (year c <=? 9999)
  && (1 <=? month c) && (month c <=? 12)
  && (1 <=? day c) && (day c <=? days_in_month (year c) (month c))
  && (0 <=? hour c) && (hour c <=? 23)
  && (0 <=? minute c) && (minute c <=? 59)
  && (0 <=? second c) && (second c <=? 59).

(** Days from 1970-01-01 to a date of the proleptic Gregorian calendar. *)
Definition days_from_civil (y m d : Z) : Z :=
  let y' := if m <=? 2 then y - 1 else y in
  let era := y' / 400 in
  let yoe := y' - era * 400 in
  let doy := (153 * (if 2 <? m then m - 3 else m + 9) + 2) / 5 + d - 1 in
  let doe := yoe * 365 + yoe / 4 - yoe / 100 + doy in
  era * 146097 + doe - 719468.

(** The datetime as the embedding has it: microseconds on the time line
    of naive datetimes. *)
Definition to_usec (c : Civil) : Z :=
  seconds (((days_from_civil (year c) (month c) (day c) * 24 + hour c) * 60
            + minute c) * 60 + second c).

Fixpoint number (acc : Z) (s : string) : Z :=
  match s with
  | EmptyString => acc
  | String c s' => number (acc * 10 + digit_value c) s'
  end.

Fixpoint all_digits (s : string) : bool :=
  match s with
  | EmptyString => true
  | String c s' => is_digit c && all_digits s'
  end.

(** [datetime.strptime(s, '%Y%m%d%H%M%S')] on a string of 14 digits, the
    only strings the patterns hand to it: the fields are read two digits
    at a time after the four of the year, and the date-time must exist. *)
Definition strptime (s : string) : result Z :=
  if all_digits s && (String.length s =? 14)%nat then
    let c := {| year := number 0 (String.substring 0 4 s);
                month := number 0 (String.substring 4 2 s);
                day := number 0 (String.substring 6 2 s);
                hour := number 0 (String.substring 8 2 s);
                minute := number 0 (String.substring 10 2 s);
                second := number 0 (String.substring 12 2 s) |} in
    if valid_civil c then Ok (to_usec c)
    else Raise (ValueError "time data does not match format")
  else Raise (ValueError "time data does not match format").

Section Parse.
(** [datetime.fromisoformat] on a text of the shape [YYYY-MM-DDTHHMMSS];
    whether it accepts that shape depends on the Python version. *)
Variable fromisoformat : string -> result Z.

(** The body of the [try] for a match [m] of pattern [p]. *)
Definition parse_match (p : Pattern) (m : string) : result Z :=
  match groups p with
  | [g1; g2] =>
      let date_str := remove_char "-" (group m g1) in
      let time_str := remove_char "-" (group m g2) in
      let timestamp_str := date_str +:+ time_str in
      strptime timestamp_str
  | [g1] =>
      let timestamp_str := group m g1 in
      if contains_char "T" timestamp_str
      then fromisoformat (remove_char ":" timestamp_str)
      else strptime timestamp_str
  | _ => Raise (ValueError "no timestamp")
  end.

(** The loop over the patterns: the first pattern that matches and parses
    decides; a match that does not parse moves on to the next pattern. *)
Fixpoint first_parsed (patterns : list Pattern) (filename : string) : option Z :=
  match patterns with
  | [] => None
  | p :: rest =>
      match re_search (template p) filename with
      | Some m =>
          match parse_match p m with
          | Ok t => Some t
          | Raise _ => first_parsed rest filename
          end
      | None => first_parsed rest filename
      end
  end.

Definition filename_timestamp (filename : string) : option Z :=
  first_parsed timestamp_patterns filename.

End Parse.

(** Printing a field with two or four digits. *)
Definition digit_char (n : Z) : ascii := ascii_of_nat (Z.to_nat (48 + n)).

Definition two_digits (n : Z) : string :=
  String (digit_char (n / 10)) (String (digit_char (n mod 10)) EmptyString).

Definition four_digits (n : Z) : string :=
  String (digit_char (n / 1000))
    (String (digit_char (n / 100 mod 10))
       (String (digit_char (n / 10 mod 10))
          (String (digit_char (n mod 10)) EmptyString))).

(** [YYYY-MM-DD_HH-MM-SS] *)
Definition dashed (c : Civil) : string :=
  four_digits (year c) +:+ "-" +:+ two_digits (month c) +:+ "-"
  +:+ two_digits (day c) +:+ "_" +:+ two_digits (hour c) +:+ "-"
  +:+ two_digits (minute c) +:+ "-" +:+ two_digits (second c).

(** Every run of consecutive digits in [s] is shorter than four, where
    [k] digits are taken to stand right before [s]; with [open_end] false,
    [s] must moreover not end in a digit. *)
Fixpoint short_runs (open_end : bool) (k : nat) (s : string) : bool :=
  match s with
  | EmptyString => open_end || (k =? 0)%nat
  | String c s' =>
      if is_digit c then (S k <? 4)%nat && short_runs open_end (S k) s'
      else short_runs open_end 0 s'
  end.

End FilenameTimestamp.

Module RangeFixtures.
Import Fixtures.





End RangeFixtures.

(** * Verification *)

Import Models Fixtures RangeFixtures.

(** ** Facts about the prelude *)

Lemma min_by_key_spec {A} (key : A -> Z) (l : list A) (best : A) :
  In (min_by_key key best l) (best :: l)
  /\ forall y, In y (best :: l) -> key (min_by_key key best l) <= key y.
Proof.
  revert best. induction l as [|x l IH]; intros best; simpl.
  - split; [now left|]. intros y [->|[]]. lia.
  - destruct (IH (if key x <? key best then x else best)) as [Hin Hmin].
    split.
    + destruct Hin as [Heq|Hin]; [|now right; right].
      rewrite <- Heq. destruct (key x <? key best); [right; now left|now left].
    + intros y Hy.
      assert (Hb : key (if key x <? key best then x else best) <= key best
                   /\ key (if key x <? key best then x else best) <= key x).
      { destruct (Z.ltb_spec (key x) (key best)); lia. }
      specialize (Hmin (if key x <? key best then x else best) (or_introl eq_refl)) as Hm0.
      destruct Hy as [->|[->|Hy]].
      * lia.
      * lia.
      * apply Hmin. now right.
Qed.

Lemma max_from_spec (l : list Z) (best : Z) :
  In (max_from best l) (best :: l)
  /\ forall y, In y (best :: l) -> y <= max_from best l.
Proof.
  revert best. induction l as [|x l IH]; intros best; simpl.
  - split; [now left|]. intros y [->|[]]. lia.
  - destruct (IH (if x >? best then x else best)) as [Hin Hmax].
    assert (Hb : best <= (if x >? best then x else best)
                 /\ x <= (if x >? best then x else best)).
    { destruct (Z.gtb_spec x best); lia. }
    specialize (Hmax _ (or_introl eq_refl)) as Hm0.
    split.
    + destruct Hin as [Heq|Hin]; [|now right; right].
      rewrite <- Heq. destruct (x >? best); [right; now left|now left].
    + intros y [->|[->|Hy]]; [lia|lia|]. apply Hmax. now right.
Qed.

Lemma py_max_spec (l : list Z) :
  l <> [] ->
  exists m, py_max l = Ok m /\ In m l /\ forall y, In y l -> y <= m.
Proof.
  destruct l as [|x l]; [congruence|]. intros _.
  exists (max_from x l). split; [reflexivity|]. apply max_from_spec.
Qed.

Lemma py_min_spec (l : list Z) :
  l <> [] ->
  exists m, py_min l = Ok m /\ In m l /\ forall y, In y l -> m <= y.
Proof.
  destruct l as [|x l]; [congruence|]. intros _.
  exists (min_by_key (fun z => z) x l). split; [reflexivity|].
  apply (min_by_key_spec (fun z => z)).
Qed.



(** ** buffer_index.py: keyframe snapping *)

Import BufferIndex Spec.

Lemma is_datetimeb_spec (t : Z) : is_datetimeb t = true <-> is_datetime t.
Proof.
  unfold is_datetimeb, is_datetime. rewrite andb_true_iff, !Z.leb_le. tauto.
Qed.


Lemma datetime_add_ok (d td : Z) :
  is_datetime (d + td) -> datetime_add d td = Ok (d + td).
Proof.
  intros H. unfold datetime_add. apply is_datetimeb_spec in H. now rewrite H.
Qed.


(** The last two lines of [snap_to_keyframe] for a chosen offset. *)
Local Abbreviation snap_tail S chosen :=
  (offset ← py_timedelta chosen%Z;
   snapped_time ← datetime_add (start S) offset;
   Ok (snapped_time, chosen%Z)).






(** [min(l, key=f)] returns the first element of minimal key: everything
    before it has a strictly larger key. *)
Lemma min_by_key_first {A} (key : A -> Z) (l p q : list A) (best : A) :
  (forall y, In y p -> key best < key y) ->
  (forall y, In y q -> key best <= key y) ->
  exists l1 l2,
    p ++ best :: q ++ l = l1 ++ min_by_key key best l :: l2
    /\ (forall y, In y l1 -> key (min_by_key key best l) < key y)
    /\ (forall y, In y l2 -> key (min_by_key key best l) <= key y).
Proof.
  revert p q best. induction l as [|x l IH]; intros p q best Hp Hq; simpl.
  - exists p, q. rewrite app_nil_r. auto.
  - destruct (Z.ltb_spec (key x) (key best)) as [Hlt|Hge].
    + destruct (IH (p ++ best :: q) [] x) as (l1 & l2 & Heq & H1 & H2).
      * intros y Hy. apply in_app_or in Hy. destruct Hy as [Hy|[<-|Hy]].
        -- specialize (Hp y Hy). lia.
        -- exact Hlt.
        -- specialize (Hq y Hy). lia.
      * intros y [].
      * exists l1, l2. split; [|auto].
        rewrite <- Heq. cbn [app]. now rewrite <- !app_assoc.
    + destruct (IH p (q ++ [x]) best) as (l1 & l2 & Heq & H1 & H2).
      * exact Hp.
      * intros y Hy. apply in_app_or in Hy. destruct Hy as [Hy|[<-|[]]]; auto.
      * exists l1, l2. split; [|auto].
        rewrite <- Heq. now rewrite <- !app_assoc.
Qed.

(** On offsets in ascending order, as the data model has them, the value
    of [closest_keyframe] computed by [min] is already the nearest offset
    with the smaller one taken on a tie. *)
Lemma closest_keyframe_on_sorted (kfs : list Z) (rel : Z) :
  Sorted Z.le kfs ->
  kfs <> [] ->
  exists c, py_min_key (fun kf => Z.abs (kf - rel)) kfs = Ok c
            /\ nearest_offset kfs rel c.
Proof.
  intros Hsorted Hne. destruct kfs as [|k0 rest]; [congruence|].
  exists (min_by_key (fun kf => Z.abs (kf - rel)) k0 rest). split; [reflexivity|].
  destruct (min_by_key_spec (fun kf => Z.abs (kf - rel)) rest k0) as [Hin Hmin].
  split; [exact Hin|]. split; [exact Hmin|].
  intros k Hk Hd.
  destruct (min_by_key_first (fun kf => Z.abs (kf - rel)) rest [] [] k0)
    as (l1 & l2 & Heq & H1 & H2); [intros ? []|intros ? []|].
  cbn [app] in Heq. rewrite Heq in Hk, Hsorted.
  apply in_app_or in Hk. destruct Hk as [Hk|[<-|Hk]].
  - specialize (H1 k Hk). cbn in H1. lia.
  - lia.
  - apply Sorted_StronglySorted in Hsorted; [|intros x y z; lia].
    apply StronglySorted_app_1_r in Hsorted.
    apply StronglySorted_inv in Hsorted. destruct Hsorted as [_ Hall].
    rewrite List.Forall_forall in Hall. now apply Hall.
Qed.














(** ** Sorting by key *)

Section SortedByKey.
Context {A : Type} (key : A -> Z).

Lemma insert_by_key_In (x y : A) (l : list A) :
  In y (insert_by_key key x l) <-> y = x \/ In y l.
Proof.
  induction l as [|z l IH]; simpl.
  - intuition.
  - destruct (key x <=? key z); simpl; [intuition|]. rewrite IH. intuition.
Qed.

Lemma py_sorted_In (y : A) (l : list A) : In y (py_sorted key l) <-> In y l.
Proof.
  induction l as [|x l IH]; simpl; [tauto|].
  rewrite insert_by_key_In, IH. intuition.
Qed.



End SortedByKey.

(** ** Range queries: [find_segments] and [find_clips] *)

Lemma overlaps_iff (S : BufferSegment) (ws we : Z) :
  overlaps S ws we = true <-> overlap (start S) (end_ S) ws we.
Proof.
  unfold overlaps, overlap. rewrite andb_true_iff, Z.leb_le, Z.geb_le. lia.
Qed.

Section Discovery.
Import MediaMTXClient.
Variable os : Os.
Variable clips_base_dir : string.
Variable filename_timestamp : string -> option Z.

Local Abbreviation clip_start := (clip_start os filename_timestamp).
Local Abbreviation extract_clip_info := (extract_clip_info os filename_timestamp).
Local Abbreviation scan_files := (scan_files os filename_timestamp).
Local Abbreviation find_clips := (find_clips os clips_base_dir filename_timestamp).

(** What [_extract_clip_info] returns, case by case. *)
Lemma extract_clip_info_cases (fp : string) (ws we : Z) :
  match clip_start fp with
  | None => extract_clip_info fp ws we = Ok None
  | Some s =>
      match datetime_add s (estimated_duration os fp) with
      | Raise err => extract_clip_info fp ws we = Raise err
      | Ok e =>
          if (e >=? ws) && (s <=? we) then
            match getsize os fp with
            | Ok size =>
                extract_clip_info fp ws we =
                  Ok (Some {| file_path := abspath os fp; filename := basename os fp;
                              start_time := s; end_time := e;
                              duration_seconds := estimated_duration os fp;
                              file_size := size |})
            | Raise err => extract_clip_info fp ws we = Raise err
            end
          else extract_clip_info fp ws we = Ok None
      end
  end.
Proof.
  unfold MediaMTXClient.extract_clip_info.
  destruct (clip_start fp) as [s|]; [|reflexivity]. cbn zeta.
  destruct (datetime_add s (estimated_duration os fp)) as [e|err]; [|reflexivity].
  cbn [mbind result_bind rbind].
  destruct ((e >=? ws) && (s <=? we)); [|reflexivity].
  destruct (getsize os fp); reflexivity.
Qed.

Lemma datetime_add_inv (d td r : Z) :
  datetime_add d td = Ok r -> r = d + td /\ is_datetime (d + td).
Proof.
  unfold datetime_add. destruct (is_datetimeb (d + td)) eqn:E; [|discriminate].
  intros [= <-]. split; [reflexivity|]. now apply is_datetimeb_spec.
Qed.

Lemma extract_clip_info_some (fp : string) (ws we : Z) (c : ClipInfo) :
  extract_clip_info fp ws we = Ok (Some c) ->
  clip_start fp = Some (start_time c)
  /\ end_time c = start_time c + estimated_duration os fp
  /\ file_path c = abspath os fp
  /\ filename c = basename os fp
  /\ duration_seconds c = estimated_duration os fp
  /\ getsize os fp = Ok (file_size c)
  /\ overlap (start_time c) (end_time c) ws we.
Proof.
  intros H. pose proof (extract_clip_info_cases fp ws we) as Hc.
  destruct (clip_start fp) as [s|]; [|congruence].
  destruct (datetime_add s (estimated_duration os fp)) as [e|err] eqn:Hadd;
    [|congruence].
  apply datetime_add_inv in Hadd. destruct Hadd as [-> _].
  destruct ((s + estimated_duration os fp >=? ws) && (s <=? we)) eqn:Hov; [|congruence].
  destruct (getsize os fp) as [size|err]; [|congruence].
  rewrite Hc in H. injection H as <-. cbn.
  apply andb_true_iff in Hov. destruct Hov as [H1 H2].
  apply Z.geb_le in H1. apply Z.leb_le in H2.
  repeat split; try reflexivity; unfold overlap; lia.
Qed.

Lemma scan_files_ok (files : list string) (ws we : Z) (acc clips : list ClipInfo) :
  scan_files files ws we acc = Ok clips ->
  (forall fp, In fp files -> exists r, extract_clip_info fp ws we = Ok r)
  /\ (forall c, In c clips <->
        In c acc \/ exists fp, In fp files /\ extract_clip_info fp ws we = Ok (Some c)).
Proof.
  revert acc. induction files as [|fp files IH]; intros acc H; simpl in H.
  - injection H as <-. split; [intros ? []|].
    intros c. split; [now left|]. intros [Hc|(fp & [] & _)]. exact Hc.
  - destruct (extract_clip_info fp ws we) as [r|err] eqn:E; [|discriminate].
    cbn [mbind result_bind rbind] in H.
    destruct (IH _ H) as [Hall Hin]. split.
    + intros fp' [<-|Hfp']; [eauto|now apply Hall].
    + intros c. rewrite Hin. split.
      * intros [Hc|(fp' & Hfp' & Hex)].
        -- destruct r as [c'|]; [|now left].
           apply in_app_or in Hc. destruct Hc as [Hc|[<-|[]]]; [now left|].
           right. exists fp. split; [now left|exact E].
        -- right. exists fp'. split; [now right|exact Hex].
      * intros [Hc|(fp' & [<-|Hfp'] & Hex)].
        -- left. destruct r; [apply in_or_app; now left|exact Hc].
        -- left. rewrite E in Hex. injection Hex as ->.
           apply in_or_app. right. now left.
        -- right. exists fp'. now split.
Qed.

End Discovery.

Section RangeQueries.
Import MediaMTXClient.
Variable os : Os.
Variable clips_base_dir : string.
Variable filename_timestamp : string -> option Z.

Local Abbreviation clip_start := (clip_start os filename_timestamp).
Local Abbreviation find_clips := (find_clips os clips_base_dir filename_timestamp).


End RangeQueries.



(** ** mediamtx_client.py: a file that cannot be read *)

(** C3.  Failures of [os.stat] are skipped over, but the scan is aborted by
    [os.path.getsize]: when the second recording of the camera directory
    vanishes after the enumeration, [find_clips] raises instead of
    returning the remaining candidate.  Without the race the same scan
    returns both recordings, and the file whose modification time cannot
    be read is skipped. *)
Theorem find_clips_aborts_when_file_vanishes :
  MediaMTXClient.find_clips racy_os "mediamtx_clips" demo_filename_timestamp
    "camera1" (t0 + seconds 15) (t0 + seconds 35)
    = Raise (OSError "No such file or directory")
  /\ MediaMTXClient.find_clips demo_os "mediamtx_clips" demo_filename_timestamp
       "camera1" (t0 + seconds 15) (t0 + seconds 35)
       = Ok [candidate_a; candidate_b]
  /\ MediaMTXClient.extract_clip_info racy_os demo_filename_timestamp
       clip_untimed (t0 + seconds 15) (t0 + seconds 35) = Ok None.
Proof. repeat split; reflexivity. Qed.

(** The general shape of that failure: a candidate inside the window whose
    size cannot be read makes [_extract_clip_info] raise. *)
Lemma extract_clip_info_raises (os : MediaMTXClient.Os)
    (filename_timestamp : string -> option Z) (fp : string) (ws we s : Z) (e : exn) :
  MediaMTXClient.clip_start os filename_timestamp fp = Some s ->
  is_datetime (s + MediaMTXClient.estimated_duration os fp) ->
  overlap s (s + MediaMTXClient.estimated_duration os fp) ws we ->
  MediaMTXClient.getsize os fp = Raise e ->
  MediaMTXClient.extract_clip_info os filename_timestamp fp ws we = Raise e.
Proof.
  intros Hs Hend Hov Hg.
  pose proof (extract_clip_info_cases os filename_timestamp fp ws we) as Hc.
  rewrite Hs, (datetime_add_ok _ _ Hend) in Hc.
  assert ((s + MediaMTXClient.estimated_duration os fp >=? ws) && (s <=? we) = true) as Ht.
  { unfold overlap in Hov. apply andb_true_iff. rewrite Z.geb_le, Z.leb_le. lia. }
  rewrite Ht, Hg in Hc. exact Hc.
Qed.

(** Hence a scan that meets such a file does not return a list. *)
Lemma find_clips_raises_on_unreadable_candidate (os : MediaMTXClient.Os)
    (clips_base_dir : string) (filename_timestamp : string -> option Z)
    (camera_id fp : string) (ws we s : Z) (e : exn) :
  let camera_dir := MediaMTXClient.path_join clips_base_dir camera_id in
  MediaMTXClient.path_exists os camera_dir = true ->
  In fp (MediaMTXClient.enumerate os camera_dir) ->
  MediaMTXClient.clip_start os filename_timestamp fp = Some s ->
  is_datetime (s + MediaMTXClient.estimated_duration os fp) ->
  overlap s (s + MediaMTXClient.estimated_duration os fp) ws we ->
  MediaMTXClient.getsize os fp = Raise e ->
  exists e',
    MediaMTXClient.find_clips os clips_base_dir filename_timestamp camera_id ws we
    = Raise e'.
Proof.
  intros camera_dir Hdir Hfp Hs Hend Hov Hg.
  unfold MediaMTXClient.find_clips. fold camera_dir. rewrite Hdir. cbn [negb].
  destruct (MediaMTXClient.scan_files os filename_timestamp
              (MediaMTXClient.enumerate os camera_dir) ws we []) as [clips|e']
    eqn:Hscan; [|cbn; eauto].
  destruct (scan_files_ok os filename_timestamp _ _ _ _ _ Hscan) as [Hall _].
  destruct (Hall fp Hfp) as [r Hr].
  rewrite (extract_clip_info_raises os filename_timestamp fp ws we s e Hs Hend
             Hov Hg) in Hr.
  discriminate.
Qed.

(** ** clip_processor.py: the assembly step *)

Section Planner.
Import MediaMTXClient ClipProcessor.
Variable os : Os.
Variable clips_base_dir : string.
Variable filename_timestamp : string -> option Z.
Variable subprocess_run : FfmpegCmd -> RunOutcome.
Variable can_write : string -> bool.
Variable can_remove : string -> bool.

Local Abbreviation build_cmd := (build_cmd os can_write).
Local Abbreviation process_mediamtx_clips :=
  (process_mediamtx_clips os subprocess_run can_write can_remove).
Local Abbreviation process_clip :=
  (process_clip os clips_base_dir filename_timestamp subprocess_run
                can_write can_remove).


(** With two or more candidates, the manifest is written (when the file
    can be opened) and the concatenation command is built. *)
Lemma build_cmd_concat (w : World) (c1 c2 : ClipInfo) (rest : list ClipInfo)
    (output_path : string) (ws we : Z) :
  let manifest := abspath os ("concat_" +:+ basename os (file_path c1) +:+ ".txt") in
  can_write manifest = true ->
  exists lines,
    build_cmd w (c1 :: c2 :: rest) output_path ws we
    = (set_files w (<[manifest := ConcatList lines]> (files w)),
       Ok (ConcatCmd manifest (abspath os output_path))).
Proof.
  intros manifest Hw. unfold ClipProcessor.build_cmd, write_file.
  cbn [concat_name]. fold manifest. rewrite Hw. eexists. reflexivity.
Qed.

(** C2.  With two or more candidates and a transcoder that times out or
    cannot be launched, the call returns [False] and the manifest it wrote
    is still there: the two handlers return before the removal. *)
Theorem manifest_survives_timeout_and_launch_failure (w : World)
    (c1 c2 : ClipInfo) (rest : list ClipInfo) (output_path : string) (ws we : Z) :
  let manifest := abspath os ("concat_" +:+ basename os (file_path c1) +:+ ".txt") in
  let cmd := ConcatCmd manifest (abspath os output_path) in
  can_write manifest = true ->
  subprocess_run cmd = TimeoutExpired
  \/ (exists e, subprocess_run cmd = LaunchFailed e) ->
  exists w',
    process_mediamtx_clips w (c1 :: c2 :: rest) output_path ws we = (w', false)
    /\ is_Some (files w' !! manifest).
Proof.
  intros manifest cmd Hw Hrun.
  destruct (build_cmd_concat w c1 c2 rest output_path ws we Hw) as [lines Hb].
  fold manifest in Hb. unfold ClipProcessor.process_mediamtx_clips.
  rewrite Hb. fold cmd.
  destruct Hrun as [->|[e ->]]; eexists; (split; [reflexivity|]); cbn;
    rewrite lookup_insert_eq; eauto.
Qed.

(** After a transcoder exit, whatever the code, the manifest is gone
    (provided it can be removed). *)
Lemma manifest_removed_after_exit (w : World) (c1 c2 : ClipInfo)
    (rest : list ClipInfo) (output_path : string) (ws we rc : Z) :
  let manifest := abspath os ("concat_" +:+ basename os (file_path c1) +:+ ".txt") in
  can_write manifest = true ->
  can_remove manifest = true ->
  subprocess_run (ConcatCmd manifest (abspath os output_path)) = Completed rc ->
  exists w',
    process_mediamtx_clips w (c1 :: c2 :: rest) output_path ws we = (w', rc =? 0)
    /\ files w' !! manifest = None.
Proof.
  intros manifest Hw Hr Hrun.
  destruct (build_cmd_concat w c1 c2 rest output_path ws we Hw) as [lines Hb].
  fold manifest in Hb. unfold ClipProcessor.process_mediamtx_clips.
  rewrite Hb, Hrun. unfold remove_manifest.
  replace (1 <? Z.of_nat (length (c1 :: c2 :: rest))) with true
    by (symmetry; apply Z.ltb_lt; cbn [length]; lia).
  cbn [concat_name]. fold manifest. cbn [log_invoked set_files files].
  rewrite lookup_insert_eq, Hr.
  destruct (rc =? 0); eexists; (split; [reflexivity|]); cbn;
    apply lookup_delete_eq.
Qed.

End Planner.


Lemma manifest_survives_timeout_witness :
  exists w',
    ClipProcessor.process_mediamtx_clips demo_os (always ClipProcessor.TimeoutExpired)
      yes yes empty_world [candidate_a; candidate_b] "videos/out.mp4"
      (t0 + seconds 15) (t0 + seconds 35) = (w', false)
    /\ is_Some (ClipProcessor.files w' !! demo_manifest).
Proof.
  apply (manifest_survives_timeout_and_launch_failure demo_os
           (always ClipProcessor.TimeoutExpired) yes yes empty_world
           candidate_a candidate_b [] "videos/out.mp4"
           (t0 + seconds 15) (t0 + seconds 35)).
  - reflexivity.
  - left. reflexivity.
Defined.

Section Outcome.
Import MediaMTXClient ClipProcessor.
Variable os : Os.
Variable clips_base_dir : string.
Variable filename_timestamp : string -> option Z.
Variable subprocess_run : FfmpegCmd -> RunOutcome.
Variable can_write : string -> bool.
Variable can_remove : string -> bool.

Local Abbreviation find_clips := (find_clips os clips_base_dir filename_timestamp).
Local Abbreviation process_mediamtx_clips :=
  (process_mediamtx_clips os subprocess_run can_write can_remove).
Local Abbreviation process_clip :=
  (process_clip os clips_base_dir filename_timestamp subprocess_run
                can_write can_remove).

(** Whatever the candidates, a transcoder that never succeeds makes the
    assembly step return [False]. *)
Lemma planner_reports_failure (w : World) (clips : list ClipInfo)
    (output_path : string) (ws we : Z) :
  (forall cmd, transcoder_fails (subprocess_run cmd)) ->
  snd (process_mediamtx_clips w clips output_path ws we) = false.
Proof.
  intros Hfail. unfold ClipProcessor.process_mediamtx_clips.
  destruct (build_cmd os can_write w clips output_path ws we) as [w1 [cmd|e]];
    [|reflexivity].
  specialize (Hfail cmd).
  destruct (subprocess_run cmd) as [rc| |e]; try reflexivity.
  destruct (remove_manifest os can_remove _ clips) as [w2 [u|e]]; [|reflexivity].
  destruct (Z.eqb_spec rc 0) as [->|Hne]; [|reflexivity].
  cbn in Hfail. congruence.
Qed.


End Outcome.


(** ** job_manager.py: the job table and the workers *)

Import JobManager JobInvariant JobFixtures.

Example history_direct_updates :
  history init direct_updates "7d0c3b2e"
  = [None; Some PENDING; Some DONE; Some PENDING].
Proof. vm_compute. reflexivity. Qed.

Example history_worker_run :
  history init worker_run "7d0c3b2e"
  = [None; Some PENDING; Some PENDING; Some PENDING; Some PROCESSING;
     Some PROCESSING; Some DONE].
Proof. vm_compute. reflexivity. Qed.

Lemma update_job_status_queue s id st u e now :
  processing_queue (update_job_status s id st u e now) = processing_queue s.
Proof.
  unfold update_job_status. destruct (jobs s !! id); [|reflexivity].
  destruct (is_terminal st); reflexivity.
Qed.

Lemma update_job_status_workers s id st u e now :
  workers (update_job_status s id st u e now) = workers s.
Proof.
  unfold update_job_status. destruct (jobs s !! id); [|reflexivity].
  destruct (is_terminal st); reflexivity.
Qed.

Lemma update_job_status_jobs s id st u e now :
  jobs (update_job_status s id st u e now)
  = match jobs s !! id with
    | Some job => <[id := updated_job job st u e now]> (jobs s)
    | None => jobs s
    end.
Proof.
  unfold update_job_status. destruct (jobs s !! id); [|reflexivity].
  destruct (is_terminal st); reflexivity.
Qed.

(** [update_job_status] writes the given status into an existing job,
    whatever the job's status was, and touches no other job. *)
Lemma status_of_update_job_status s id st u e now id' :
  status_of (update_job_status s id st u e now) id'
  = if decide (id' = id)
    then match status_of s id with Some _ => Some st | None => None end
    else status_of s id'.
Proof.
  unfold status_of. rewrite update_job_status_jobs.
  destruct (jobs s !! id) as [job|] eqn:E; case_decide; subst; cbn.
  - now rewrite lookup_insert_eq.
  - now rewrite lookup_insert_ne.
  - now rewrite E.
  - reflexivity.
Qed.

(** C9.  For a [clip_id] that is not in the job table,
    [update_job_status] returns the coordinator unchanged: no entry is
    added, every job record (status, completion time, result fields) is
    what it was, and no metrics call is made. *)
Theorem update_job_status_unknown_id (s : State) (clip_id : string)
    (status : ClipStatus) (download_url error_message : option string) (now : Z) :
  jobs s !! clip_id = None ->
  let s' := update_job_status s clip_id status download_url error_message now in
  s' = s
  /\ jobs s' !! clip_id = None
  /\ (forall id, jobs s' !! id = jobs s !! id)
  /\ metrics s' = metrics s.
Proof.
  intros Hnone. cbn zeta. unfold update_job_status. rewrite Hnone. auto.
Qed.

Lemma update_job_status_unknown_id_witness :
  let s := submitted in
  let s' := update_job_status s "0a1b2c3d" FAILED None (Some "lost")
                              (seconds 1756144861) in
  s' = s /\ jobs s' !! "0a1b2c3d" = None
  /\ (forall id, jobs s' !! id = jobs s !! id) /\ metrics s' = metrics s.
Proof.
  apply (update_job_status_unknown_id submitted
           "0a1b2c3d" FAILED None (Some "lost") (seconds 1756144861)).
  vm_compute. reflexivity.
Defined.

(** C4 as stated fails: [update_job_status] writes whatever status it is
    given.  After a submission, a direct call with DONE takes the job from
    PENDING to DONE without PROCESSING, and a second call with PENDING
    takes it from DONE back to PENDING. *)
Lemma direct_update_calls_break_monotonicity :
  history init direct_updates "7d0c3b2e"
    = [None; Some PENDING; Some DONE; Some PENDING]
  /\ ~ monotone (history init direct_updates "7d0c3b2e")
  /\ ~ stays_terminal (history init direct_updates "7d0c3b2e").
Proof.
  assert (history init direct_updates "7d0c3b2e"
          = [None; Some PENDING; Some DONE; Some PENDING]) as Hh
    by (vm_compute; reflexivity).
  rewrite Hh. split; [reflexivity|]. split.
  - intros Hm. specialize (Hm 1%nat (Some PENDING) (Some DONE) eq_refl eq_refl).
    cbn in Hm. destruct Hm; discriminate.
  - intros Ht.
    specialize (Ht 2%nat 3%nat DONE ltac:(lia) ltac:(cbn; lia) eq_refl eq_refl).
    discriminate.
Qed.

(** *** The invariant is kept by submissions and worker moves *)

Lemma status_step_refl (a : option ClipStatus) : status_step a a.
Proof. destruct a; cbn; auto. Qed.

Lemma inv_init : inv init.
Proof.
  split; cbn.
  - intros id H. apply elem_of_nil in H. destruct H.
  - constructor.
  - intros i pc id H. rewrite lookup_nil in H. discriminate.
  - intros i j pci pcj id H. rewrite lookup_nil in H. discriminate.
Qed.

(** A worker moves from [pc] to [pc']: the queue can only shrink, only the
    job held at [pc] can change status, and a job held at [pc'] was held
    at [pc] or has just been taken from the queue. *)
Lemma inv_worker_move (s s' : State) (i : nat) (pc pc' : WorkerPc) :
  inv s ->
  workers s !! i = Some pc ->
  workers s' = <[i := pc']> (workers s) ->
  (forall id, id ∈ processing_queue s' -> id ∈ processing_queue s) ->
  NoDup (processing_queue s') ->
  (forall id, held pc <> Some id -> status_of s' id = status_of s id) ->
  (forall id, held pc' = Some id ->
     status_of s' id = expected pc' /\ (id ∉ processing_queue s')
     /\ (held pc = Some id \/ id ∈ processing_queue s)) ->
  inv s'.
Proof.
  intros [HQ HN HW HU] Hi Hws Hsub Hnd Hst Hnew.
  assert (Hlen : (i < length (workers s))%nat) by (eapply lookup_lt_Some; eauto).
  assert (Hother : forall j pcj id,
             i <> j -> workers s !! j = Some pcj -> held pcj = Some id ->
             held pc <> Some id).
  { intros j pcj id Hij Hj Hh Hc. apply Hij. eapply HU; eauto. }
  split.
  - intros id Hin. rewrite Hst; [apply HQ; auto|].
    intros Hc. destruct (HW i pc id Hi Hc) as [_ Hnq]. auto.
  - exact Hnd.
  - intros j pcj id Hj Hh. rewrite Hws in Hj.
    destruct (decide (i = j)) as [<-|Hij].
    + rewrite list_lookup_insert_eq in Hj by exact Hlen. injection Hj as <-.
      destruct (Hnew id Hh) as (? & ? & _). auto.
    + rewrite list_lookup_insert_ne in Hj by exact Hij.
      destruct (HW j pcj id Hj Hh) as [Hs Hnq]. split.
      * rewrite Hst; [exact Hs|]. eapply Hother; eauto.
      * intros Hc. apply Hnq. auto.
  - intros j1 j2 pc1 pc2 id H1 H2 Hh1 Hh2. rewrite Hws in H1, H2.
    destruct (decide (i = j1)) as [<-|Hn1]; destruct (decide (i = j2)) as [<-|Hn2];
      try reflexivity.
    + rewrite list_lookup_insert_eq in H1 by exact Hlen. injection H1 as <-.
      rewrite list_lookup_insert_ne in H2 by exact Hn2.
      destruct (Hnew id Hh1) as (_ & _ & [Hold|Hq]).
      * eapply HU; eauto.
      * destruct (HW j2 pc2 id H2 Hh2) as [_ Hnq]. contradiction.
    + rewrite list_lookup_insert_eq in H2 by exact Hlen. injection H2 as <-.
      rewrite list_lookup_insert_ne in H1 by exact Hn1.
      destruct (Hnew id Hh2) as (_ & _ & [Hold|Hq]).
      * eapply HU; eauto.
      * destruct (HW j1 pc1 id H1 Hh1) as [_ Hnq]. contradiction.
    + rewrite list_lookup_insert_ne in H1 by exact Hn1.
      rewrite list_lookup_insert_ne in H2 by exact Hn2.
      eapply HU; eauto.
Qed.

(** A worker that writes a status into the job it holds and goes back to
    the queue. *)
Lemma inv_worker_finish (s s' : State) (i : nat) (pc : WorkerPc) (id : string)
    (st : ClipStatus) u e now :
  inv s ->
  workers s !! i = Some pc ->
  held pc = Some id ->
  workers s' = <[i := AtQueueGet]> (workers s) ->
  processing_queue s' = processing_queue s ->
  (forall id', status_of s' id' = status_of (update_job_status s id st u e now) id') ->
  inv s'.
Proof.
  intros Hinv Hi Hh Hws Hq Hst.
  apply (inv_worker_move s s' i pc AtQueueGet Hinv Hi Hws).
  - intros id'. now rewrite Hq.
  - rewrite Hq. apply Hinv.
  - intros id' Hne. rewrite Hst, status_of_update_job_status.
    case_decide; [subst; congruence|reflexivity].
  - intros id' Hc. discriminate.
Qed.

Lemma worker_step_inv (s s' : State) (i : nat) (o : ProcOutcome) (now : Z) :
  inv s ->
  worker_step s i o now = Some s' ->
  inv s' /\ forall id, status_step (status_of s id) (status_of s' id).
Proof.
  intros Hinv Hstep. unfold worker_step in Hstep.
  destruct (workers s !! i) as [pc|] eqn:Hi; [|discriminate].
  destruct pc as [|id|id|id|id success result].
  - (* processing_queue.get() *)
    destruct (processing_queue s) as [|id q] eqn:Hq; [discriminate|].
    injection Hstep as <-. split; [|intros; apply status_step_refl].
    pose proof (inv_nodup s Hinv) as Hnd. rewrite Hq in Hnd.
    apply NoDup_cons in Hnd. destruct Hnd as [Hnotin Hnd].
    apply (inv_worker_move s _ i AtQueueGet (AtGetJob id) Hinv Hi); cbn.
    + reflexivity.
    + intros id' Hin. rewrite Hq. apply elem_of_cons. now right.
    + exact Hnd.
    + reflexivity.
    + intros id' Heq. injection Heq as <-. split; [|split].
      * apply (inv_queue s Hinv). rewrite Hq. apply elem_of_cons. now left.
      * exact Hnotin.
      * right. rewrite Hq. apply elem_of_cons. now left.
  - (* get_job *)
    destruct (inv_worker s Hinv i _ id Hi eq_refl) as [Hs Hnq]. cbn in Hs.
    destruct (get_job s id) eqn:Hg; injection Hstep as <-;
      (split; [|intros; apply status_step_refl]).
    + apply (inv_worker_move s _ i (AtGetJob id) (AtMarkProcessing id) Hinv Hi);
        cbn; auto.
      * apply Hinv.
      * intros id' Heq. injection Heq as <-. auto.
    + apply (inv_worker_move s _ i (AtGetJob id) AtQueueGet Hinv Hi); cbn; auto.
      * apply Hinv.
      * discriminate.
  - (* update_job_status(clip_id, PROCESSING) *)
    destruct (inv_worker s Hinv i _ id Hi eq_refl) as [Hs Hnq]. cbn in Hs.
    injection Hstep as <-. split.
    + apply (inv_worker_move s _ i (AtMarkProcessing id) (AtProcessClip id) Hinv Hi);
        cbn.
      * now rewrite update_job_status_workers.
      * intros id'. now rewrite update_job_status_queue.
      * rewrite update_job_status_queue. apply Hinv.
      * intros id' Hne. unfold status_of at 1. cbn.
        fold (status_of (update_job_status s id PROCESSING None None now) id').
        rewrite status_of_update_job_status.
        case_decide; [subst; congruence|reflexivity].
      * intros id' Heq. injection Heq as <-. split; [|split].
        -- unfold status_of at 1. cbn.
           fold (status_of (update_job_status s id PROCESSING None None now) id).
           rewrite status_of_update_job_status, Hs. now case_decide.
        -- now rewrite update_job_status_queue.
        -- now left.
    + intros id'. unfold status_of at 2. cbn.
      fold (status_of (update_job_status s id PROCESSING None None now) id').
      rewrite status_of_update_job_status. case_decide.
      * subst. rewrite Hs. cbn. now right.
      * apply status_step_refl.
  - (* process_clip(job) *)
    destruct (inv_worker s Hinv i _ id Hi eq_refl) as [Hs Hnq]. cbn in Hs.
    destruct o as [success result|msg]; injection Hstep as <-.
    + split; [|intros; apply status_step_refl].
      apply (inv_worker_move s _ i (AtProcessClip id) (AtFinish id success result)
               Hinv Hi); cbn; auto.
      * apply Hinv.
      * intros id' Heq. injection Heq as <-. auto.
    + split.
      * eapply (inv_worker_finish s _ i (AtProcessClip id) id FAILED); eauto; cbn;
          [now rewrite update_job_status_workers
          |now rewrite update_job_status_queue].
      * intros id'. unfold status_of at 2. cbn.
        fold (status_of (update_job_status s id FAILED None
                           (Some ("Worker error: " +:+ msg)) now) id').
        rewrite status_of_update_job_status. case_decide.
        -- subst. rewrite Hs. cbn. now right.
        -- apply status_step_refl.
  - (* update_job_status(clip_id, DONE | FAILED) *)
    destruct (inv_worker s Hinv i _ id Hi eq_refl) as [Hs Hnq]. cbn in Hs.
    destruct success; injection Hstep as <-.
    + split.
      * eapply (inv_worker_finish s _ i (AtFinish id true result) id DONE);
          eauto; cbn;
          [now rewrite update_job_status_workers
          |now rewrite update_job_status_queue].
      * intros id'. unfold status_of at 2. cbn.
        fold (status_of (update_job_status s id DONE (Some result) None now) id').
        rewrite status_of_update_job_status. case_decide.
        -- subst. rewrite Hs. cbn. now right.
        -- apply status_step_refl.
    + split.
      * eapply (inv_worker_finish s _ i (AtFinish id false result) id FAILED);
          eauto; cbn;
          [now rewrite update_job_status_workers
          |now rewrite update_job_status_queue].
      * intros id'. unfold status_of at 2. cbn.
        fold (status_of (update_job_status s id FAILED None (Some result) now) id').
        rewrite status_of_update_job_status. case_decide.
        -- subst. rewrite Hs. cbn. now right.
        -- apply status_step_refl.
Qed.

(** [submit_job] raises before it touches the coordinator, or runs the
    rest of its body on the window around the timestamp. *)
Lemma submit_job_cases (s : State) (id : string) (request : ClipRequest) (now : Z) :
  (exists msg, submit_job s id request now = Raise (OverflowError msg)
               /\ ~ (is_datetime (timestamp request - seconds 15)
                     /\ is_datetime (timestamp request + seconds 5)))
  \/ (submit_job s id request now
      = Ok (enqueue s id request (timestamp request - seconds 15)
                    (timestamp request + seconds 5) now)
      /\ is_datetime (timestamp request - seconds 15)
      /\ is_datetime (timestamp request + seconds 5)).
Proof.
  unfold submit_job, datetime_add.
  change (timestamp request + - seconds 15) with (timestamp request - seconds 15).
  destruct (is_datetimeb (timestamp request - seconds 15)) eqn:E1;
    cbn [mbind result_bind rbind].
  - destruct (is_datetimeb (timestamp request + seconds 5)) eqn:E2;
      cbn [mbind result_bind rbind].
    + right. split; [reflexivity|]. split; now apply is_datetimeb_spec.
    + left. eexists. split; [reflexivity|]. intros [_ H].
      apply is_datetimeb_spec in H. congruence.
  - left. eexists. split; [reflexivity|]. intros [H _].
    apply is_datetimeb_spec in H. congruence.
Qed.

Lemma step_submit (s : State) (id : string) (request : ClipRequest) (now : Z) :
  jobs s !! id = None ->
  (default s (step s (Submit id request now)) = s
   /\ ~ (is_datetime (timestamp request - seconds 15)
         /\ is_datetime (timestamp request + seconds 5)))
  \/ (default s (step s (Submit id request now))
      = enqueue s id request (timestamp request - seconds 15)
                (timestamp request + seconds 5) now
      /\ is_datetime (timestamp request - seconds 15)
      /\ is_datetime (timestamp request + seconds 5)).
Proof.
  intros Hfresh. cbn [step]. rewrite Hfresh.
  destruct (submit_job_cases s id request now) as [(msg & -> & Hn)|(-> & H)].
  - left. split; [reflexivity|exact Hn].
  - right. split; [reflexivity|exact H].
Qed.

Lemma enqueue_shape (s : State) (id : string) (request : ClipRequest)
    (ws we now : Z) :
  exists job n,
    status job = PENDING
    /\ jobs (enqueue s id request ws we now) = <[id := job]> (jobs s)
    /\ processing_queue (enqueue s id request ws we now) = processing_queue s ++ [id]
    /\ workers (enqueue s id request ws we now)
       = workers s ++ replicate n AtQueueGet.
Proof.
  unfold enqueue. cbn. destruct (workers_started s) eqn:E; cbn.
  - eexists _, 0%nat.
    split; [|split; [reflexivity|split; [reflexivity|cbn; now rewrite app_nil_r]]].
    reflexivity.
  - unfold start_workers. cbn. rewrite E. cbn. eexists _, _.
    split; [|split; [reflexivity|split; reflexivity]].
    reflexivity.
Qed.

Lemma enqueue_inv (s : State) (id : string) (request : ClipRequest)
    (ws we now : Z) :
  inv s ->
  jobs s !! id = None ->
  inv (enqueue s id request ws we now)
  /\ forall id', status_step (status_of s id')
                             (status_of (enqueue s id request ws we now) id').
Proof.
  intros [HQ HN HW HU] Hfresh.
  destruct (enqueue_shape s id request ws we now) as (job & n & Hst & Hj & Hq & Hw).
  assert (Hnew : status_of (enqueue s id request ws we now) id = Some PENDING).
  { unfold status_of. rewrite Hj, lookup_insert_eq. cbn. now rewrite Hst. }
  assert (Hold : forall id', id' <> id ->
             status_of (enqueue s id request ws we now) id' = status_of s id').
  { intros id' Hne. unfold status_of. rewrite Hj, lookup_insert_ne; auto. }
  assert (Hnone : status_of s id = None) by (unfold status_of; now rewrite Hfresh).
  assert (Hlook : forall (j : nat) pc idh,
             workers (enqueue s id request ws we now) !! j = Some pc ->
             held pc = Some idh -> workers s !! j = Some pc).
  { intros j pc idh Hl Hh. rewrite Hw in Hl. apply lookup_app_Some in Hl.
    destruct Hl as [Hl|[_ Hl]]; [exact Hl|].
    apply lookup_replicate in Hl. destruct Hl as [-> _]. discriminate. }
  split; [split|].
  - intros id' Hin. rewrite Hq in Hin. apply elem_of_app in Hin.
    destruct Hin as [Hin|Hin].
    + rewrite Hold; [now apply HQ|]. intros ->. specialize (HQ id Hin). congruence.
    + apply list_elem_of_singleton in Hin. now subst.
  - rewrite Hq. apply NoDup_app. split; [exact HN|]. split; [|apply NoDup_singleton].
    intros x Hx Hc. apply list_elem_of_singleton in Hc. subst.
    specialize (HQ id Hx). congruence.
  - intros j pc idh Hl Hh. pose proof (Hlook j pc idh Hl Hh) as Hl'.
    destruct (HW j pc idh Hl' Hh) as [Hs Hnq].
    assert (idh <> id) as Hne.
    { intros ->. rewrite Hnone in Hs. destruct pc; discriminate. }
    split; [now rewrite Hold|].
    rewrite Hq. apply not_elem_of_app. split; [exact Hnq|].
    intros Hc. apply list_elem_of_singleton in Hc. contradiction.
  - intros j1 j2 pc1 pc2 idh H1 H2 Hh1 Hh2. eapply HU; eauto.
  - intros id'. destruct (decide (id' = id)) as [->|Hne].
    + rewrite Hnone, Hnew. reflexivity.
    + rewrite Hold by exact Hne. apply status_step_refl.
Qed.

(** One event of an execution without direct [update_job_status] calls
    keeps the invariant and moves every job's status by at most one
    transition of the state machine. *)
Lemma step_inv (s : State) (ev : Event) :
  inv s ->
  is_update_call ev = false ->
  inv (default s (step s ev))
  /\ forall id, status_step (status_of s id) (status_of (default s (step s ev)) id).
Proof.
  intros Hinv Hev. destruct ev as [id request now|i o now|]; [| |discriminate].
  - destruct (jobs s !! id) eqn:E.
    + cbn. rewrite E. cbn. split; [exact Hinv|intros; apply status_step_refl].
    + destruct (step_submit s id request now E) as [[-> _]|[-> _]].
      * split; [exact Hinv|intros; apply status_step_refl].
      * now apply enqueue_inv.
  - cbn. destruct (worker_step s i o now) as [s'|] eqn:E; cbn.
    + eapply worker_step_inv; eauto.
    + split; [exact Hinv|intros; apply status_step_refl].
Qed.

Lemma history_cons (s : State) (ev : Event) (evs : list Event) (id : string) :
  history s (ev :: evs) id
  = status_of s id :: history (default s (step s ev)) evs id.
Proof. reflexivity. Qed.

Lemma history_head (s : State) (evs : list Event) (id : string) :
  exists h, history s evs id = status_of s id :: h.
Proof. destruct evs; cbn; eauto. Qed.

Lemma monotone_cons (a b : option ClipStatus) (h : list (option ClipStatus)) :
  status_step a b -> monotone (b :: h) -> monotone (a :: b :: h).
Proof.
  intros Hab Hm n x y Hx Hy. destruct n as [|n]; cbn in Hx, Hy.
  - injection Hx as <-. injection Hy as <-. exact Hab.
  - eapply (Hm n); eauto.
Qed.

Lemma history_monotone (s : State) (evs : list Event) (id : string) :
  inv s ->
  Forall (fun ev => is_update_call ev = false) evs ->
  monotone (history s evs id).
Proof.
  intros Hinv Hevs. revert s Hinv.
  induction Hevs as [|ev evs Hev Hevs IH]; intros s Hinv.
  - intros n a b Ha Hb. destruct n; discriminate.
  - rewrite history_cons.
    destruct (step_inv s ev Hinv Hev) as [Hinv' Hstep].
    specialize (IH _ Hinv').
    destruct (history_head (default s (step s ev)) evs id) as [h Hh].
    rewrite Hh in IH |- *. apply monotone_cons; auto.
Qed.

(** A monotone history never leaves DONE or FAILED. *)
Lemma monotone_stays_terminal (h : list (option ClipStatus)) :
  monotone h -> stays_terminal h.
Proof.
  intros Hm n m st Hnm. induction Hnm as [|m Hnm IH]; intros Hlen Hn Hterm.
  - exact Hn.
  - specialize (IH ltac:(lia) Hn Hterm).
    destruct (lookup_lt_is_Some_2 h (S m) Hlen) as [b Hb].
    specialize (Hm m _ _ IH Hb). destruct b as [y|]; cbn in Hm; [|destruct Hm].
    destruct Hm as [->|Ht]; [exact Hb|].
    destruct st; cbn in Hterm, Ht; discriminate.
Qed.

(** C4, as the code has it.  Over every execution made of submissions
    (each with an identifier not yet in the table) and worker moves, in any
    interleaving, the statuses a job goes through follow
    PENDING -> PROCESSING -> DONE | FAILED one transition at a time, and a
    job that has reached DONE or FAILED keeps that status. *)
Theorem worker_executions_monotone (evs : list Event) (clip_id : string) :
  Forall (fun ev => is_update_call ev = false) evs ->
  monotone (history init evs clip_id)
  /\ stays_terminal (history init evs clip_id).
Proof.
  intros Hevs.
  assert (monotone (history init evs clip_id)) as Hm
    by (apply history_monotone; [exact inv_init|exact Hevs]).
  split; [exact Hm|]. now apply monotone_stays_terminal.
Qed.

Lemma worker_executions_monotone_witness :
  monotone (history init worker_run "7d0c3b2e")
  /\ stays_terminal (history init worker_run "7d0c3b2e").
Proof.
  apply (worker_executions_monotone worker_run "7d0c3b2e").
  repeat constructor.
Defined.

(** * Further properties *)

(** ** buffer_index.py: the direction of snapping *)









(** ** buffer_index.py: snapping on a well-formed segment *)






Lemma sparse_segment_ok : segment_ok sparse_segment.
Proof.
  unfold segment_ok, sparse_segment; cbn. repeat split.
  - repeat constructor; vm_compute; discriminate.
  - intros k Hk. injection Hk as <-. vm_compute. discriminate.
Qed.



(** ** Sorting by key is a stable rearrangement *)

Section StableSort.
Context {A : Type} (key : A -> Z).

Lemma insert_by_key_Permutation (x : A) (l : list A) :
  Permutation (insert_by_key key x l) (x :: l).
Proof.
  induction l as [|y l IH]; simpl; [reflexivity|].
  destruct (key x <=? key y); [reflexivity|].
  rewrite IH. apply perm_swap.
Qed.

Lemma py_sorted_Permutation (l : list A) : Permutation (py_sorted key l) l.
Proof.
  induction l as [|x l IH]; simpl; [reflexivity|].
  rewrite insert_by_key_Permutation. now constructor.
Qed.

Lemma insert_by_key_filter (t : Z) (x : A) (l : list A) :
  List.filter (fun y => key y =? t) (insert_by_key key x l)
  = List.filter (fun y => key y =? t) (x :: l).
Proof.
  induction l as [|y l IH]; simpl; [reflexivity|].
  destruct (Z.leb_spec (key x) (key y)) as [Hle|Hgt]; [reflexivity|].
  simpl. rewrite IH. simpl.
  destruct (Z.eqb_spec (key x) t) as [Hx|Hx]; [|reflexivity].
  destruct (Z.eqb_spec (key y) t) as [Hy|Hy]; [lia|reflexivity].
Qed.

(** Elements with the same key come out in the order they went in. *)
Lemma py_sorted_stable (t : Z) (l : list A) :
  List.filter (fun y => key y =? t) (py_sorted key l)
  = List.filter (fun y => key y =? t) l.
Proof.
  induction l as [|x l IH]; simpl; [reflexivity|].
  rewrite insert_by_key_filter. simpl. now rewrite IH.
Qed.

Lemma py_sorted_of_sorted (l : list A) : sorted_by key l -> py_sorted key l = l.
Proof.
  unfold sorted_by. induction 1 as [|x l Hl IH Hx]; simpl; [reflexivity|].
  rewrite IH. destruct l as [|y l]; [reflexivity|]. simpl.
  apply List.Forall_inv in Hx.
  destruct (Z.leb_spec (key x) (key y)); [reflexivity|lia].
Qed.

Lemma sorted_by_filter (f : A -> bool) (l : list A) :
  sorted_by key l -> sorted_by key (List.filter f l).
Proof.
  unfold sorted_by. induction 1 as [|x l Hl IH Hx]; simpl; [constructor|].
  destruct (f x); [|exact IH]. constructor; [exact IH|].
  rewrite List.Forall_forall in *. intros y Hy. apply filter_In in Hy.
  apply Hx. tauto.
Qed.

End StableSort.

(** ** buffer_index.py: what [find_segments] returns *)

(** X6.  For a known camera, [find_segments] returns the stored segments
    that overlap the window, each as often as it is stored; segments with
    the same start keep their stored order; and when the stored list is
    already in ascending order of start the result is the overlapping
    segments in stored order. *)
Theorem find_segments_stable (buffer_data : gmap string (list BufferSegment))
    (camera_id : string) (segments : list BufferSegment) (ws we : Z) :
  buffer_data !! camera_id = Some segments ->
  let qualifying := List.filter (fun S => overlaps S ws we) segments in
  Permutation (find_segments buffer_data camera_id ws we) qualifying
  /\ (forall t,
        List.filter (fun S => start S =? t) (find_segments buffer_data camera_id ws we)
        = List.filter (fun S => start S =? t) qualifying)
  /\ (sorted_by start segments ->
      find_segments buffer_data camera_id ws we = qualifying).
Proof.
  intros Hcam qualifying. unfold find_segments. rewrite Hcam. fold qualifying.
  split; [apply py_sorted_Permutation|]. split; [intros t; apply py_sorted_stable|].
  intros Hs. apply py_sorted_of_sorted. now apply sorted_by_filter.
Qed.

Lemma find_segments_stable_witness :
  exists segments,
    default_buffer !! "camera1" = Some segments
    /\ Permutation
         (find_segments default_buffer "camera1"
            (base_time + seconds 25) (base_time + seconds 35))
         (List.filter
            (fun S => overlaps S (base_time + seconds 25) (base_time + seconds 35))
            segments)
    /\ length (find_segments default_buffer "camera1"
                 (base_time + seconds 25) (base_time + seconds 35)) = 2%nat.
Proof.
  eexists. split; [reflexivity|]. split; [|reflexivity].
  exact (proj1 (find_segments_stable default_buffer "camera1" _
                  (base_time + seconds 25) (base_time + seconds 35) eq_refl)).
Defined.

(** X7.  Widening the window never loses a segment: whatever
    [find_segments] returns for a window it also returns for every window
    that contains it. *)
Theorem find_segments_widening (buffer_data : gmap string (list BufferSegment))
    (camera_id : string) (ws we ws' we' : Z) (S : BufferSegment) :
  ws' <= ws -> we <= we' ->
  In S (find_segments buffer_data camera_id ws we) ->
  In S (find_segments buffer_data camera_id ws' we').
Proof.
  intros Hs He. unfold find_segments.
  destruct (buffer_data !! camera_id) as [segments|]; [|auto].
  rewrite !py_sorted_In, !filter_In, !overlaps_iff. unfold overlap.
  intros (Hin & H1 & H2). split; [exact Hin|]. lia.
Qed.

Lemma find_segments_widening_witness :
  In {| file := "mock_cameras/test.mp4"; start := base_time;
        end_ := base_time + seconds 30;
        keyframes := map seconds [0; 5; 10; 15; 20; 25; 30];
        start_ok := eq_refl; end_ok := eq_refl |}
     (find_segments default_buffer "camera1" (base_time - seconds 60)
                    (base_time + seconds 90)).
Proof.
  apply (find_segments_widening default_buffer "camera1"
           (base_time + seconds 10) (base_time + seconds 20)
           (base_time - seconds 60) (base_time + seconds 90)).
  - vm_compute. discriminate.
  - vm_compute. discriminate.
  - vm_compute. left. reflexivity.
Defined.

(** ** mediamtx_client.py: the candidates of a scan *)

Lemma estimated_duration_floor (os : MediaMTXClient.Os) (fp : string) :
  seconds 5 <= MediaMTXClient.estimated_duration os fp.
Proof.
  unfold MediaMTXClient.estimated_duration, py_timedelta, seconds, usec_per_sec.
  destruct (MediaMTXClient.stat_size os fp) as [size|e]; [|lia].
  destruct (0 <? size); [|lia].
  destruct (_ && _); lia.
Qed.

(** X8.  Every candidate that [find_clips] returns comes from one of the
    enumerated files, carries that file's absolute path, base name and
    size, and is a well-formed interval: its end is its start plus its
    duration, and the duration is at least 5 seconds. *)
Theorem find_clips_candidates_well_formed (os : MediaMTXClient.Os)
    (clips_base_dir : string) (filename_timestamp : string -> option Z)
    (camera_id : string) (ws we : Z) (clips : list MediaMTXClient.ClipInfo) :
  MediaMTXClient.find_clips os clips_base_dir filename_timestamp camera_id ws we
    = Ok clips ->
  forall c, In c clips ->
    MediaMTXClient.start_time c < MediaMTXClient.end_time c
    /\ MediaMTXClient.end_time c
       = MediaMTXClient.start_time c + MediaMTXClient.duration_seconds c
    /\ seconds 5 <= MediaMTXClient.duration_seconds c
    /\ exists fp,
         In fp (MediaMTXClient.enumerate os
                  (MediaMTXClient.path_join clips_base_dir camera_id))
         /\ MediaMTXClient.file_path c = MediaMTXClient.abspath os fp
         /\ MediaMTXClient.filename c = MediaMTXClient.basename os fp
         /\ MediaMTXClient.getsize os fp = Ok (MediaMTXClient.file_size c).
Proof.
  intros Hfind c Hc. unfold MediaMTXClient.find_clips in Hfind.
  destruct (MediaMTXClient.path_exists os _); cbn [negb] in Hfind;
    [|injection Hfind as <-; destruct Hc].
  destruct (MediaMTXClient.scan_files os filename_timestamp _ ws we [])
    as [found|err] eqn:Hscan; [|discriminate].
  cbn [mbind result_bind rbind] in Hfind. injection Hfind as <-.
  apply py_sorted_In in Hc.
  destruct (scan_files_ok os filename_timestamp _ _ _ _ _ Hscan) as [_ Hin].
  apply Hin in Hc. destruct Hc as [[]|(fp & Hfp & Hex)].
  pose proof (estimated_duration_floor os fp) as Hfloor.
  apply extract_clip_info_some in Hex.
  destruct Hex as (_ & Hend & Hpath & Hname & Hdur & Hsize & _).
  rewrite Hend, Hdur. unfold seconds, usec_per_sec in *.
  split; [lia|]. split; [reflexivity|]. split; [exact Hfloor|].
  exists fp. auto.
Qed.

Lemma find_clips_candidates_well_formed_witness :
  MediaMTXClient.start_time candidate_b < MediaMTXClient.end_time candidate_b
  /\ MediaMTXClient.end_time candidate_b
     = MediaMTXClient.start_time candidate_b
       + MediaMTXClient.duration_seconds candidate_b
  /\ seconds 5 <= MediaMTXClient.duration_seconds candidate_b
  /\ exists fp,
       In fp (MediaMTXClient.enumerate demo_os
                (MediaMTXClient.path_join "mediamtx_clips" "camera1"))
       /\ MediaMTXClient.file_path candidate_b = MediaMTXClient.abspath demo_os fp
       /\ MediaMTXClient.filename candidate_b = MediaMTXClient.basename demo_os fp
       /\ MediaMTXClient.getsize demo_os fp
          = Ok (MediaMTXClient.file_size candidate_b).
Proof.
  apply (find_clips_candidates_well_formed demo_os "mediamtx_clips"
           demo_filename_timestamp "camera1" (t0 + seconds 15) (t0 + seconds 35)
           [candidate_a; candidate_b]).
  - reflexivity.
  - right. now left.
Defined.

(** ** mediamtx_client.py: the camera list *)

Import CameraListing ListingFixtures.

Lemma string_leb_trans (a b c : string) :
  String.leb a b = true -> String.leb b c = true -> String.leb a c = true.
Proof.
  unfold String.leb. intros Hab Hbc.
  destruct (String.compare a b) eqn:Eab; [|clear Hab|discriminate].
  - apply OrderedTypeEx.String_as_OT.cmp_eq in Eab. now subst.
  - destruct (String.compare b c) eqn:Ebc; [| |discriminate].
    + apply OrderedTypeEx.String_as_OT.cmp_eq in Ebc. subst. now rewrite Eab.
    + apply OrderedTypeEx.String_as_OT.cmp_lt in Eab, Ebc.
      pose proof (OrderedTypeEx.String_as_OT.lt_trans _ _ _ Eab Ebc) as Hac.
      apply OrderedTypeEx.String_as_OT.cmp_lt in Hac.
      unfold OrderedTypeEx.String_as_OT.cmp in Hac. now rewrite Hac.
Qed.

Lemma insert_str_In (x y : string) (l : list string) :
  In y (insert_str x l) <-> y = x \/ In y l.
Proof.
  induction l as [|z l IH]; simpl; [intuition|].
  destruct (String.leb x z); simpl; [intuition|]. rewrite IH. intuition.
Qed.

Lemma py_sorted_str_In (y : string) (l : list string) :
  In y (py_sorted_str l) <-> In y l.
Proof.
  induction l as [|x l IH]; simpl; [tauto|]. rewrite insert_str_In, IH. intuition.
Qed.

Lemma insert_str_sorted (x : string) (l : list string) :
  StronglySorted (fun a b => String.leb a b = true) l ->
  StronglySorted (fun a b => String.leb a b = true) (insert_str x l).
Proof.
  induction 1 as [|z l Hl IH Hz]; simpl.
  - repeat constructor.
  - destruct (String.leb x z) eqn:E.
    + constructor; [now constructor|]. constructor; [exact E|].
      rewrite List.Forall_forall in *. intros y Hy.
      eapply string_leb_trans; [exact E|auto].
    + constructor; [exact IH|].
      rewrite List.Forall_forall in *. intros y Hy. apply insert_str_In in Hy.
      destruct Hy as [->|Hy]; [|auto].
      destruct (String.leb_total x z) as [H|H]; [congruence|exact H].
Qed.

Lemma py_sorted_str_sorted (l : list string) :
  StronglySorted (fun a b => String.leb a b = true) (py_sorted_str l).
Proof.
  induction l as [|x l IH]; simpl; [constructor|]. now apply insert_str_sorted.
Qed.

Lemma insert_str_length (x : string) (l : list string) :
  length (insert_str x l) = S (length l).
Proof.
  induction l as [|z l IH]; simpl; [reflexivity|].
  destruct (String.leb x z); simpl; [reflexivity|]. now rewrite IH.
Qed.

(** X9.  [get_camera_list] returns, in ascending order, exactly the
    entries of the base directory that are directories; when the base
    directory does not exist or cannot be listed it returns the empty list
    and does not raise. *)
Theorem get_camera_list_sorted_subdirectories (os : DirOs) (clips_base_dir : string) :
  StronglySorted (fun a b => String.leb a b = true)
                 (get_camera_list os clips_base_dir)
  /\ (forall items,
        dir_exists os clips_base_dir = true ->
        listdir os clips_base_dir = Ok items ->
        forall name,
          In name (get_camera_list os clips_base_dir) <->
          In name items
          /\ isdir os (MediaMTXClient.path_join clips_base_dir name) = true)
  /\ (dir_exists os clips_base_dir = false -> get_camera_list os clips_base_dir = [])
  /\ (forall e, listdir os clips_base_dir = Raise e ->
                get_camera_list os clips_base_dir = []).
Proof.
  unfold get_camera_list. split; [|split; [|split]].
  - destruct (dir_exists os clips_base_dir); cbn [negb]; [|constructor].
    apply py_sorted_str_sorted.
  - intros items Hex Hls name. rewrite Hex, Hls. cbn [negb].
    rewrite py_sorted_str_In. unfold subdirectories. now rewrite filter_In.
  - intros ->. reflexivity.
  - intros e ->. now destruct (dir_exists os clips_base_dir).
Qed.

Lemma get_camera_list_witness :
  get_camera_list demo_dirs "mediamtx_clips" = ["camera1"; "camera2"]
  /\ (In "camera2" (get_camera_list demo_dirs "mediamtx_clips") <->
      In "camera2" ["camera2"; "README.txt"; "camera1"]
      /\ isdir demo_dirs (MediaMTXClient.path_join "mediamtx_clips" "camera2") = true).
Proof.
  split; [reflexivity|].
  pose proof (get_camera_list_sorted_subdirectories demo_dirs "mediamtx_clips")
    as (_ & Hiff & _).
  apply (Hiff ["camera2"; "README.txt"; "camera1"]); reflexivity.
Defined.

(** ** clip_processor.py: what the assembly step does to the world *)

Section Assembly.
Import MediaMTXClient ClipProcessor.
Variable os : Os.
Variable subprocess_run : FfmpegCmd -> RunOutcome.
Variable can_write : string -> bool.
Variable can_remove : string -> bool.

Local Abbreviation build_cmd := (build_cmd os can_write).
Local Abbreviation remove_manifest := (remove_manifest os can_remove).
Local Abbreviation process_mediamtx_clips :=
  (process_mediamtx_clips os subprocess_run can_write can_remove).

Lemma write_file_cases (w w' : World) (path : string) (c : FileContent)
    (r : result unit) :
  write_file can_write w path c = (w', r) ->
  errors w' = errors w /\ invoked w' = invoked w
  /\ match r with
     | Ok _ => files w' = <[path := c]> (files w)
     | Raise _ => w' = w
     end.
Proof.
  unfold write_file. destruct (can_write path); intros [= <- <-]; cbn; auto.
Qed.

Lemma build_cmd_frame (w w' : World) (clips : list ClipInfo) (output_path : string)
    (ws we : Z) (r : result FfmpegCmd) :
  build_cmd w clips output_path ws we = (w', r) ->
  errors w' = errors w /\ invoked w' = invoked w
  /\ forall path a, files w' !! path = Some (AnnotationDoc a) ->
                    files w !! path = Some (AnnotationDoc a).
Proof.
  unfold ClipProcessor.build_cmd.
  assert (forall cs,
    match concat_name os cs with
    | Raise e => (w, Raise e)
    | Ok concat_file =>
        match
          write_file can_write w (abspath os concat_file)
            (ConcatList
               (map (fun clip => "file '" +:+ abspath os (file_path clip) +:+ "'") cs))
        with
        | (w0, Raise e) => (w0, Raise e)
        | (w0, Ok _) =>
            (w0, Ok (ConcatCmd (abspath os concat_file) (abspath os output_path)))
        end
    end = (w', r) ->
    errors w' = errors w /\ invoked w' = invoked w
    /\ forall path a, files w' !! path = Some (AnnotationDoc a) ->
                      files w !! path = Some (AnnotationDoc a)) as Hmulti.
  { intros cs. destruct (concat_name os cs) as [name|e]; [|intros [= <- <-]; auto].
    destruct (write_file can_write w (abspath os name) _) as [w0 [u|e]] eqn:Hw;
      apply write_file_cases in Hw; destruct Hw as (He & Hi & Hf);
      intros [= <- <-]; (split; [exact He|split; [exact Hi|]]).
    - intros path a. rewrite Hf.
      destruct (decide (abspath os name = path)) as [<-|Hne].
      + rewrite lookup_insert_eq. discriminate.
      + now rewrite lookup_insert_ne.
    - now subst. }
  destruct clips as [|c [|c2 rest]]; [apply Hmulti| |apply Hmulti].
  intros [= <- <-]. auto.
Qed.

Lemma remove_manifest_frame (w w' : World) (clips : list ClipInfo) (r : result unit) :
  remove_manifest w clips = (w', r) ->
  errors w' = errors w /\ invoked w' = invoked w
  /\ forall path a, files w' !! path = Some (AnnotationDoc a) ->
                    files w !! path = Some (AnnotationDoc a).
Proof.
  unfold ClipProcessor.remove_manifest.
  destruct (1 <? Z.of_nat (length clips)); [|intros [= <- <-]; auto].
  destruct (concat_name os clips) as [name|e]; [|intros [= <- <-]; auto].
  destruct (files w !! abspath os name); [|intros [= <- <-]; auto].
  destruct (can_remove (abspath os name)); intros [= <- <-]; cbn; auto.
  split; [reflexivity|]. split; [reflexivity|].
  intros path a H. apply lookup_delete_Some in H. tauto.
Qed.

(** The five ways [_process_mediamtx_clips] ends. *)
Lemma assembly_cases (w w' : World) (clips : list ClipInfo) (output_path : string)
    (ws we : Z) (ok : bool) :
  process_mediamtx_clips w clips output_path ws we = (w', ok) ->
  (forall path a, files w' !! path = Some (AnnotationDoc a) ->
                  files w !! path = Some (AnnotationDoc a))
  /\ ((ok = true /\ errors w' = errors w
       /\ exists cmd, invoked w' = invoked w ++ [cmd]
                      /\ subprocess_run cmd = Completed 0)
      \/ (ok = false
          /\ (invoked w' = invoked w \/ exists cmd, invoked w' = invoked w ++ [cmd])
          /\ exists error_type,
               errors w' = errors w ++ [error_type]
               /\ In error_type ["ffmpeg_exception"; "ffmpeg_timeout";
                                 "subprocess_failed"; "ffmpeg_failed"])).
Proof.
  unfold ClipProcessor.process_mediamtx_clips.
  destruct (build_cmd w clips output_path ws we) as [w1 [cmd|e]] eqn:Hb;
    apply build_cmd_frame in Hb; destruct Hb as (He1 & Hi1 & Hf1).
  - destruct (subprocess_run cmd) as [rc| |e] eqn:Hrun.
    + destruct (remove_manifest (log_invoked w1 cmd) clips) as [w2 [u|e]] eqn:Hr;
        apply remove_manifest_frame in Hr; destruct Hr as (He2 & Hi2 & Hf2);
        cbn in He2, Hi2.
      * destruct (Z.eqb_spec rc 0) as [->|Hne]; intros [= <- <-].
        -- split; [intros path a H; apply Hf1; apply (Hf2 _ _ H)|].
           left. split; [reflexivity|]. split; [congruence|].
           exists cmd. split; [congruence|exact Hrun].
        -- split; [intros path a H; apply Hf1; apply (Hf2 _ _ H)|].
           right. split; [reflexivity|]. split; [right; exists cmd; cbn; congruence|].
           exists "ffmpeg_failed". split; [cbn; congruence|cbn; auto].
      * intros [= <- <-].
        split; [intros path a H; apply Hf1; apply (Hf2 _ _ H)|].
        right. split; [reflexivity|]. split; [right; exists cmd; cbn; congruence|].
        exists "ffmpeg_exception". split; [cbn; congruence|cbn; auto].
    + intros [= <- <-]. split; [exact Hf1|].
      right. split; [reflexivity|]. split; [right; exists cmd; cbn; congruence|].
      exists "ffmpeg_timeout". split; [cbn; congruence|cbn; auto].
    + intros [= <- <-]. split; [exact Hf1|].
      right. split; [reflexivity|]. split; [right; exists cmd; cbn; congruence|].
      exists "subprocess_failed". split; [cbn; congruence|cbn; auto].
  - intros [= <- <-]. split; [exact Hf1|].
    right. split; [reflexivity|]. split; [left; cbn; congruence|].
    exists "ffmpeg_exception". split; [cbn; congruence|cbn; auto].
Qed.

(** X10.  [_process_mediamtx_clips] hands at most one command to the
    transcoder.  It returns [True] only when that command exited with
    code 0, and then reports no error; whenever it returns [False] it
    reports exactly one error, of type ffmpeg_exception, ffmpeg_timeout,
    subprocess_failed or ffmpeg_failed. *)
Theorem assembly_outcome_and_errors (w : World) (clips : list ClipInfo)
    (output_path : string) (ws we : Z) :
  let w' := fst (process_mediamtx_clips w clips output_path ws we) in
  let ok := snd (process_mediamtx_clips w clips output_path ws we) in
  (invoked w' = invoked w \/ exists cmd, invoked w' = invoked w ++ [cmd])
  /\ (ok = true ->
      errors w' = errors w
      /\ exists cmd, invoked w' = invoked w ++ [cmd]
                     /\ subprocess_run cmd = Completed 0)
  /\ (ok = false ->
      exists error_type,
        errors w' = errors w ++ [error_type]
        /\ In error_type ["ffmpeg_exception"; "ffmpeg_timeout";
                          "subprocess_failed"; "ffmpeg_failed"]).
Proof.
  cbn zeta.
  destruct (process_mediamtx_clips w clips output_path ws we) as [w' ok] eqn:E.
  apply assembly_cases in E. cbn [fst snd].
  destruct E as [_ [(-> & He & cmd & Hi & Hrun)|(-> & Hi & t & He & Ht)]].
  - split; [right; eauto|]. split; [eauto|discriminate].
  - split; [exact Hi|]. split; [discriminate|eauto].
Qed.

End Assembly.

Lemma assembly_outcome_and_errors_witness :
  let r := ClipProcessor.process_mediamtx_clips demo_os
             (always (ClipProcessor.Completed 1)) yes yes empty_world
             [candidate_a; candidate_b] "videos/out.mp4"
             (t0 + seconds 15) (t0 + seconds 35) in
  snd r = false
  /\ exists error_type,
       ClipProcessor.errors (fst r) = ClipProcessor.errors empty_world ++ [error_type]
       /\ In error_type ["ffmpeg_exception"; "ffmpeg_timeout";
                         "subprocess_failed"; "ffmpeg_failed"].
Proof.
  intros r. split; [reflexivity|].
  apply (assembly_outcome_and_errors demo_os (always (ClipProcessor.Completed 1))
           yes yes empty_world [candidate_a; candidate_b] "videos/out.mp4"
           (t0 + seconds 15) (t0 + seconds 35)).
  reflexivity.
Defined.

(** ** clip_processor.py: the provenance record *)

Section Provenance.
Import MediaMTXClient ClipProcessor.
Variable os : Os.
Variable clips_base_dir : string.
Variable filename_timestamp : string -> option Z.
Variable subprocess_run : FfmpegCmd -> RunOutcome.
Variable can_write : string -> bool.
Variable can_remove : string -> bool.

Local Abbreviation find_clips := (find_clips os clips_base_dir filename_timestamp).
Local Abbreviation process_mediamtx_clips :=
  (process_mediamtx_clips os subprocess_run can_write can_remove).
Local Abbreviation generate_annotations := (generate_annotations can_write).
Local Abbreviation process_clip_body :=
  (process_clip_body os clips_base_dir filename_timestamp subprocess_run
                     can_write can_remove).
Local Abbreviation process_clip :=
  (process_clip os clips_base_dir filename_timestamp subprocess_run
                can_write can_remove).

Lemma annotation_paths_differ (c rest e1 e2 : string) :
  e1 <> e2 ->
  path_join annotations_dir ((c +:+ "_" +:+ rest) +:+ e1)
  <> path_join annotations_dir ((c +:+ "_" +:+ rest) +:+ e2).
Proof.
  intros Hne H.
  assert (forall e, starts_with_sep ((c +:+ "_" +:+ rest) +:+ e)
                    = starts_with_sep (c +:+ "_"))
    as Hsep by (intros e; destruct c; reflexivity).
  unfold path_join in H. rewrite !Hsep in H.
  destruct (starts_with_sep (c +:+ "_")).
  - apply (inj (String.app _)) in H. contradiction.
  - change (String.eqb annotations_dir "" || ends_with_sep annotations_dir)
      with false in H. cbv iota in H.
    do 3 apply (inj (String.app _)) in H. contradiction.
Qed.

(** A successful [_generate_annotations] leaves the dictionary under the
    .json and the .yaml path and the summary under the .txt path, and
    touches nothing else. *)
Lemma generate_annotations_ok (w w' : World) (job : ClipResponse)
    (clips : list ClipInfo) (a_start a_end : Z) (timestamp : string) (now : Z)
    (u : unit) :
  generate_annotations w job clips a_start a_end timestamp now = (w', Ok u) ->
  let base := camera_id job +:+ "_" +:+ timestamp +:+ "_" +:+ clip_id job in
  let d :=
    {| a_clip_id := clip_id job; a_camera_id := camera_id job;
       requested_start := Models.start_time job;
       requested_end := Models.end_time job;
       actual_start := a_start; actual_end := a_end;
       a_duration_seconds := Models.end_time job - Models.start_time job;
       source_clips := map source_clip clips; a_created_at := now;
       a_source := "MediaMTX" |} in
  errors w' = errors w /\ invoked w' = invoked w
  /\ files w' !! path_join annotations_dir (base +:+ ".json")
     = Some (AnnotationDoc (JsonDump d))
  /\ files w' !! path_join annotations_dir (base +:+ ".yaml")
     = Some (AnnotationDoc (YamlDump d))
  /\ exists lines,
       files w' !! path_join annotations_dir (base +:+ ".txt")
       = Some (AnnotationDoc (TextSummary lines))
       /\ In (ClipCountLine (length clips)) lines
       /\ forall (i : nat) c, clips !! i = Some c ->
            In (ClipLine (S i) (filename c) (MediaMTXClient.start_time c)
                         (MediaMTXClient.end_time c)) lines.
Proof.
  intros H base d. unfold ClipProcessor.generate_annotations in H.
  cbv zeta in H. fold base in H. fold d in H.
  destruct (write_file can_write w _ (AnnotationDoc (JsonDump d)))
    as [w1 [u1|e]] eqn:H1; [|discriminate].
  destruct (write_file can_write w1 _ (AnnotationDoc (YamlDump d)))
    as [w2 [u2|e]] eqn:H2; [|discriminate].
  apply write_file_cases in H1, H2, H.
  destruct H1 as (E1 & I1 & F1). destruct H2 as (E2 & I2 & F2).
  destruct H as (E3 & I3 & F3).
  split; [congruence|]. split; [congruence|].
  rewrite F3, F2, F1. unfold base.
  split; [|split].
  - rewrite lookup_insert_ne by (apply annotation_paths_differ; discriminate).
    rewrite lookup_insert_ne by (apply annotation_paths_differ; discriminate).
    apply lookup_insert_eq.
  - rewrite lookup_insert_ne by (apply annotation_paths_differ; discriminate).
    apply lookup_insert_eq.
  - eexists. split; [apply lookup_insert_eq|]. split.
    + apply in_or_app. left. cbn. auto 10.
    + intros i c Hc. apply in_or_app. right.
      apply list_elem_of_In. apply list_elem_of_lookup. exists i.
      rewrite list_lookup_imap, Hc. reflexivity.
Qed.

(** X11.  When [process_clip] returns success, discovery had found at
    least one candidate, exactly one transcoder command was run and exited
    with code 0, no error was reported, and the returned URL is
    [/videos/<camera>_<timestamp>_<clip id>.mp4].  The .json and the
    .yaml annotation hold the same dictionary: it names the job, the
    requested window with its length as duration, the candidates in the
    order discovery returned them (without their durations), and an
    actual window that covers every candidate.  The .txt annotation is a
    summary that counts the candidates and has one numbered line for each
    of them, numbered from 1 in that same order. *)
Theorem process_clip_success_provenance (w w' : World) (job : ClipResponse)
    (timestamp url : string) (now : Z) :
  process_clip w job timestamp now = (w', Ok (true, url)) ->
  let base := camera_id job +:+ "_" +:+ timestamp +:+ "_" +:+ clip_id job in
  exists clips cmd d lines,
    find_clips (camera_id job) (Models.start_time job) (Models.end_time job) = Ok clips
    /\ clips <> []
    /\ url = "/videos/" +:+ camera_id job +:+ "_" +:+ timestamp +:+ "_"
                         +:+ clip_id job +:+ ".mp4"
    /\ invoked w' = invoked w ++ [cmd]
    /\ subprocess_run cmd = Completed 0
    /\ errors w' = errors w
    /\ files w' !! path_join annotations_dir (base +:+ ".json")
       = Some (AnnotationDoc (JsonDump d))
    /\ files w' !! path_join annotations_dir (base +:+ ".yaml")
       = Some (AnnotationDoc (YamlDump d))
    /\ files w' !! path_join annotations_dir (base +:+ ".txt")
       = Some (AnnotationDoc (TextSummary lines))
    /\ a_clip_id d = clip_id job /\ a_camera_id d = camera_id job
    /\ requested_start d = Models.start_time job
    /\ requested_end d = Models.end_time job
    /\ a_duration_seconds d = Models.end_time job - Models.start_time job
    /\ source_clips d = map source_clip clips
    /\ (forall c, In c clips ->
          actual_start d <= MediaMTXClient.start_time c
          /\ MediaMTXClient.end_time c <= actual_end d)
    /\ (exists c, In c clips /\ actual_start d = MediaMTXClient.start_time c)
    /\ (exists c, In c clips /\ actual_end d = MediaMTXClient.end_time c)
    /\ In (ClipCountLine (length (source_clips d))) lines
    /\ (forall (i : nat) sc, source_clips d !! i = Some sc ->
          In (ClipLine (S i) (sc_filename sc) (sc_start_time sc) (sc_end_time sc))
             lines).
Proof.
  intros H base. unfold ClipProcessor.process_clip in H.
  destruct (process_clip_body w job timestamp now) as [w0 [r|e]] eqn:Hbody;
    [|discriminate].
  injection H as -> ->. unfold ClipProcessor.process_clip_body in Hbody.
  destruct (find_clips (camera_id job) (Models.start_time job) (Models.end_time job))
    as [clips|e] eqn:Hfind; [|discriminate].
  destruct clips as [|c0 rest]; [discriminate|].
  fold base in Hbody.
  destruct (process_mediamtx_clips w (c0 :: rest) _ _ _) as [w1 success] eqn:Hasm.
  destruct success; cbn [negb] in Hbody; [|discriminate].
  apply (assembly_cases os subprocess_run can_write can_remove) in Hasm.
  destruct Hasm as [_ [(_ & He & cmd & Hi & Hrun)|(Hf & _)]]; [|discriminate].
  destruct (py_min_spec (map MediaMTXClient.start_time (c0 :: rest)))
    as (a_s & Hmin & Hmin_in & Hmin_le); [discriminate|].
  destruct (py_max_spec (map MediaMTXClient.end_time (c0 :: rest)))
    as (a_e & Hmax & Hmax_in & Hmax_ge); [discriminate|].
  rewrite Hmin, Hmax in Hbody.
  destruct (generate_annotations w1 job (c0 :: rest) a_s a_e timestamp now)
    as [w2 [u|e]] eqn:Hgen; [|discriminate].
  injection Hbody as <- <-.
  apply generate_annotations_ok in Hgen. cbn zeta in Hgen. fold base in Hgen.
  destruct Hgen as (He2 & Hi2 & Hjson & Hyaml & lines & Htxt & Hcount & Hlines).
  eexists (c0 :: rest), cmd, _, lines.
  split; [reflexivity|]. split; [discriminate|]. split; [reflexivity|].
  split; [congruence|]. split; [exact Hrun|]. split; [congruence|].
  split; [exact Hjson|]. split; [exact Hyaml|]. split; [exact Htxt|].
  cbn [a_clip_id a_camera_id requested_start requested_end a_duration_seconds
       source_clips actual_start actual_end].
  repeat (split; [reflexivity|]).
  split; [|split; [|split; [|split]]].
  - intros c Hc. split.
    + apply Hmin_le. now apply in_map.
    + apply Hmax_ge. now apply in_map.
  - apply in_map_iff in Hmin_in. destruct Hmin_in as (c & <- & Hc). eauto.
  - apply in_map_iff in Hmax_in. destruct Hmax_in as (c & <- & Hc). eauto.
  - rewrite length_map. exact Hcount.
  - intros i sc Hsc. rewrite list_lookup_fmap in Hsc.
    destruct ((c0 :: rest) !! i) as [c|] eqn:Hc; [|discriminate].
    injection Hsc as <-. cbn. now apply Hlines.
Qed.

(** X12.  When discovery returns no candidate (no overlapping file, or no
    camera directory at all), [process_clip] reports failure with the text
    naming the camera and leaves the world as it was: no command is run, no
    file is written and no error is reported. *)
Theorem process_clip_no_candidates (w : World) (job : ClipResponse)
    (timestamp : string) (now : Z) :
  (find_clips (camera_id job) (Models.start_time job) (Models.end_time job) = Ok [] ->
   process_clip w job timestamp now
   = (w, Ok (false, "No clips found for camera " +:+ camera_id job
                    +:+ " in time range")))
  /\ (path_exists os (path_join clips_base_dir (camera_id job)) = false ->
      process_clip w job timestamp now
      = (w, Ok (false, "No clips found for camera " +:+ camera_id job
                       +:+ " in time range"))).
Proof.
  assert (find_clips (camera_id job) (Models.start_time job) (Models.end_time job)
          = Ok [] ->
          process_clip w job timestamp now
          = (w, Ok (false, "No clips found for camera " +:+ camera_id job
                           +:+ " in time range"))) as Hempty.
  { intros Hfind. unfold ClipProcessor.process_clip, ClipProcessor.process_clip_body.
    now rewrite Hfind. }
  split; [exact Hempty|].
  intros Hdir. apply Hempty. unfold MediaMTXClient.find_clips. now rewrite Hdir.
Qed.

(** X13.  When the transcoder does not succeed (non-zero exit, timeout or
    launch failure on every command), [process_clip] writes no provenance
    record: every annotation document present afterwards was there
    before. *)
Theorem process_clip_failure_writes_no_provenance (w : World) (job : ClipResponse)
    (timestamp : string) (now : Z) :
  (forall cmd, transcoder_fails (subprocess_run cmd)) ->
  forall path a,
    files (fst (process_clip w job timestamp now)) !! path = Some (AnnotationDoc a) ->
    files w !! path = Some (AnnotationDoc a).
Proof.
  intros Hfail path a.
  unfold ClipProcessor.process_clip, ClipProcessor.process_clip_body.
  destruct (find_clips (camera_id job) (Models.start_time job) (Models.end_time job))
    as [clips|e]; [|cbn; auto].
  destruct clips as [|c0 rest]; [cbn; auto|].
  pose proof (planner_reports_failure os subprocess_run can_write can_remove w
                (c0 :: rest)
                (path_join videos_dir
                   (camera_id job +:+ "_" +:+ timestamp +:+ "_" +:+ clip_id job
                    +:+ ".mp4"))
                (Models.start_time job) (Models.end_time job) Hfail) as Hp.
  destruct (process_mediamtx_clips w (c0 :: rest) _ _ _) as [w1 success] eqn:Hasm.
  cbn in Hp. subst success. cbn.
  apply (assembly_cases os subprocess_run can_write can_remove) in Hasm.
  destruct Hasm as [Hframe _]. apply Hframe.
Qed.

End Provenance.

Lemma process_clip_success_provenance_witness :
  let r := ClipProcessor.process_clip demo_os "mediamtx_clips"
             demo_filename_timestamp (always (ClipProcessor.Completed 0)) yes yes
             empty_world demo_job "20250825_180100" (t0 + seconds 60) in
  snd r = Ok (true, "/videos/camera1_20250825_180100_7d0c3b2e.mp4")
  /\ exists d lines,
       ClipProcessor.files (fst r)
         !! "annotations/camera1_20250825_180100_7d0c3b2e.json"
       = Some (ClipProcessor.AnnotationDoc (ClipProcessor.JsonDump d))
       /\ ClipProcessor.files (fst r)
            !! "annotations/camera1_20250825_180100_7d0c3b2e.txt"
          = Some (ClipProcessor.AnnotationDoc (ClipProcessor.TextSummary lines))
       /\ ClipProcessor.source_clips d
          = map ClipProcessor.source_clip [candidate_a; candidate_b]
       /\ In (ClipProcessor.ClipCountLine 2) lines
       /\ In (ClipProcessor.ClipLine 2 "2025-08-25_18-00-20.mp4"
                (t0 + seconds 20) (t0 + seconds 40)) lines.
Proof.
  intros r. split; [reflexivity|].
  destruct (process_clip_success_provenance demo_os "mediamtx_clips"
              demo_filename_timestamp (always (ClipProcessor.Completed 0)) yes yes
              empty_world (fst r) demo_job "20250825_180100"
              "/videos/camera1_20250825_180100_7d0c3b2e.mp4" (t0 + seconds 60))
    as (clips & cmd & d & lines & Hfind & _ & _ & _ & _ & _ & Hjson & _ & Htxt
        & _ & _ & _ & _ & _ & Hsrc & _ & _ & _ & Hcount & Hlines).
  - vm_compute. reflexivity.
  - assert (clips = [candidate_a; candidate_b]) as ->
      by (vm_compute in Hfind; injection Hfind as <-; reflexivity).
    exists d, lines. split; [exact Hjson|]. split; [exact Htxt|].
    split; [exact Hsrc|]. rewrite Hsrc in Hcount, Hlines.
    split; [exact Hcount|].
    exact (Hlines 1%nat (ClipProcessor.source_clip candidate_b) eq_refl).
Defined.

Lemma process_clip_no_candidates_witness :
  ClipProcessor.process_clip demo_os "mediamtx_clips" demo_filename_timestamp
    (always (ClipProcessor.Completed 0)) yes yes empty_world
    ProcessorFixtures.missing_camera_job "20250825_180100" (t0 + seconds 60)
  = (empty_world,
     Ok (false, "No clips found for camera camera9 in time range")).
Proof.
  refine (proj2 (process_clip_no_candidates demo_os "mediamtx_clips"
                   demo_filename_timestamp (always (ClipProcessor.Completed 0))
                   yes yes empty_world ProcessorFixtures.missing_camera_job
                   "20250825_180100" (t0 + seconds 60)) _).
  reflexivity.
Defined.

Lemma process_clip_failure_writes_no_provenance_witness :
  ~ exists a,
      ClipProcessor.files
        (fst (ClipProcessor.process_clip demo_os "mediamtx_clips"
                demo_filename_timestamp (always ClipProcessor.TimeoutExpired)
                yes yes empty_world demo_job "20250825_180100" (t0 + seconds 60)))
        !! "annotations/camera1_20250825_180100_7d0c3b2e.json"
      = Some (ClipProcessor.AnnotationDoc a).
Proof.
  intros [a H].
  apply (process_clip_failure_writes_no_provenance demo_os "mediamtx_clips"
           demo_filename_timestamp (always ClipProcessor.TimeoutExpired)
           yes yes empty_world demo_job "20250825_180100" (t0 + seconds 60)) in H.
  - discriminate H.
  - intros cmd. exact I.
Defined.

(** ** job_manager.py: submission and the job table *)

Import JobAccess JobRuns.

(** X14.  [submit_job] succeeds exactly when the window
    [[timestamp - 15 s, timestamp + 5 s]] fits the range of [datetime],
    and raises [OverflowError] otherwise.  Right after a successful call
    the job can be read back with [get_job]: it is PENDING, carries the
    request's camera, that window (20 seconds, whatever the request's
    [duration] says), the submission time, and no result fields.  Its id
    is appended at the back of the queue, the other jobs are untouched,
    and the job count grows by one when the id is new. *)
Theorem submit_then_get (s : State) (id : string) (request : ClipRequest) (now : Z) :
  let ws := timestamp request - seconds 15 in
  let we := timestamp request + seconds 5 in
  (window_fits request ->
   exists s',
     submit_job s id request now = Ok s'
     /\ get_job s' id
        = Some {| clip_id := id; status := PENDING;
                  camera_id := req_camera_id request;
                  start_time := ws; end_time := we;
                  download_url := None; error_message := None;
                  created_at := now; completed_at := None |}
     /\ we - ws = seconds 20
     /\ processing_queue s' = processing_queue s ++ [id]
     /\ get_queue_depth s' = S (get_queue_depth s)
     /\ (forall id', id' <> id -> get_job s' id' = get_job s id')
     /\ (jobs s !! id = None -> get_job_count s' = S (get_job_count s)))
  /\ (~ window_fits request ->
      exists msg, submit_job s id request now = Raise (OverflowError msg)).
Proof.
  cbn zeta. split.
  - intros Hfits.
    destruct (submit_job_cases s id request now) as [(_ & _ & Hn)|(Heq & _)];
      [contradiction|].
    eexists. split; [exact Heq|].
    assert (jobs (enqueue s id request (timestamp request - seconds 15)
                          (timestamp request + seconds 5) now)
            = <[id := {| clip_id := id; status := PENDING;
                         camera_id := req_camera_id request;
                         start_time := timestamp request - seconds 15;
                         end_time := timestamp request + seconds 5;
                         download_url := None; error_message := None;
                         created_at := now; completed_at := None |}]> (jobs s)
            /\ processing_queue (enqueue s id request (timestamp request - seconds 15)
                                         (timestamp request + seconds 5) now)
               = processing_queue s ++ [id]) as [Hj Hq].
    { unfold enqueue. cbn. destruct (workers_started s) eqn:E; cbn; [auto|].
      unfold start_workers. cbn. rewrite E. cbn. auto. }
    unfold get_job, get_queue_depth, get_job_count. rewrite Hj, Hq.
    split; [apply lookup_insert_eq|]. split; [unfold seconds; lia|].
    split; [reflexivity|]. split; [rewrite length_app; cbn; lia|].
    split; [intros id' Hne; now apply lookup_insert_ne|].
    intros Hfresh. now apply map_size_insert_None.
  - intros Hn.
    destruct (submit_job_cases s id request now) as [(msg & Heq & _)|(_ & H)];
      [eauto|contradiction].
Qed.

Lemma demo_request_fits : window_fits demo_request.
Proof. split; vm_compute; split; discriminate. Qed.

Lemma submit_then_get_witness :
  exists s',
    submit_job init "7d0c3b2e" demo_request (seconds 1756144860) = Ok s'
    /\ get_job_count s' = S (get_job_count init)
    /\ status <$> get_job s' "7d0c3b2e" = Some PENDING.
Proof.
  pose proof (submit_then_get init "7d0c3b2e" demo_request (seconds 1756144860))
    as [Hok _].
  destruct (Hok demo_request_fits) as (s' & Heq & Hget & _ & _ & _ & _ & Hcount).
  exists s'. split; [exact Heq|].
  split; [apply Hcount; reflexivity|]. rewrite Hget. reflexivity.
Defined.

(** What a worker move leaves alone. *)
Lemma worker_step_frame (s s' : State) (i : nat) (o : ProcOutcome) (now : Z) :
  worker_step s i o now = Some s' ->
  max_concurrent_jobs s' = max_concurrent_jobs s
  /\ workers_started s' = workers_started s
  /\ length (workers s') = length (workers s)
  /\ (jobs s' = jobs s
      \/ exists id st u e, jobs s' = jobs (update_job_status s id st u e now)).
Proof.
  assert (forall id st u e,
            max_concurrent_jobs (update_job_status s id st u e now)
              = max_concurrent_jobs s
            /\ workers_started (update_job_status s id st u e now)
              = workers_started s) as Hupd.
  { intros id st u e. unfold update_job_status.
    destruct (jobs s !! id); [|auto]. destruct (is_terminal st); auto. }
  unfold worker_step. destruct (workers s !! i) as [pc|]; [|discriminate].
  destruct pc as [|id|id|id|id success result].
  - destruct (processing_queue s); [discriminate|]. intros [= <-]. cbn.
    rewrite length_insert. auto.
  - destruct (get_job s id); intros [= <-]; cbn; rewrite length_insert; auto.
  - intros [= <-]. cbn. rewrite length_insert, update_job_status_workers.
    destruct (Hupd id PROCESSING None None) as [-> ->]. eauto 10.
  - destruct o as [success result|msg]; intros [= <-]; cbn;
      rewrite length_insert; [auto|].
    rewrite update_job_status_workers.
    destruct (Hupd id FAILED None (Some ("Worker error: " +:+ msg))) as [-> ->].
    eauto 10.
  - destruct success; intros [= <-]; cbn;
      rewrite length_insert, update_job_status_workers.
    + destruct (Hupd id DONE (Some result) None) as [-> ->]. eauto 10.
    + destruct (Hupd id FAILED None (Some result)) as [-> ->]. eauto 10.
Qed.

Lemma update_job_status_frame (s : State) id st u e now :
  max_concurrent_jobs (update_job_status s id st u e now) = max_concurrent_jobs s
  /\ workers_started (update_job_status s id st u e now) = workers_started s.
Proof.
  unfold update_job_status. destruct (jobs s !! id); [|auto].
  destruct (is_terminal st); auto.
Qed.

Lemma update_job_status_nonempty s id st u e now :
  jobs s <> ∅ -> jobs (update_job_status s id st u e now) <> ∅.
Proof.
  intros Hne. rewrite update_job_status_jobs.
  destruct (jobs s !! id); [apply insert_non_empty|exact Hne].
Qed.

Lemma update_job_status_empty s id st u e now :
  jobs s = ∅ -> update_job_status s id st u e now = s.
Proof.
  intros Hj. unfold update_job_status. now rewrite Hj, lookup_empty.
Qed.

Lemma enqueue_pool (s : State) (id : string) (request : ClipRequest)
    (ws we now : Z) :
  max_concurrent_jobs (enqueue s id request ws we now) = max_concurrent_jobs s
  /\ workers_started (enqueue s id request ws we now) = true
  /\ workers (enqueue s id request ws we now)
     = if workers_started s then workers s
       else workers s ++ replicate (max_concurrent_jobs s) AtQueueGet.
Proof.
  unfold enqueue. cbn. destruct (workers_started s) eqn:E; cbn; [auto|].
  unfold start_workers. cbn. rewrite E. cbn. auto.
Qed.

Lemma step_pool_ok (s : State) (ev : Event) :
  pool_ok s -> pool_ok (default s (step s ev)).
Proof.
  intros Hpool. pose proof Hpool as (Hmax & Hidle & Hbusy).
  destruct ev as [id request now|i o now|id st u e now].
  - destruct (jobs s !! id) eqn:E; [cbn; rewrite E; exact Hpool|].
    destruct (step_submit s id request now E) as [[-> _]|[-> _]]; [exact Hpool|].
    assert (jobs (enqueue s id request (timestamp request - seconds 15)
                          (timestamp request + seconds 5) now) <> ∅) as Hne.
    { destruct (enqueue_shape s id request (timestamp request - seconds 15)
                  (timestamp request + seconds 5) now) as (job & n & _ & -> & _).
      apply insert_non_empty. }
    destruct (enqueue_pool s id request (timestamp request - seconds 15)
                (timestamp request + seconds 5) now) as (Em & Es & Ew).
    split; [congruence|]. split; [intros Hc; contradiction|intros _].
    split; [exact Es|]. rewrite Ew.
    destruct (decide (jobs s = ∅)) as [Hj|Hj].
    + destruct (Hidle Hj) as (Hst & Hw & _). rewrite Hst, Hw, Hmax. reflexivity.
    + destruct (Hbusy Hj) as (Hst & Hw). now rewrite Hst.
  - cbn. destruct (worker_step s i o now) as [s'|] eqn:E; cbn; [|exact Hpool].
    pose proof E as Hstep. apply worker_step_frame in E.
    destruct E as (Em & Es & El & Hjobs).
    destruct (decide (jobs s = ∅)) as [Hj|Hj].
    + exfalso. destruct (Hidle Hj) as (_ & Hw & _).
      unfold worker_step in Hstep. rewrite Hw in Hstep. discriminate.
    + destruct (Hbusy Hj) as (Hst & Hw).
      assert (jobs s' <> ∅) as Hne.
      { destruct Hjobs as [->|(x & st & u & e & ->)];
          [exact Hj|now apply update_job_status_nonempty]. }
      split; [congruence|]. split; [intros Hc; contradiction|intros _].
      split; congruence.
  - cbn. destruct (decide (jobs s = ∅)) as [Hj|Hj].
    + now rewrite update_job_status_empty.
    + destruct (Hbusy Hj) as (Hst & Hw).
      destruct (update_job_status_frame s id st u e now) as [Em Es].
      split; [congruence|].
      split; [intros Hc; now apply update_job_status_nonempty in Hc|intros _].
      rewrite update_job_status_workers. split; congruence.
Qed.

Lemma run_cons (s : State) (ev : Event) (evs : list Event) :
  run s (ev :: evs) = run (default s (step s ev)) evs.
Proof. reflexivity. Qed.

Lemma step_without_submit (s : State) (ev : Event) :
  pool_ok s -> jobs s = ∅ -> is_submit ev = false ->
  default s (step s ev) = s.
Proof.
  intros (_ & Hidle & _) Hj Hev. destruct (Hidle Hj) as (_ & Hw & _).
  destruct ev as [id request now|i o now|id st u e now]; [discriminate| |].
  - cbn. unfold worker_step. now rewrite Hw.
  - cbn. now apply update_job_status_empty.
Qed.

(** X15.  The worker pool is started lazily and once: in every state an
    execution (submissions, worker moves and direct status updates, in
    any order) can reach, there is no worker task and the pool is not
    started while the job table is empty, and there are exactly three
    worker tasks once a job is in the table, however many submissions
    follow; an execution without a submission leaves the coordinator as
    it was created, without workers. *)
Theorem worker_pool_started_once (evs : list Event) :
  let s := run init evs in
  max_concurrent_jobs s = 3%nat
  /\ (jobs s = ∅ -> workers_started s = false /\ workers s = [])
  /\ (jobs s <> ∅ -> workers_started s = true /\ length (workers s) = 3%nat)
  /\ (forallb (fun ev => negb (is_submit ev)) evs = true -> s = init).
Proof.
  cbn zeta.
  assert (pool_ok init) as Hinit.
  { split; [reflexivity|]. split; [auto|]. intros Hne. now destruct Hne. }
  assert (forall s, pool_ok s -> pool_ok (run s evs)) as Hrun.
  { induction evs as [|ev evs IH]; intros s Hs; [exact Hs|].
    rewrite run_cons. apply IH. now apply step_pool_ok. }
  destruct (Hrun init Hinit) as (Hmax & Hidle & Hbusy).
  split; [exact Hmax|]. split; [|split; [exact Hbusy|]].
  - intros Hj. destruct (Hidle Hj) as (Hst & Hw & _). auto.
  - clear Hrun Hmax Hidle Hbusy. induction evs as [|ev evs IH]; [reflexivity|].
    cbn [forallb]. intros Hall. apply andb_true_iff in Hall.
    destruct Hall as [Hev Hall]. apply negb_true_iff in Hev.
    rewrite run_cons, (step_without_submit init ev Hinit eq_refl Hev).
    now apply IH.
Qed.

Lemma worker_pool_started_once_witness :
  workers_started (run init worker_run) = true
  /\ length (workers (run init worker_run)) = 3%nat.
Proof.
  apply (proj1 (proj2 (proj2 (worker_pool_started_once worker_run)))).
  intros H. apply (f_equal (fun m => status <$> m !! "7d0c3b2e")) in H.
  vm_compute in H. discriminate H.
Defined.

Lemma same_identity_refl (job : ClipResponse) : same_identity job job.
Proof. repeat split. Qed.

Lemma same_identity_trans (a b c : ClipResponse) :
  same_identity a b -> same_identity b c -> same_identity a c.
Proof. unfold same_identity. intuition congruence. Qed.

Lemma update_job_status_keeps (s : State) id st u e now id' (job : ClipResponse) :
  jobs s !! id' = Some job ->
  exists job', jobs (update_job_status s id st u e now) !! id' = Some job'
               /\ same_identity job job'.
Proof.
  intros Hj. rewrite update_job_status_jobs.
  destruct (jobs s !! id) as [j0|] eqn:E; [|eauto using same_identity_refl].
  destruct (decide (id = id')) as [<-|Hne].
  - rewrite lookup_insert_eq. eexists. split; [reflexivity|].
    rewrite E in Hj. injection Hj as <-. repeat split.
  - rewrite lookup_insert_ne by exact Hne. eauto using same_identity_refl.
Qed.

Lemma step_keeps_jobs (s : State) (ev : Event) id (job : ClipResponse) :
  jobs s !! id = Some job ->
  exists job', jobs (default s (step s ev)) !! id = Some job'
               /\ same_identity job job'.
Proof.
  intros Hj. destruct ev as [id0 request now|i o now|id0 st u e now].
  - destruct (jobs s !! id0) eqn:E;
      [cbn; rewrite E; cbn; eauto using same_identity_refl|].
    destruct (step_submit s id0 request now E) as [[-> _]|[-> _]];
      [eauto using same_identity_refl|].
    destruct (enqueue_shape s id0 request (timestamp request - seconds 15)
                (timestamp request + seconds 5) now) as (j0 & n & _ & -> & _).
    rewrite lookup_insert_ne by congruence. eauto using same_identity_refl.
  - cbn. destruct (worker_step s i o now) as [s'|] eqn:E; cbn;
      [|eauto using same_identity_refl].
    apply worker_step_frame in E. destruct E as (_ & _ & _ & [->|(x & st & u & e & ->)]).
    + eauto using same_identity_refl.
    + now apply update_job_status_keeps.
  - cbn. now apply update_job_status_keeps.
Qed.

(** X16.  The job table only grows and a job's identity is fixed: a job
    that is in the table stays there through every later event
    (submissions, worker moves, direct status updates), with the same
    [clip_id], camera, window and creation time. *)
Theorem jobs_are_never_dropped (s : State) (evs : list Event) (id : string)
    (job : ClipResponse) :
  jobs s !! id = Some job ->
  exists job', jobs (run s evs) !! id = Some job' /\ same_identity job job'.
Proof.
  revert s job. induction evs as [|ev evs IH]; intros s job Hj.
  - exists job. split; [exact Hj|apply same_identity_refl].
  - rewrite run_cons.
    destruct (step_keeps_jobs s ev id job Hj) as (j1 & H1 & S1).
    destruct (IH _ _ H1) as (j2 & H2 & S2).
    exists j2. split; [exact H2|]. eapply same_identity_trans; eauto.
Qed.

Lemma jobs_are_never_dropped_witness :
  exists job',
    jobs (run submitted direct_updates) !! "7d0c3b2e" = Some job'
    /\ same_identity
         {| clip_id := "7d0c3b2e"; status := PENDING; camera_id := "camera1";
            start_time := seconds 1756144830 - seconds 15;
            end_time := seconds 1756144830 + seconds 5;
            download_url := None; error_message := None;
            created_at := seconds 1756144860; completed_at := None |} job'.
Proof.
  apply (jobs_are_never_dropped submitted direct_updates "7d0c3b2e").
  vm_compute. reflexivity.
Defined.

(** ** job_manager.py: a batch of submissions *)

Lemma run_submissions (subs : list (string * ClipRequest * Z)) (s : State) :
  NoDup (submitted_ids subs) ->
  (forall id request now, In (id, request, now) subs -> window_fits request) ->
  (forall id, In id (submitted_ids subs) -> jobs s !! id = None) ->
  processing_queue (run s (submissions subs))
    = processing_queue s ++ submitted_ids subs
  /\ size (jobs (run s (submissions subs)))
     = (size (jobs s) + length subs)%nat
  /\ (forall id, In id (submitted_ids subs) ->
        status_of (run s (submissions subs)) id = Some PENDING)
  /\ (forall id, status_of s id = Some PENDING ->
        status_of (run s (submissions subs)) id = Some PENDING).
Proof.
  revert s. induction subs as [|[[id request] now] subs IH]; intros s Hnd Hfit Hfresh.
  - cbn. rewrite app_nil_r. repeat split; auto. intros id [].
  - cbn [submissions submitted_ids map] in *.
    fold (submissions subs) in *. fold (submitted_ids subs) in *.
    rewrite run_cons.
    destruct (step_submit s id request now (Hfresh id (or_introl eq_refl)))
      as [[_ Hn]|[-> _]];
      [exfalso; apply Hn; apply (Hfit id request now); now left|].
    set (s1 := enqueue s id request (timestamp request - seconds 15)
                       (timestamp request + seconds 5) now).
    apply NoDup_cons in Hnd. destruct Hnd as [Hnotin Hnd].
    destruct (enqueue_shape s id request (timestamp request - seconds 15)
                (timestamp request + seconds 5) now) as (job & n & Hst & Hj & Hq & _).
    fold s1 in Hj, Hq.
    destruct (IH s1 Hnd) as (IHq & IHsz & IHnew & IHold).
    { intros id' request' now' Hin. apply (Hfit id' request' now'). now right. }
    { intros id' Hin. rewrite Hj, lookup_insert_ne; [apply Hfresh; now right|].
      intros ->. apply Hnotin. now apply list_elem_of_In. }
    assert (status_of s1 id = Some PENDING) as Hnew.
    { unfold status_of. rewrite Hj, lookup_insert_eq. cbn. now rewrite Hst. }
    split; [rewrite IHq, Hq, <- app_assoc; reflexivity|].
    split.
    { rewrite IHsz, Hj, map_size_insert_None by (apply Hfresh; now left).
      cbn [length]. lia. }
    split.
    + intros id' [<-|Hin]; [now apply IHold|now apply IHnew].
    + intros id' Hp. apply IHold. unfold status_of. rewrite Hj.
      destruct (decide (id = id')) as [<-|Hne].
      * unfold status_of in Hp. rewrite (Hfresh id (or_introl eq_refl)) in Hp.
        discriminate.
      * now rewrite lookup_insert_ne.
Qed.

(** X17.  After N submissions with pairwise different identifiers, each
    with a window that fits the range of [datetime], and before any worker
    has moved, the queue holds the N identifiers in submission order, the
    queue depth and the job count are N, and every one of the jobs is
    PENDING. *)
Theorem queue_after_submissions (subs : list (string * ClipRequest * Z)) :
  NoDup (submitted_ids subs) ->
  (forall id request now, In (id, request, now) subs -> window_fits request) ->
  let s := run init (submissions subs) in
  processing_queue s = submitted_ids subs
  /\ get_queue_depth s = length subs
  /\ get_job_count s = length subs
  /\ forall id, In id (submitted_ids subs) -> status_of s id = Some PENDING.
Proof.
  intros Hnd Hfit. cbn zeta.
  destruct (run_submissions subs init Hnd Hfit) as (Hq & Hsz & Hnew & _).
  { intros id _. apply lookup_empty. }
  unfold get_queue_depth, get_job_count. rewrite Hq, Hsz. cbn.
  split; [reflexivity|]. split; [unfold submitted_ids; now rewrite length_map|].
  split; [now rewrite map_size_empty|exact Hnew].
Qed.

Lemma queue_after_submissions_witness :
  let subs := [("7d0c3b2e", demo_request, seconds 1756144860);
               ("0a1b2c3d", demo_request, seconds 1756144861)] in
  processing_queue (run init (submissions subs)) = ["7d0c3b2e"; "0a1b2c3d"]
  /\ get_queue_depth (run init (submissions subs)) = 2%nat
  /\ get_job_count (run init (submissions subs)) = 2%nat
  /\ forall id, In id (submitted_ids subs) ->
       status_of (run init (submissions subs)) id = Some PENDING.
Proof.
  intros subs. apply (queue_after_submissions subs).
  - cbn. apply NoDup_cons.
    split; [intros H%list_elem_of_singleton; discriminate|apply NoDup_singleton].
  - intros id request now [[= _ <- _]|[[= _ <- _]|[]]]; exact demo_request_fits.
Defined.

(** ** job_manager.py: result fields along the worker loop *)

Lemma status_of_Some (s : State) (id : string) (st : ClipStatus) :
  status_of s id = Some st <-> exists job, jobs s !! id = Some job /\ status job = st.
Proof.
  unfold status_of. destruct (jobs s !! id) as [job|]; cbn.
  - split; [intros [= <-]; eauto|intros (j & [= <-] & <-); reflexivity].
  - split; [discriminate|intros (j & H & _); discriminate].
Qed.

Lemma enqueue_jobs (s : State) (id : string) (request : ClipRequest)
    (ws we now : Z) :
  jobs (enqueue s id request ws we now)
  = <[id := {| clip_id := id; status := PENDING;
               camera_id := req_camera_id request;
               start_time := ws; end_time := we;
               download_url := None; error_message := None;
               created_at := now; completed_at := None |}]> (jobs s).
Proof.
  unfold enqueue. cbn. destruct (workers_started s) eqn:E; cbn; [reflexivity|].
  unfold start_workers. cbn. rewrite E. reflexivity.
Qed.

(** The three status writes of the worker loop keep the fields in step
    with the status. *)
Lemma updated_job_fields_ok (job : ClipResponse) (st : ClipStatus)
    (u e : option string) (now : Z) :
  fields_ok job ->
  (status job = PENDING /\ st = PROCESSING /\ u = None /\ e = None)
  \/ (status job = PROCESSING /\ st = FAILED /\ u = None)
  \/ (status job = PROCESSING /\ st = DONE /\ e = None) ->
  fields_ok (updated_job job st u e now).
Proof.
  unfold fields_ok. intros Hok [(Hs & -> & -> & ->)|[(Hs & -> & ->)|(Hs & -> & ->)]];
    rewrite Hs in Hok; destruct Hok as (Hu & He & Hc); cbn; auto.
Qed.

Lemma update_job_status_fields_ok (s : State) id st u e now :
  (forall id' job, jobs s !! id' = Some job -> fields_ok job) ->
  (forall job, jobs s !! id = Some job ->
     (status job = PENDING /\ st = PROCESSING /\ u = None /\ e = None)
     \/ (status job = PROCESSING /\ st = FAILED /\ u = None)
     \/ (status job = PROCESSING /\ st = DONE /\ e = None)) ->
  forall id' job, jobs (update_job_status s id st u e now) !! id' = Some job ->
                  fields_ok job.
Proof.
  intros Hall Hcase id' job. rewrite update_job_status_jobs.
  destruct (jobs s !! id) as [j0|] eqn:E; [|apply Hall].
  destruct (decide (id = id')) as [<-|Hne].
  - rewrite lookup_insert_eq. intros [= <-].
    apply updated_job_fields_ok; [eapply Hall; eauto|now apply Hcase].
  - rewrite lookup_insert_ne by exact Hne. apply Hall.
Qed.

Lemma step_fields_ok (s : State) (ev : Event) :
  inv s ->
  (forall id job, jobs s !! id = Some job -> fields_ok job) ->
  is_update_call ev = false ->
  forall id job, jobs (default s (step s ev)) !! id = Some job -> fields_ok job.
Proof.
  intros Hinv Hall Hev. destruct ev as [id0 request now|i o now|]; [| |discriminate].
  - destruct (jobs s !! id0) eqn:E; [cbn; rewrite E; exact Hall|].
    destruct (step_submit s id0 request now E) as [[-> _]|[-> _]]; [exact Hall|].
    intros id job. rewrite enqueue_jobs.
    destruct (decide (id0 = id)) as [<-|Hne].
    + rewrite lookup_insert_eq. intros [= <-]. cbn. auto.
    + rewrite lookup_insert_ne by exact Hne. apply Hall.
  - cbn. destruct (worker_step s i o now) as [s'|] eqn:E; cbn; [|exact Hall].
    unfold worker_step in E. destruct (workers s !! i) as [pc|] eqn:Hi; [|discriminate].
    assert (forall id st, held pc = Some id -> expected pc = Some st ->
              forall job, jobs s !! id = Some job -> status job = st) as Hst.
    { intros id st Hh He job Hj.
      destruct (inv_worker s Hinv i pc id Hi Hh) as [Hs _].
      rewrite He in Hs. apply status_of_Some in Hs.
      destruct Hs as (j & Hj' & <-). congruence. }
    destruct pc as [|id0|id0|id0|id0 success result].
    + destruct (processing_queue s); [discriminate|]. injection E as <-. exact Hall.
    + destruct (get_job s id0); injection E as <-; exact Hall.
    + injection E as <-. cbn.
      apply update_job_status_fields_ok; [exact Hall|].
      intros job Hj. left. rewrite (Hst id0 PENDING eq_refl eq_refl job Hj). auto.
    + destruct o as [success result|msg]; injection E as <-; cbn; [exact Hall|].
      apply update_job_status_fields_ok; [exact Hall|].
      intros job Hj. right. left.
      rewrite (Hst id0 PROCESSING eq_refl eq_refl job Hj). auto.
    + destruct success; injection E as <-; cbn;
        (apply update_job_status_fields_ok; [exact Hall|]); intros job Hj.
      * right. right. rewrite (Hst id0 PROCESSING eq_refl eq_refl job Hj). auto.
      * right. left. rewrite (Hst id0 PROCESSING eq_refl eq_refl job Hj). auto.
Qed.

(** X18.  Over every execution made of submissions and worker moves, each
    job's result fields agree with its status: a PENDING or PROCESSING job
    has no download URL, no error message and no completion time; a DONE
    job has a completion time and no error message; a FAILED job has a
    completion time and no download URL. *)
Theorem result_fields_follow_status (evs : list Event) (id : string)
    (job : ClipResponse) :
  Forall (fun ev => is_update_call ev = false) evs ->
  jobs (run init evs) !! id = Some job ->
  fields_ok job.
Proof.
  intros Hevs.
  assert (forall s, inv s ->
            (forall id job, jobs s !! id = Some job -> fields_ok job) ->
            forall id job, jobs (run s evs) !! id = Some job -> fields_ok job) as Hrun.
  { induction Hevs as [|ev evs Hev Hevs IH]; intros s Hinv Hall; [exact Hall|].
    rewrite run_cons. apply IH.
    - now apply step_inv.
    - now apply step_fields_ok. }
  apply (Hrun init inv_init). intros id' job'. cbn. rewrite lookup_empty. discriminate.
Qed.

Lemma result_fields_follow_status_witness :
  exists job,
    jobs (run init worker_run) !! "7d0c3b2e" = Some job
    /\ status job = DONE /\ fields_ok job.
Proof.
  eexists. split; [vm_compute; reflexivity|]. split; [reflexivity|].
  eapply (result_fields_follow_status worker_run "7d0c3b2e").
  - repeat constructor.
  - vm_compute. reflexivity.
Defined.

(** ** job_manager.py: one job through the worker loop *)

Lemma set_pc_lookup (s : State) (i : nat) (pc pc0 : WorkerPc) :
  workers s !! i = Some pc0 ->
  workers (set_pc s i pc) !! i = Some pc.
Proof.
  intros H. cbn. apply list_lookup_insert_eq. eapply lookup_lt_Some; eauto.
Qed.

(** What each move of worker [i] does to the status of a job [id] that is
    in the table, and where the worker stands afterwards. *)
Lemma worker_move_dequeue (s : State) (i : nat) (o : ProcOutcome) (now : Z)
    (id : string) (q : list string) :
  workers s !! i = Some AtQueueGet ->
  processing_queue s = id :: q ->
  exists s', worker_step s i o now = Some s'
             /\ workers s' !! i = Some (AtGetJob id)
             /\ jobs s' = jobs s.
Proof.
  intros Hi Hq. unfold worker_step. rewrite Hi, Hq. eexists. split; [reflexivity|].
  split; [|reflexivity]. cbn. apply list_lookup_insert_eq.
  eapply lookup_lt_Some; eauto.
Qed.

Lemma worker_move_load (s : State) (i : nat) (o : ProcOutcome) (now : Z)
    (id : string) :
  workers s !! i = Some (AtGetJob id) ->
  is_Some (jobs s !! id) ->
  exists s', worker_step s i o now = Some s'
             /\ workers s' !! i = Some (AtMarkProcessing id)
             /\ jobs s' = jobs s.
Proof.
  intros Hi [job Hj]. unfold worker_step, get_job. rewrite Hi, Hj.
  eexists. split; [reflexivity|]. split; [|reflexivity].
  eapply set_pc_lookup; eauto.
Qed.

Lemma worker_move_mark (s : State) (i : nat) (o : ProcOutcome) (now : Z)
    (id : string) :
  workers s !! i = Some (AtMarkProcessing id) ->
  is_Some (jobs s !! id) ->
  exists s', worker_step s i o now = Some s'
             /\ workers s' !! i = Some (AtProcessClip id)
             /\ status_of s' id = Some PROCESSING.
Proof.
  intros Hi [job Hj]. unfold worker_step. rewrite Hi.
  eexists. split; [reflexivity|]. split.
  - eapply set_pc_lookup. rewrite update_job_status_workers. eauto.
  - unfold status_of at 1. cbn.
    fold (status_of (update_job_status s id PROCESSING None None now) id).
    rewrite status_of_update_job_status. unfold status_of. rewrite Hj. cbn.
    now case_decide.
Qed.

Lemma worker_move_process (s : State) (i : nat) (o : ProcOutcome) (now : Z)
    (id : string) :
  workers s !! i = Some (AtProcessClip id) ->
  is_Some (jobs s !! id) ->
  exists s', worker_step s i o now = Some s'
    /\ match o with
       | Returned success result =>
           workers s' !! i = Some (AtFinish id success result) /\ jobs s' = jobs s
       | Faulted msg =>
           workers s' !! i = Some AtQueueGet
           /\ status_of s' id = Some FAILED
           /\ (error_message <$> jobs s' !! id)
              = Some (Some ("Worker error: " +:+ msg))
           /\ (completed_at <$> jobs s' !! id) = Some (Some now)
           /\ metrics s' = metrics s ++ [RecordRequestComplete id
                                           (default ""
                                              (camera_id <$> jobs s !! id)) false;
                                         RecordError "worker_exception"]
       end.
Proof.
  intros Hi [job Hj]. unfold worker_step. rewrite Hi.
  destruct o as [success result|msg]; (eexists; split; [reflexivity|]).
  - split; [|reflexivity]. eapply set_pc_lookup; eauto.
  - split; [eapply set_pc_lookup; cbn; rewrite update_job_status_workers; eauto|].
    cbn. unfold status_of, update_job_status. rewrite Hj. cbn.
    rewrite lookup_insert_eq. cbn. rewrite <- app_assoc. auto.
Qed.

Lemma worker_move_finish (s : State) (i : nat) (o : ProcOutcome) (now : Z)
    (id : string) (success : bool) (result : string) :
  workers s !! i = Some (AtFinish id success result) ->
  is_Some (jobs s !! id) ->
  exists s', worker_step s i o now = Some s'
             /\ workers s' !! i = Some AtQueueGet
             /\ status_of s' id = Some (if success then DONE else FAILED).
Proof.
  intros Hi [job Hj]. unfold worker_step. rewrite Hi.
  destruct success; (eexists; split; [reflexivity|]); split.
  - eapply set_pc_lookup. rewrite update_job_status_workers. eauto.
  - unfold status_of at 1. cbn.
    fold (status_of (update_job_status s id DONE (Some result) None now) id).
    rewrite status_of_update_job_status. unfold status_of. rewrite Hj. cbn.
    now case_decide.
  - eapply set_pc_lookup. cbn. rewrite update_job_status_workers. eauto.
  - unfold status_of at 1. cbn.
    fold (status_of (update_job_status s id FAILED None (Some result) now) id).
    rewrite status_of_update_job_status. unfold status_of. rewrite Hj. cbn.
    now case_decide.
Qed.

Lemma worker_move_idle (s : State) (i : nat) (o : ProcOutcome) (now : Z) :
  workers s !! i = Some AtQueueGet ->
  jobs (default s (worker_step s i o now)) = jobs s.
Proof.
  intros Hi. unfold worker_step. rewrite Hi.
  destruct (processing_queue s); reflexivity.
Qed.

(** X19.  A worker can always move unless it is waiting on an empty
    queue; and when the processing of a job faults, the worker marks that
    job FAILED with the message [Worker error: <text>], stamps its
    completion time, reports the completion and a worker_exception error
    to the metrics, and goes back to waiting on the queue. *)
Theorem worker_survives_fault (s : State) (i : nat) (o : ProcOutcome) (now : Z) :
  (worker_step s i o now = None <->
     workers s !! i = None
     \/ (workers s !! i = Some AtQueueGet /\ processing_queue s = []))
  /\ (forall id job msg,
        workers s !! i = Some (AtProcessClip id) ->
        jobs s !! id = Some job ->
        exists s' job',
          worker_step s i (Faulted msg) now = Some s'
          /\ workers s' !! i = Some AtQueueGet
          /\ jobs s' !! id = Some job'
          /\ status job' = FAILED
          /\ error_message job' = Some ("Worker error: " +:+ msg)
          /\ completed_at job' = Some now
          /\ metrics s' = metrics s ++ [RecordRequestComplete id (camera_id job) false;
                                        RecordError "worker_exception"]).
Proof.
  split.
  - unfold worker_step. destruct (workers s !! i) as [pc|]; [|intuition].
    destruct pc as [|id|id|id|id success result].
    + destruct (processing_queue s); [intuition|].
      split; [discriminate|]. intros [|[_ ?]]; discriminate.
    + destruct (get_job s id); (split; [discriminate|]); intros [|[? _]]; discriminate.
    + split; [discriminate|]. intros [|[? _]]; discriminate.
    + destruct o; (split; [discriminate|]); intros [|[? _]]; discriminate.
    + destruct success; (split; [discriminate|]); intros [|[? _]]; discriminate.
  - intros id job msg Hi Hj.
    destruct (worker_move_process s i (Faulted msg) now id Hi (ex_intro _ job Hj))
      as (s' & Hstep & Hw & Hst & He & Hc & Hm).
    destruct (jobs s' !! id) as [job'|] eqn:Hj'; [|discriminate].
    exists s', job'. cbn in He, Hc. unfold status_of in Hst. rewrite Hj' in Hst.
    cbn in Hst. rewrite Hj in Hm. cbn in Hm.
    repeat split; try congruence.
Qed.

Lemma worker_survives_fault_witness :
  let s := run init [Submit "7d0c3b2e" demo_request (seconds 1756144860);
                     Worker 0 (Returned true "") (seconds 1756144861);
                     Worker 0 (Returned true "") (seconds 1756144861);
                     Worker 0 (Returned true "") (seconds 1756144861)] in
  exists s' job',
    worker_step s 0 (Faulted "No module named app") (seconds 1756144862) = Some s'
    /\ workers s' !! 0%nat = Some AtQueueGet
    /\ jobs s' !! "7d0c3b2e" = Some job'
    /\ status job' = FAILED
    /\ error_message job' = Some "Worker error: No module named app".
Proof.
  intros s.
  pose proof (worker_survives_fault s 0 (Faulted "") (seconds 1756144862))
    as [_ Hfault].
  destruct (Hfault "7d0c3b2e"
              {| clip_id := "7d0c3b2e"; status := PROCESSING; camera_id := "camera1";
                 start_time := seconds 1756144830 - seconds 15;
                 end_time := seconds 1756144830 + seconds 5;
                 download_url := None; error_message := None;
                 created_at := seconds 1756144860; completed_at := None |}
              "No module named app")
    as (s' & job' & H1 & H2 & H3 & H4 & H5 & _).
  - vm_compute. reflexivity.
  - vm_compute. reflexivity.
  - exists s', job'. auto.
Defined.

(** X20.  A job at the head of the queue, taken by a waiting worker, ends
    DONE exactly when [process_clip] returned success and FAILED
    otherwise (failure result or fault): after the worker's next five
    moves the job's status is DONE or FAILED accordingly. *)
Theorem dequeued_job_reaches_outcome (s : State) (i : nat) (id : string)
    (q : list string) (o1 o2 o3 o o5 : ProcOutcome) (t1 t2 t3 t4 t5 : Z) :
  workers s !! i = Some AtQueueGet ->
  processing_queue s = id :: q ->
  is_Some (jobs s !! id) ->
  status_of
    (run s [Worker i o1 t1; Worker i o2 t2; Worker i o3 t3; Worker i o t4;
            Worker i o5 t5]) id
  = Some match o with
         | Returned true _ => DONE
         | Returned false _ | Faulted _ => FAILED
         end.
Proof.
  intros Hi Hq Hj.
  destruct (worker_move_dequeue s i o1 t1 id q Hi Hq) as (s1 & E1 & W1 & J1).
  assert (is_Some (jobs s1 !! id)) as Hj1 by (now rewrite J1).
  destruct (worker_move_load s1 i o2 t2 id W1 Hj1) as (s2 & E2 & W2 & J2).
  assert (is_Some (jobs s2 !! id)) as Hj2 by (now rewrite J2).
  destruct (worker_move_mark s2 i o3 t3 id W2 Hj2) as (s3 & E3 & W3 & S3).
  assert (is_Some (jobs s3 !! id)) as Hj3.
  { apply status_of_Some in S3. destruct S3 as (j & Hj3 & _). eauto. }
  destruct (worker_move_process s3 i o t4 id W3 Hj3) as (s4 & E4 & H4).
  cbn [run fold_left step].
  rewrite E1. change (default s (Some s1)) with s1.
  rewrite E2. change (default s1 (Some s2)) with s2.
  rewrite E3. change (default s2 (Some s3)) with s3.
  rewrite E4. change (default s3 (Some s4)) with s4.
  destruct o as [success result|msg].
  - destruct H4 as [W4 J4].
    assert (is_Some (jobs s4 !! id)) as Hj4 by (now rewrite J4).
    destruct (worker_move_finish s4 i o5 t5 id success result W4 Hj4)
      as (s5 & E5 & _ & S5).
    rewrite E5. change (default s4 (Some s5)) with s5.
    rewrite S5. now destruct success.
  - destruct H4 as (W4 & S4 & _).
    unfold status_of. rewrite (worker_move_idle s4 i o5 t5 W4). exact S4.
Qed.

Lemma dequeued_job_reaches_outcome_witness :
  status_of
    (run submitted
         [Worker 1 (Returned true "") (seconds 1756144861);
          Worker 1 (Returned true "") (seconds 1756144861);
          Worker 1 (Returned true "") (seconds 1756144861);
          Worker 1 (Returned false "FFmpeg processing failed") (seconds 1756144865);
          Worker 1 (Returned true "") (seconds 1756144865)]) "7d0c3b2e"
  = Some FAILED.
Proof.
  apply (dequeued_job_reaches_outcome
           submitted 1
           "7d0c3b2e" []).
  - reflexivity.
  - reflexivity.
  - eexists. vm_compute. reflexivity.
Defined.

(** ** main.py: the clip endpoints *)

Section Endpoints.
Import Api.
Variable os : MediaMTXClient.Os.
Variable clips_base_dir : string.
Variable filename_timestamp : string -> option Z.

Local Abbreviation find_clips :=
  (MediaMTXClient.find_clips os clips_base_dir filename_timestamp).
Local Abbreviation create_clip := (create_clip os clips_base_dir filename_timestamp).

(** X21.  [create_clip] enqueues a job only when the window
    [[timestamp - 15 s, timestamp + 5 s]] fits the range of [datetime] and
    discovery found at least one candidate for it: then it answers with
    the new id, and [get_clip_status] on that id returns the job, PENDING,
    with that same window.  When discovery finds nothing it answers 404
    and the coordinator is unchanged; when the window does not fit or
    discovery raises it answers 500, reports an api_error and leaves the
    job table and the queue unchanged. *)
Theorem create_clip_enqueues_only_when_found (s : State) (request : ClipRequest)
    (uuid : string) (now : Z) :
  let ws := timestamp request - seconds 15 in
  let we := timestamp request + seconds 5 in
  let s' := fst (create_clip s request uuid now) in
  let r := snd (create_clip s request uuid now) in
  (forall body, r = Http200 body ->
     window_fits request
     /\ (exists clips, find_clips (req_camera_id request) ws we = Ok clips /\ clips <> [])
     /\ r_clip_id body = uuid /\ r_status body = "pending"
     /\ submit_job s uuid request now = Ok s'
     /\ exists job, get_clip_status s' uuid = Http200 job
                    /\ status job = PENDING
                    /\ start_time job = ws /\ end_time job = we)
  /\ (forall code detail, r = HTTPException code detail ->
        jobs s' = jobs s /\ processing_queue s' = processing_queue s
        /\ ((code = 404 /\ window_fits request
             /\ find_clips (req_camera_id request) ws we = Ok [] /\ s' = s)
            \/ (code = 500
                /\ (~ window_fits request
                    \/ exists e, find_clips (req_camera_id request) ws we = Raise e)
                /\ metrics s' = metrics s ++ [RecordError "api_error"])))
  /\ (~ window_fits request ->
      r = HTTPException 500 "Internal server error").
Proof.
  cbn zeta. unfold Api.create_clip.
  assert (window_fits request
          /\ discover os clips_base_dir filename_timestamp request
             = find_clips (req_camera_id request) (timestamp request - seconds 15)
                 (timestamp request + seconds 5)
          \/ ~ window_fits request
             /\ exists e, discover os clips_base_dir filename_timestamp request
                          = Raise e) as Hdisc.
  { unfold discover, datetime_add, window_fits.
    change (timestamp request + - seconds 15) with (timestamp request - seconds 15).
    destruct (is_datetimeb (timestamp request - seconds 15)) eqn:E1;
      cbn [mbind result_bind rbind].
    - destruct (is_datetimeb (timestamp request + seconds 5)) eqn:E2;
        cbn [mbind result_bind rbind].
      + left. split; [split; now apply is_datetimeb_spec|reflexivity].
      + right. split; [|eauto]. intros [_ H].
        apply is_datetimeb_spec in H. congruence.
    - right. split; [|eauto]. intros [H _].
      apply is_datetimeb_spec in H. congruence. }
  destruct Hdisc as [[Hfits ->]|[Hn (e & ->)]].
  - destruct (find_clips (req_camera_id request) (timestamp request - seconds 15)
                (timestamp request + seconds 5)) as [[|c rest]|e] eqn:Hfind.
    + cbn [fst snd]. split; [discriminate|]. split; [|contradiction].
      intros code detail [= <- <-]. auto 10.
    + destruct (submit_job_cases s uuid request now) as [(_ & _ & Hn)|(-> & _)];
        [contradiction|].
      cbn [fst snd]. split; [|split; [discriminate|contradiction]].
      intros body [= <-]. split; [exact Hfits|].
      split; [eexists; split; [reflexivity|discriminate]|].
      cbn. repeat (split; [reflexivity|]).
      unfold get_clip_status, get_job. rewrite enqueue_jobs, lookup_insert_eq.
      eexists. split; [reflexivity|]. cbn. auto.
    + cbn [fst snd]. split; [discriminate|]. split; [|contradiction].
      intros code detail [= <- <-]. cbn. split; [reflexivity|].
      split; [reflexivity|]. right. eauto.
  - cbn [fst snd]. split; [discriminate|]. split; [|reflexivity].
    intros code detail [= <- <-]. cbn. split; [reflexivity|].
    split; [reflexivity|]. right. auto.
Qed.

End Endpoints.

Lemma create_clip_enqueues_only_when_found_witness :
  (exists job,
     Api.get_clip_status
       (fst (Api.create_clip demo_os "mediamtx_clips" demo_filename_timestamp init
               {| req_camera_id := "camera1"; timestamp := t0 + seconds 30;
                  duration := 20 |} "7d0c3b2e" (t0 + seconds 60)))
       "7d0c3b2e" = Api.Http200 job
     /\ status job = PENDING
     /\ start_time job = t0 + seconds 30 - seconds 15
     /\ end_time job = t0 + seconds 30 + seconds 5)
  /\ jobs (fst (Api.create_clip racy_os "mediamtx_clips" demo_filename_timestamp init
                  {| req_camera_id := "camera1"; timestamp := t0 + seconds 30;
                     duration := 20 |} "7d0c3b2e" (t0 + seconds 60)))
     = jobs init
  /\ snd (Api.create_clip demo_os "mediamtx_clips" demo_filename_timestamp init
            {| req_camera_id := "camera1"; timestamp := datetime_min + seconds 10;
               duration := 20 |} "7d0c3b2e" (t0 + seconds 60))
     = Api.HTTPException 500 "Internal server error".
Proof.
  split; [|split].
  - pose proof (create_clip_enqueues_only_when_found demo_os "mediamtx_clips"
                  demo_filename_timestamp init
                  {| req_camera_id := "camera1"; timestamp := t0 + seconds 30;
                     duration := 20 |} "7d0c3b2e" (t0 + seconds 60)) as [Hok _].
    cbn zeta in Hok.
    destruct (Hok {| Api.r_clip_id := "7d0c3b2e"; Api.r_status := "pending";
                     Api.r_message := "Clip request submitted successfully" |})
      as (_ & _ & _ & _ & _ & Hjob).
    + reflexivity.
    + exact Hjob.
  - pose proof (create_clip_enqueues_only_when_found racy_os "mediamtx_clips"
                  demo_filename_timestamp init
                  {| req_camera_id := "camera1"; timestamp := t0 + seconds 30;
                     duration := 20 |} "7d0c3b2e" (t0 + seconds 60)) as (_ & Herr & _).
    cbn zeta in Herr.
    destruct (Herr 500 "Internal server error") as (Hjobs & _).
    + reflexivity.
    + exact Hjobs.
  - pose proof (create_clip_enqueues_only_when_found demo_os "mediamtx_clips"
                  demo_filename_timestamp init
                  {| req_camera_id := "camera1"; timestamp := datetime_min + seconds 10;
                     duration := 20 |} "7d0c3b2e" (t0 + seconds 60)) as (_ & _ & Hlow).
    cbn zeta in Hlow. apply Hlow. intros [[H _] _]. vm_compute in H. now apply H.
Defined.

(** ** metrics.py *)

Import Metrics.

Lemma record_request_complete_active (c : MetricsCollector) (id camera : string)
    (success : bool) (now started : Z) :
  active_requests c !! id = Some started ->
  record_request_complete c id camera success now
  = {| clip_requests_total :=
         inc (camera, if success then "success" else "failed")
             (clip_requests_total c);
       clip_latency_seconds := clip_latency_seconds c ++ [now - started];
       clip_queue_depth := clip_queue_depth c;
       clip_errors_total := clip_errors_total c;
       active_requests := delete id (active_requests c) |}.
Proof. intros H. unfold record_request_complete. now rewrite H. Qed.

Lemma record_request_complete_inactive (c : MetricsCollector) (id camera : string)
    (success : bool) (now : Z) :
  active_requests c !! id = None ->
  record_request_complete c id camera success now
  = {| clip_requests_total :=
         inc (camera, if success then "success" else "failed")
             (clip_requests_total c);
       clip_latency_seconds := clip_latency_seconds c;
       clip_queue_depth := clip_queue_depth c;
       clip_errors_total := clip_errors_total c;
       active_requests := active_requests c |}.
Proof. intros H. unfold record_request_complete. now rewrite H. Qed.

(** X22.  A request started at [t1] and completed at [t2] adds the latency
    [t2 - t1] to the histogram and leaves the active set; a completion for
    an id that is not active (never started, or already completed) adds no
    latency and leaves the active set alone, yet is still counted in
    [clip_requests_total] under its camera and outcome. *)
Theorem latency_is_observed_once (c : MetricsCollector) (id camera : string)
    (success success' : bool) (t1 t2 t3 : Z) :
  let status := fun ok : bool => if ok then "success" else "failed" in
  let c1 := record_request_start c id camera t1 in
  let c2 := record_request_complete c1 id camera success t2 in
  let c3 := record_request_complete c2 id camera success' t3 in
  clip_latency_seconds c2 = clip_latency_seconds c ++ [t2 - t1]
  /\ active_requests c2 !! id = None
  /\ clip_latency_seconds c3 = clip_latency_seconds c2
  /\ active_requests c3 = active_requests c2
  /\ count (camera, status success') (clip_requests_total c3)
     = S (count (camera, status success') (clip_requests_total c2))
  /\ count (camera, "started") (clip_requests_total c1)
     = S (count (camera, "started") (clip_requests_total c)).
Proof.
  cbn zeta.
  rewrite (record_request_complete_active (record_request_start c id camera t1)
             id camera success t2 t1) by apply lookup_insert_eq.
  rewrite (record_request_complete_inactive _ id camera success' t3)
    by apply lookup_delete_eq.
  cbn [active_requests clip_latency_seconds clip_requests_total record_request_start].
  split; [reflexivity|]. split; [apply lookup_delete_eq|].
  split; [reflexivity|]. split; [reflexivity|].
  unfold count, inc. rewrite !lookup_insert_eq. cbn. auto.
Qed.

(** ** job_manager.py and metrics.py together *)

Import MetricsRuns.

Section Replay.
Variable clock : nat -> Z.

Local Abbreviation state_after := (state_after clock).
Local Abbreviation in_step := (in_step clock).

Lemma replay_snoc (calls : list MetricEvent) (m : MetricEvent) :
  replay clock (calls ++ [m]) = snd (apply_call clock (state_after calls) m).
Proof. unfold replay, MetricsRuns.state_after. now rewrite fold_left_app. Qed.

Lemma in_step_ext (calls : list MetricEvent) (st st' : string -> option ClipStatus) :
  (forall id, (exists x, st id = Some x /\ is_terminal x = false)
              <-> (exists x, st' id = Some x /\ is_terminal x = false)) ->
  in_step calls st -> in_step calls st'.
Proof.
  intros Hext [Ha Hl]. split; [|exact Hl]. intros id. rewrite Ha. apply Hext.
Qed.

Lemma in_step_quiet (calls : list MetricEvent) (m : MetricEvent)
    (st : string -> option ClipStatus) :
  match m with UpdateQueueDepth _ | RecordError _ => True | _ => False end ->
  in_step calls st -> in_step (calls ++ [m]) st.
Proof.
  intros Hm [Ha Hl]. unfold MetricsRuns.in_step, completions in *.
  rewrite replay_snoc, List.filter_app, length_app.
  change (replay clock calls) with (snd (state_after calls)) in *.
  destruct (state_after calls) as [n c].
  destruct m; try destruct Hm; cbn in *; (split; [exact Ha|lia]).
Qed.

Lemma in_step_start (calls : list MetricEvent) (id camera : string)
    (st st' : string -> option ClipStatus) :
  st' id = Some PENDING ->
  (forall id', id' <> id -> st' id' = st id') ->
  in_step calls st -> in_step (calls ++ [RecordRequestStart id camera]) st'.
Proof.
  intros Hnew Hold [Ha Hl]. unfold MetricsRuns.in_step, completions in *.
  rewrite replay_snoc, List.filter_app, length_app.
  change (replay clock calls) with (snd (state_after calls)) in *.
  destruct (state_after calls) as [n c]. cbn in *.
  split; [|lia]. intros id'. destruct (decide (id = id')) as [<-|Hne].
  - rewrite lookup_insert_eq. split; [eauto|intros _; eauto].
  - rewrite lookup_insert_ne by exact Hne. rewrite Ha, Hold by congruence.
    reflexivity.
Qed.

Lemma in_step_complete (calls : list MetricEvent) (id camera : string)
    (success : bool) (st st' : string -> option ClipStatus) (x y : ClipStatus) :
  st id = Some x -> is_terminal x = false ->
  st' id = Some y -> is_terminal y = true ->
  (forall id', id' <> id -> st' id' = st id') ->
  in_step calls st ->
  in_step (calls ++ [RecordRequestComplete id camera success]) st'.
Proof.
  intros Hx Hxt Hy Hyt Hold [Ha Hl]. unfold MetricsRuns.in_step, completions in *.
  rewrite replay_snoc, List.filter_app, length_app.
  change (replay clock calls) with (snd (state_after calls)) in *.
  destruct (state_after calls) as [n c]. cbn [snd apply_call] in *.
  destruct (proj2 (Ha id) (ex_intro _ x (conj Hx Hxt))) as [started Hs].
  rewrite (record_request_complete_active c id camera success (clock n) started Hs).
  cbn. split.
  - intros id'. destruct (decide (id = id')) as [<-|Hne].
    + rewrite lookup_delete_eq. split; [intros [? ?]; discriminate|].
      intros (z & Hz & Hzt). congruence.
    + rewrite lookup_delete_ne by exact Hne. rewrite Ha, Hold by congruence.
      reflexivity.
  - rewrite length_app. cbn. lia.
Qed.

End Replay.

Lemma metrics_update_job_status (s : State) id st u e now :
  metrics (update_job_status s id st u e now)
  = match jobs s !! id with
    | Some job =>
        if is_terminal st
        then metrics s ++ [RecordRequestComplete id (camera_id job)
                                                 (bool_decide (st = DONE))]
        else metrics s
    | None => metrics s
    end.
Proof.
  unfold update_job_status. destruct (jobs s !! id); [|reflexivity].
  destruct (is_terminal st); reflexivity.
Qed.

Lemma metrics_enqueue (s : State) id request ws we now :
  metrics (enqueue s id request ws we now)
  = (metrics s ++ [UpdateQueueDepth (length (processing_queue s ++ [id]))])
    ++ [RecordRequestStart id (req_camera_id request)].
Proof.
  unfold enqueue. cbn. destruct (workers_started s) eqn:E; cbn; [reflexivity|].
  unfold start_workers. cbn. now rewrite E.
Qed.

Section ReplayRuns.
Variable clock : nat -> Z.

(** A worker's terminal write on the job it holds keeps the collector in
    step. *)
Lemma in_step_terminal_update (s : State) (id : string) (st : ClipStatus)
    (u e : option string) (now : Z) :
  status_of s id = Some PROCESSING ->
  is_terminal st = true ->
  in_step clock (metrics s) (status_of s) ->
  in_step clock (metrics (update_job_status s id st u e now))
          (status_of (update_job_status s id st u e now)).
Proof.
  intros Hs Hterm Hin. pose proof Hs as Hs'. apply status_of_Some in Hs'.
  destruct Hs' as (job & Hj & Hst).
  rewrite metrics_update_job_status, Hj, Hterm.
  apply (in_step_complete clock _ id _ _ (status_of s) _ PROCESSING st);
    try assumption.
  - reflexivity.
  - rewrite status_of_update_job_status, Hs. now case_decide.
  - intros id' Hne. rewrite status_of_update_job_status. now case_decide.
Qed.

Lemma step_in_step (s : State) (ev : Event) :
  inv s ->
  is_update_call ev = false ->
  in_step clock (metrics s) (status_of s) ->
  in_step clock (metrics (default s (step s ev)))
          (status_of (default s (step s ev))).
Proof.
  intros Hinv Hev Hin. destruct ev as [id request now|i o now|]; [| |discriminate].
  - destruct (jobs s !! id) eqn:E; [cbn [step]; rewrite E; exact Hin|].
    destruct (step_submit s id request now E) as [[-> _]|[-> _]]; [exact Hin|].
    rewrite metrics_enqueue.
    apply (in_step_start clock _ id _ (status_of s)).
    + unfold status_of. rewrite enqueue_jobs, lookup_insert_eq. reflexivity.
    + intros id' Hne. unfold status_of. rewrite enqueue_jobs.
      now rewrite lookup_insert_ne by congruence.
    + now apply in_step_quiet.
  - cbn [step]. destruct (worker_step s i o now) as [s'|] eqn:E; [|exact Hin].
    change (default s (Some s')) with s'.
    unfold worker_step in E. destruct (workers s !! i) as [pc|] eqn:Hi; [|discriminate].
    destruct pc as [|id|id|id|id success result].
    + destruct (processing_queue s) as [|id q]; [discriminate|]. injection E as <-.
      cbn. change (in_step clock (metrics s ++ [UpdateQueueDepth (length q)])
                           (status_of s)).
      now apply in_step_quiet.
    + destruct (get_job s id); injection E as <-; exact Hin.
    + injection E as <-.
      destruct (inv_worker s Hinv i _ id Hi eq_refl) as [Hs _]. cbn in Hs.
      change (in_step clock (metrics (update_job_status s id PROCESSING None None now))
                (status_of (update_job_status s id PROCESSING None None now))).
      rewrite metrics_update_job_status.
      replace (match jobs s !! id with
               | Some job => if is_terminal PROCESSING then _ else metrics s
               | None => metrics s
               end) with (metrics s) by (destruct (jobs s !! id); reflexivity).
      eapply in_step_ext; [|exact Hin].
      intros id'. rewrite status_of_update_job_status. case_decide; [subst|reflexivity].
      rewrite Hs. split; intros _; eauto.
    + destruct (inv_worker s Hinv i _ id Hi eq_refl) as [Hs _]. cbn in Hs.
      destruct o as [success result|msg]; injection E as <-; [exact Hin|].
      change (in_step clock
                (metrics (update_job_status s id FAILED None
                            (Some ("Worker error: " +:+ msg)) now)
                 ++ [RecordError "worker_exception"])
                (status_of (update_job_status s id FAILED None
                              (Some ("Worker error: " +:+ msg)) now))).
      apply in_step_quiet; [exact I|]. now apply in_step_terminal_update.
    + destruct (inv_worker s Hinv i _ id Hi eq_refl) as [Hs _]. cbn in Hs.
      destruct success; injection E as <-.
      * change (in_step clock
                  (metrics (update_job_status s id DONE (Some result) None now))
                  (status_of (update_job_status s id DONE (Some result) None now))).
        now apply in_step_terminal_update.
      * change (in_step clock
                  (metrics (update_job_status s id FAILED None (Some result) now)
                   ++ [RecordError "processing_failed"])
                  (status_of (update_job_status s id FAILED None (Some result) now))).
        apply in_step_quiet; [exact I|]. now apply in_step_terminal_update.
Qed.

(** X23.  Over every execution made of submissions and worker moves, the
    metrics collector fed with the coordinator's calls stays in step with
    the job table: the active requests are exactly the jobs that are
    neither DONE nor FAILED, and every [record_request_complete] call
    found its request active, so the latency histogram holds one sample
    per completion. *)
Theorem metrics_follow_jobs (evs : list Event) :
  Forall (fun ev => is_update_call ev = false) evs ->
  let s := run init evs in
  let c := replay clock (metrics s) in
  (forall id, is_Some (active_requests c !! id) <->
              exists st, status_of s id = Some st /\ is_terminal st = false)
  /\ length (clip_latency_seconds c) = completions (metrics s).
Proof.
  intros Hevs. cbn zeta.
  assert (forall s, inv s -> in_step clock (metrics s) (status_of s) ->
            in_step clock (metrics (run s evs)) (status_of (run s evs))) as Hrun.
  { induction Hevs as [|ev evs Hev Hevs IH]; intros s Hinv Hin; [exact Hin|].
    rewrite run_cons. apply IH.
    - now apply step_inv.
    - now apply step_in_step. }
  apply (Hrun init inv_init). split.
  - intros id. cbn. rewrite lookup_empty. unfold status_of. cbn.
    rewrite lookup_empty. cbn. split; [intros [? ?]; discriminate|].
    intros (x & Hx & _). discriminate.
  - reflexivity.
Qed.

End ReplayRuns.

Lemma metrics_follow_jobs_witness :
  let c := replay (fun n => seconds (Z.of_nat n)) (metrics (run init worker_run)) in
  (forall id, is_Some (active_requests c !! id) <->
              exists st, status_of (run init worker_run) id = Some st
                         /\ is_terminal st = false)
  /\ length (clip_latency_seconds c) = completions (metrics (run init worker_run)).
Proof.
  apply (metrics_follow_jobs (fun n => seconds (Z.of_nat n)) worker_run).
  repeat constructor.
Defined.

(** ** mediamtx_client.py: the timestamp in a file name *)

Import FilenameTimestamp.

(** All four patterns begin with four digits. *)
Lemma templates_start_with_four_digits (p : Pattern) :
  In p timestamp_patterns -> exists t, template p = digits 4 ++ t.
Proof.
  intros [<-|[<-|[<-|[<-|[]]]]]; eexists; reflexivity.
Qed.

Lemma match_here_digit_cons (j : nat) (t : list Cls) (c : ascii) (s : string) :
  match_here (digits (S j) ++ t) (String c s)
  = if is_digit c then String c <$> match_here (digits j ++ t) s else None.
Proof. reflexivity. Qed.

Lemma short_runs_cons (b : bool) (k : nat) (c : ascii) (s : string) :
  short_runs b k (String c s)
  = if is_digit c then (S k <? 4)%nat && short_runs b (S k) s
    else short_runs b 0 s.
Proof. reflexivity. Qed.

(** Where every digit run is shorter than four, a pattern position that
    still needs [j] digits, [k] having been read, cannot be matched. *)
Lemma match_here_short_runs (b : bool) (s : string) (k j : nat) (t : list Cls) :
  short_runs b k s = true -> (4 <= k + j)%nat -> (1 <= j)%nat ->
  (s = EmptyString -> b = true) ->
  match_here (digits j ++ t) s = None.
Proof.
  revert k j. induction s as [|c s IH]; intros k j Hs Hkj Hj Hend.
  - destruct j; [lia|reflexivity].
  - destruct j as [|j]; [lia|]. rewrite match_here_digit_cons.
    rewrite short_runs_cons in Hs. destruct (is_digit c); [|reflexivity].
    apply andb_true_iff in Hs. destruct Hs as [Hk Hs].
    apply Nat.ltb_lt in Hk.
    rewrite (IH (S k) j); [reflexivity|exact Hs|lia|lia|].
    intros ->. cbn in Hs. destruct b; [reflexivity|discriminate].
Qed.

Lemma short_runs_mono (b : bool) (s : string) (k k' : nat) :
  (k' <= k)%nat -> short_runs b k s = true -> short_runs b k' s = true.
Proof.
  revert k k'. induction s as [|c s IH]; intros k k' Hle Hs.
  - cbn in *. destruct b; [reflexivity|]. cbn in *.
    apply Nat.eqb_eq in Hs. subst. replace k' with 0%nat by lia. reflexivity.
  - rewrite short_runs_cons in *. destruct (is_digit c); [|exact Hs].
    apply andb_true_iff in Hs. destruct Hs as [Hk Hs]. apply Nat.ltb_lt in Hk.
    apply andb_true_iff. split; [apply Nat.ltb_lt; lia|].
    apply (IH (S k)); [lia|exact Hs].
Qed.

Lemma short_runs_tail (b : bool) (c : ascii) (s : string) (k : nat) :
  short_runs b k (String c s) = true -> short_runs b 0 s = true.
Proof.
  rewrite short_runs_cons. destruct (is_digit c); [|auto].
  intros H. apply andb_true_iff in H. destruct H as [_ H].
  eapply short_runs_mono; [|exact H]. lia.
Qed.

(** No pattern matches anywhere in a text whose digit runs are all
    shorter than four. *)
Lemma re_search_short_runs (s : string) (k : nat) (t : list Cls) :
  short_runs true k s = true -> re_search (digits 4 ++ t) s = None.
Proof.
  revert k. induction s as [|c s IH]; intros k Hs; [reflexivity|].
  cbn [re_search].
  rewrite (match_here_short_runs true (String c s) 0 4 t);
    [|eapply short_runs_mono; [|exact Hs]; lia|lia|lia|auto].
  apply (IH 0%nat). eapply short_runs_tail; eauto.
Qed.

(** A prefix whose digit runs are shorter than four and which does not
    end in a digit is skipped by the search. *)
Lemma re_search_skip_prefix (pre s : string) (k : nat) (t : list Cls) :
  short_runs false k pre = true ->
  re_search (digits 4 ++ t) (pre +:+ s) = re_search (digits 4 ++ t) s.
Proof.
  revert k. induction pre as [|c pre IH]; intros k Hs; [reflexivity|].
  change (String c pre +:+ s) with (String c (pre +:+ s)).
  cbn [re_search].
  assert (match_here (digits 4 ++ t) (String c (pre +:+ s)) = None) as ->.
  { clear IH. rewrite match_here_digit_cons.
    rewrite short_runs_cons in Hs. destruct (is_digit c); [|reflexivity].
    apply andb_true_iff in Hs. destruct Hs as [_ Hs].
    assert (forall p n j, short_runs false n p = true -> (4 <= n + j)%nat ->
              (1 <= j)%nat -> (1 <= n)%nat ->
              match_here (digits j ++ t) (p +:+ s) = None) as Hgen.
    { induction p as [|d p IHp]; intros n j Hp Hnj Hj Hn.
      - cbn in Hp. apply Nat.eqb_eq in Hp. lia.
      - change (String d p +:+ s) with (String d (p +:+ s)).
        destruct j as [|j]; [lia|]. rewrite match_here_digit_cons.
        rewrite short_runs_cons in Hp. destruct (is_digit d); [|reflexivity].
        apply andb_true_iff in Hp. destruct Hp as [Hn4 Hp].
        apply Nat.ltb_lt in Hn4.
        rewrite (IHp (S n) j); [reflexivity|exact Hp|lia|lia|lia]. }
    rewrite (Hgen pre (S k) 3%nat); [reflexivity|exact Hs|lia|lia|lia]. }
  apply (IH 0%nat).
  rewrite short_runs_cons in Hs. destruct (is_digit c); [|exact Hs].
  apply andb_true_iff in Hs. destruct Hs as [_ Hs].
  eapply short_runs_mono; [|exact Hs]. lia.
Qed.

Lemma first_parsed_no_match (fromiso : string -> result Z) (ps : list Pattern)
    (name : string) :
  (forall p, In p ps -> re_search (template p) name = None) ->
  first_parsed fromiso ps name = None.
Proof.
  induction ps as [|p ps IH]; intros H; [reflexivity|].
  cbn [first_parsed]. rewrite (H p (or_introl eq_refl)).
  apply IH. intros q Hq. apply H. now right.
Qed.

(** X24.  An ASCII file name in which no four digits stand in a row (such
    as [clip.mp4] or [camera1.mkv]) carries no timestamp: no pattern
    matches, the start time of the file is its modification time, and if
    that cannot be read the file is skipped without an exception. *)
Theorem name_without_digit_run_uses_mtime (os : MediaMTXClient.Os)
    (fromisoformat : string -> result Z) (file_path : string) (ws we : Z) :
  ascii_only (MediaMTXClient.basename os file_path) = true ->
  short_runs true 0 (MediaMTXClient.basename os file_path) = true ->
  filename_timestamp fromisoformat (MediaMTXClient.basename os file_path) = None
  /\ MediaMTXClient.clip_start os (filename_timestamp fromisoformat) file_path
     = match MediaMTXClient.stat_mtime os file_path with
       | Ok mtime => Some mtime
       | Raise _ => None
       end
  /\ (forall e, MediaMTXClient.stat_mtime os file_path = Raise e ->
        MediaMTXClient.extract_clip_info os (filename_timestamp fromisoformat)
          file_path ws we = Ok None).
Proof.
  intros _ H.
  assert (filename_timestamp fromisoformat (MediaMTXClient.basename os file_path)
          = None) as Hnone.
  { apply first_parsed_no_match. intros p Hp.
    destruct (templates_start_with_four_digits p Hp) as [t ->].
    eapply re_search_short_runs; eauto. }
  split; [exact Hnone|].
  assert (MediaMTXClient.clip_start os (filename_timestamp fromisoformat) file_path
          = match MediaMTXClient.stat_mtime os file_path with
            | Ok mtime => Some mtime
            | Raise _ => None
            end) as Hstart
    by (unfold MediaMTXClient.clip_start; now rewrite Hnone).
  split; [exact Hstart|].
  intros e He. unfold MediaMTXClient.extract_clip_info. now rewrite Hstart, He.
Qed.

Lemma name_without_digit_run_uses_mtime_witness :
  MediaMTXClient.extract_clip_info demo_os
    (filename_timestamp (fun _ => Raise (ValueError "Invalid isoformat string")))
    clip_untimed (t0 + seconds 15) (t0 + seconds 35) = Ok None.
Proof.
  pose proof (name_without_digit_run_uses_mtime demo_os
                (fun _ => Raise (ValueError "Invalid isoformat string"))
                clip_untimed (t0 + seconds 15) (t0 + seconds 35)) as H.
  destruct H as (_ & _ & Hskip); [reflexivity|reflexivity|].
  apply (Hskip (OSError "No such file or directory")). reflexivity.
Defined.

Lemma digit_char_facts (n : Z) :
  0 <= n <= 9 ->
  is_digit (digit_char n) = true /\ digit_value (digit_char n) = n.
Proof.
  intros Hn. unfold is_digit, digit_value, digit_char.
  rewrite nat_ascii_embedding by lia. rewrite Z2Nat.id by lia.
  split; [|lia]. apply andb_true_iff. rewrite !Z.leb_le. lia.
Qed.

Lemma literal_is_not_digit (a c : ascii) :
  is_digit a = false -> is_digit c = true -> Ascii.eqb a c = false.
Proof.
  intros Ha Hc. destruct (Ascii.eqb_spec a c) as [->|]; [congruence|reflexivity].
Qed.

Section DashedName.
Variable fromisoformat : string -> result Z.
Variables c1 c2 c3 c4 c5 c6 c7 c8 c9 c10 c11 c12 c13 c14 : ascii.
Hypothesis D1 : is_digit c1 = true.
Hypothesis D2 : is_digit c2 = true.
Hypothesis D3 : is_digit c3 = true.
Hypothesis D4 : is_digit c4 = true.
Hypothesis D5 : is_digit c5 = true.
Hypothesis D6 : is_digit c6 = true.
Hypothesis D7 : is_digit c7 = true.
Hypothesis D8 : is_digit c8 = true.
Hypothesis D9 : is_digit c9 = true.
Hypothesis D10 : is_digit c10 = true.
Hypothesis D11 : is_digit c11 = true.
Hypothesis D12 : is_digit c12 = true.
Hypothesis D13 : is_digit c13 = true.
Hypothesis D14 : is_digit c14 = true.

Local Abbreviation dashed_text :=
  (fun rest : string =>
     String c1 (String c2 (String c3 (String c4 (String "-"
     (String c5 (String c6 (String "-"
     (String c7 (String c8 (String "_"
     (String c9 (String c10 (String "-"
     (String c11 (String c12 (String "-"
     (String c13 (String c14 rest))))))))))))))))))).

Local Abbreviation digits_text :=
  (String c1 (String c2 (String c3 (String c4
   (String c5 (String c6 (String c7 (String c8
   (String c9 (String c10 (String c11 (String c12
   (String c13 (String c14 EmptyString)))))))))))))).

Lemma match_dashed_text (rest : string) :
  match_here (template pattern_dashed) (dashed_text rest)
  = Some (dashed_text EmptyString).
Proof.
  cbn -[is_digit].
  rewrite D1, D2, D3, D4, D5, D6, D7, D8, D9, D10, D11, D12, D13, D14.
  reflexivity.
Qed.

Lemma parse_dashed_text :
  parse_match fromisoformat pattern_dashed (dashed_text EmptyString)
  = strptime digits_text.
Proof.
  unfold parse_match. cbn [groups pattern_dashed group fst snd String.substring].
  cbn [remove_char].
  rewrite !Ascii.eqb_refl.
  rewrite !(literal_is_not_digit "-" _ eq_refl D1),
    !(literal_is_not_digit "-" _ eq_refl D2),
    !(literal_is_not_digit "-" _ eq_refl D3),
    !(literal_is_not_digit "-" _ eq_refl D4),
    !(literal_is_not_digit "-" _ eq_refl D5),
    !(literal_is_not_digit "-" _ eq_refl D6),
    !(literal_is_not_digit "-" _ eq_refl D7),
    !(literal_is_not_digit "-" _ eq_refl D8),
    !(literal_is_not_digit "-" _ eq_refl D9),
    !(literal_is_not_digit "-" _ eq_refl D10),
    !(literal_is_not_digit "-" _ eq_refl D11),
    !(literal_is_not_digit "-" _ eq_refl D12),
    !(literal_is_not_digit "-" _ eq_refl D13),
    !(literal_is_not_digit "-" _ eq_refl D14).
  reflexivity.
Qed.

Lemma strptime_digits_text :
  strptime digits_text
  = let c := {| year := ((digit_value c1 * 10 + digit_value c2) * 10
                         + digit_value c3) * 10 + digit_value c4;
                month := digit_value c5 * 10 + digit_value c6;
                day := digit_value c7 * 10 + digit_value c8;
                hour := digit_value c9 * 10 + digit_value c10;
                minute := digit_value c11 * 10 + digit_value c12;
                second := digit_value c13 * 10 + digit_value c14 |} in
    if valid_civil c then Ok (to_usec c)
    else Raise (ValueError "time data does not match format").
Proof.
  unfold strptime. cbn [all_digits].
  rewrite D1, D2, D3, D4, D5, D6, D7, D8, D9, D10, D11, D12, D13, D14.
  cbn [andb String.length Nat.eqb String.substring number]. reflexivity.
Qed.

Lemma short_runs_digit (b : bool) (k : nat) (c : ascii) (s : string) :
  is_digit c = true ->
  short_runs b k (String c s) = (S k <? 4)%nat && short_runs b (S k) s.
Proof. intros H. now rewrite short_runs_cons, H. Qed.

Lemma short_runs_other (b : bool) (k : nat) (c : ascii) (s : string) :
  is_digit c = false -> short_runs b k (String c s) = short_runs b 0 s.
Proof. intros H. now rewrite short_runs_cons, H. Qed.

Lemma re_search_cons (p : list Cls) (c : ascii) (s : string) :
  re_search p (String c s)
  = match match_here p (String c s) with
    | Some m => Some m
    | None => re_search p s
    end.
Proof. reflexivity. Qed.

Lemma re_search_here (p : list Cls) (s m : string) :
  match_here p s = Some m -> re_search p s = Some m.
Proof. intros H. destruct s; cbn [re_search]; now rewrite H. Qed.

(** A dashed stamp after a prefix without digit runs is what the first
    pattern finds, and its fourteen digits are what is parsed. *)
Lemma first_parsed_dashed_text (pre rest : string) :
  short_runs false 0 pre = true ->
  filename_timestamp fromisoformat (pre +:+ dashed_text rest)
  = match strptime digits_text with
    | Ok t => Some t
    | Raise _ =>
        first_parsed fromisoformat [pattern_compact; pattern_numeric; pattern_iso]
          (pre +:+ dashed_text rest)
    end.
Proof.
  intros Hpre. unfold filename_timestamp, timestamp_patterns.
  cbn [first_parsed].
  assert (re_search (template pattern_dashed) (pre +:+ dashed_text rest)
          = Some (dashed_text EmptyString)) as ->.
  { change (template pattern_dashed)
      with (digits 4 ++ [Lit "-"] ++ digits 2 ++ [Lit "-"] ++ digits 2
            ++ [Lit "_"] ++ digits 2 ++ [Lit "-"] ++ digits 2 ++ [Lit "-"]
            ++ digits 2).
    rewrite (re_search_skip_prefix pre _ 0 _ Hpre).
    apply re_search_here. apply match_dashed_text. }
  now rewrite parse_dashed_text.
Qed.

(** The other three patterns find nothing in a text that holds a dashed
    stamp and otherwise no four digits in a row. *)
Lemma other_patterns_miss_dashed_text (pre rest : string) (p : Pattern) :
  In p [pattern_compact; pattern_numeric; pattern_iso] ->
  short_runs false 0 pre = true ->
  short_runs true 2 rest = true ->
  re_search (template p) (pre +:+ dashed_text rest) = None.
Proof.
  intros Hp Hpre Hrest.
  assert (exists t, template p = digits 4 ++ t
                    /\ match_here (digits 4 ++ t) (dashed_text rest) = None)
    as (t & -> & Hhere).
  { destruct Hp as [<-|[<-|[<-|[]]]].
    - exists (digits 4 ++ [Lit "_"] ++ digits 6). split; [reflexivity|].
      cbn -[is_digit]. rewrite D1, D2, D3, D4. reflexivity.
    - exists (digits 10). split; [reflexivity|].
      cbn -[is_digit]. rewrite D1, D2, D3, D4. reflexivity.
    - eexists. split; [reflexivity|].
      cbn -[is_digit]. rewrite D1, D2, D3, D4, D5, D6, D7, D8. reflexivity. }
  rewrite (re_search_skip_prefix pre _ 0 _ Hpre).
  rewrite re_search_cons, Hhere.
  change (String c2 (String c3 (String c4 (String "-"
           (String c5 (String c6 (String "-"
           (String c7 (String c8 (String "_"
           (String c9 (String c10 (String "-"
           (String c11 (String c12 (String "-"
           (String c13 (String c14 rest))))))))))))))))))
    with ((String c2 (String c3 (String c4 (String "-"
           (String c5 (String c6 (String "-"
           (String c7 (String c8 (String "_"
           (String c9 (String c10 (String "-"
           (String c11 (String c12 (String "-" EmptyString))))))))))))))))
          +:+ String c13 (String c14 rest)).
  rewrite (re_search_skip_prefix _ _ 0).
  - apply (re_search_short_runs _ 0).
    rewrite !short_runs_cons, D13, D14, Hrest. reflexivity.
  - rewrite (short_runs_digit _ _ _ _ D2), (short_runs_digit _ _ _ _ D3),
      (short_runs_digit _ _ _ _ D4), (short_runs_other _ _ "-" _ eq_refl),
      (short_runs_digit _ _ _ _ D5), (short_runs_digit _ _ _ _ D6),
      (short_runs_other _ _ "-" _ eq_refl),
      (short_runs_digit _ _ _ _ D7), (short_runs_digit _ _ _ _ D8),
      (short_runs_other _ _ "_" _ eq_refl),
      (short_runs_digit _ _ _ _ D9), (short_runs_digit _ _ _ _ D10),
      (short_runs_other _ _ "-" _ eq_refl),
      (short_runs_digit _ _ _ _ D11), (short_runs_digit _ _ _ _ D12),
      (short_runs_other _ _ "-" _ eq_refl).
    reflexivity.
Qed.

End DashedName.

Lemma days_in_month_le_31 (y m : Z) : days_in_month y m <= 31.
Proof.
  unfold days_in_month.
  destruct (m =? 2); [destruct (is_leap y); lia|].
  destruct ((m =? 4) || (m =? 6) || (m =? 9) || (m =? 11)); lia.
Qed.

Lemma valid_civil_bounds (c : Civil) :
  valid_civil c = true ->
  1 <= year c <= 9999 /\ 1 <= month c <= 12
  /\ 1 <= day c <= days_in_month (year c) (month c)
  /\ 0 <= hour c <= 23 /\ 0 <= minute c <= 59 /\ 0 <= second c <= 59.
Proof.
  unfold valid_civil. rewrite !andb_true_iff, !Z.leb_le. tauto.
Qed.

Lemma two_digit_facts (n : Z) :
  0 <= n <= 99 ->
  is_digit (digit_char (n / 10)) = true
  /\ is_digit (digit_char (n mod 10)) = true
  /\ digit_value (digit_char (n / 10)) * 10 + digit_value (digit_char (n mod 10)) = n.
Proof.
  intros Hn.
  assert (0 <= n / 10 <= 9) as H1 by (Z.div_mod_to_equations; lia).
  assert (0 <= n mod 10 <= 9) as H2 by (Z.div_mod_to_equations; lia).
  destruct (digit_char_facts _ H1) as [D1 V1].
  destruct (digit_char_facts _ H2) as [D2 V2].
  rewrite V1, V2. repeat split; try assumption.
  Z.div_mod_to_equations; lia.
Qed.

Lemma four_digit_facts (n : Z) :
  0 <= n <= 9999 ->
  is_digit (digit_char (n / 1000)) = true
  /\ is_digit (digit_char (n / 100 mod 10)) = true
  /\ is_digit (digit_char (n / 10 mod 10)) = true
  /\ is_digit (digit_char (n mod 10)) = true
  /\ ((digit_value (digit_char (n / 1000)) * 10
       + digit_value (digit_char (n / 100 mod 10))) * 10
      + digit_value (digit_char (n / 10 mod 10))) * 10
     + digit_value (digit_char (n mod 10)) = n.
Proof.
  intros Hn.
  assert (0 <= n / 1000 <= 9) as H1 by (Z.div_mod_to_equations; lia).
  assert (0 <= n / 100 mod 10 <= 9) as H2 by (Z.div_mod_to_equations; lia).
  assert (0 <= n / 10 mod 10 <= 9) as H3 by (Z.div_mod_to_equations; lia).
  assert (0 <= n mod 10 <= 9) as H4 by (Z.div_mod_to_equations; lia).
  destruct (digit_char_facts _ H1) as [D1 V1].
  destruct (digit_char_facts _ H2) as [D2 V2].
  destruct (digit_char_facts _ H3) as [D3 V3].
  destruct (digit_char_facts _ H4) as [D4 V4].
  rewrite V1, V2, V3, V4. repeat split; try assumption.
  Z.div_mod_to_equations; lia.
Qed.

(** X25.  An ASCII file name that carries an existing date and time
    written as [YYYY-MM-DD_HH-MM-SS], after a prefix in which no four
    digits stand in a row and which does not end in a digit, and before
    any suffix, gives exactly that date and time: the first pattern
    decides and the other three are never tried. *)
Theorem dashed_name_round_trip (fromisoformat : string -> result Z)
    (pre suf : string) (c : Civil) :
  ascii_only pre = true ->
  ascii_only suf = true ->
  valid_civil c = true ->
  short_runs false 0 pre = true ->
  filename_timestamp fromisoformat (pre +:+ dashed c +:+ suf) = Some (to_usec c).
Proof.
  intros _ _ Hc Hpre.
  destruct (valid_civil_bounds c Hc) as (Hy & Hmo & Hd & Hh & Hmi & Hs).
  pose proof (days_in_month_le_31 (year c) (month c)) as H31.
  destruct (four_digit_facts (year c)) as (Y1 & Y2 & Y3 & Y4 & YV); [lia|].
  destruct (two_digit_facts (month c)) as (M1 & M2 & MV); [lia|].
  destruct (two_digit_facts (day c)) as (A1 & A2 & AV); [lia|].
  destruct (two_digit_facts (hour c)) as (H1 & H2 & HV); [lia|].
  destruct (two_digit_facts (minute c)) as (I1 & I2 & IV); [lia|].
  destruct (two_digit_facts (second c)) as (S1 & S2 & SV); [lia|].
  pose proof (first_parsed_dashed_text fromisoformat _ _ _ _ _ _ _ _ _ _ _ _ _ _
                Y1 Y2 Y3 Y4 M1 M2 A1 A2 H1 H2 I1 I2 S1 S2 pre suf Hpre) as E.
  rewrite strptime_digits_text in E by assumption.
  cbv zeta in E. rewrite YV, MV, AV, HV, IV, SV in E.
  destruct c as [y mo d h mi s]. cbn [year month day hour minute second] in *.
  rewrite Hc in E. exact E.
Qed.

Lemma dashed_name_round_trip_witness :
  filename_timestamp (fun _ => Raise (ValueError "Invalid isoformat string"))
    ("cam1_" +:+ dashed {| year := 2025; month := 1; day := 1;
                           hour := 12; minute := 0; second := 0 |} +:+ ".mp4")
  = Some (to_usec {| year := 2025; month := 1; day := 1;
                     hour := 12; minute := 0; second := 0 |}).
Proof.
  apply dashed_name_round_trip; reflexivity.
Defined.

(** X26.  An ASCII file name whose dashed stamp [YYYY-MM-DD_HH-MM-SS]
    names a date or time that does not exist (a thirtieth of February, a
    twenty-fifth hour), and which otherwise has no four digits in a row,
    carries no timestamp: the failed conversion is swallowed, the other
    three patterns are tried and match nothing.  No nearby valid date is
    substituted. *)
Theorem dashed_name_with_impossible_date (fromisoformat : string -> result Z)
    (pre suf : string) (c : Civil) :
  ascii_only pre = true ->
  ascii_only suf = true ->
  0 <= year c <= 9999 -> 0 <= month c <= 99 -> 0 <= day c <= 99 ->
  0 <= hour c <= 99 -> 0 <= minute c <= 99 -> 0 <= second c <= 99 ->
  valid_civil c = false ->
  short_runs false 0 pre = true ->
  short_runs true 2 suf = true ->
  filename_timestamp fromisoformat (pre +:+ dashed c +:+ suf) = None.
Proof.
  intros _ _ Hy Hmo Hd Hh Hmi Hs Hc Hpre Hsuf.
  destruct (four_digit_facts (year c) Hy) as (Y1 & Y2 & Y3 & Y4 & YV).
  destruct (two_digit_facts (month c) Hmo) as (M1 & M2 & MV).
  destruct (two_digit_facts (day c) Hd) as (A1 & A2 & AV).
  destruct (two_digit_facts (hour c) Hh) as (H1 & H2 & HV).
  destruct (two_digit_facts (minute c) Hmi) as (I1 & I2 & IV).
  destruct (two_digit_facts (second c) Hs) as (S1 & S2 & SV).
  pose proof (first_parsed_dashed_text fromisoformat _ _ _ _ _ _ _ _ _ _ _ _ _ _
                Y1 Y2 Y3 Y4 M1 M2 A1 A2 H1 H2 I1 I2 S1 S2 pre suf Hpre) as E.
  rewrite strptime_digits_text in E by assumption.
  cbv zeta in E. rewrite YV, MV, AV, HV, IV, SV in E.
  assert (first_parsed fromisoformat
            [pattern_compact; pattern_numeric; pattern_iso]
            (pre +:+ dashed c +:+ suf) = None) as Hrest.
  { apply first_parsed_no_match. intros p Hp.
    exact (other_patterns_miss_dashed_text _ _ _ _ _ _ _ _ _ _ _ _ _ _
             Y1 Y2 Y3 Y4 M1 M2 A1 A2 H1 H2 I1 I2 S1 S2 pre suf p Hp Hpre Hsuf). }
  destruct c as [y mo d h mi s]. cbn [year month day hour minute second] in *.
  rewrite Hc in E. etransitivity; [exact E|exact Hrest].
Qed.

Lemma dashed_name_with_impossible_date_witness :
  filename_timestamp (fun _ => Raise (ValueError "Invalid isoformat string"))
    ("cam1_" +:+ dashed {| year := 2025; month := 2; day := 30;
                           hour := 12; minute := 0; second := 0 |} +:+ ".mp4")
  = None.
Proof.
  apply dashed_name_with_impossible_date;
    first [reflexivity | cbn [year month day hour minute second]; lia].
Defined.
